(** * Connector metadata publishing to GCS: a shallow embedding of
    [metadata_service/gcs_upload.py] and the properties of its publish
    protocol.

    The Python module is stateful: it reads and writes local files, probes and
    writes blobs of one GCS bucket, and prints.  The embedding threads an
    explicit [State] (local file system, bucket contents, output log) through
    a small state-and-exception monad [M].  Library calls the module does not
    define itself (hashing, YAML, git, HTTP, pathlib, pydash, tempfile, the
    validators) are fields of the record [Env]. *)

From Stdlib Require Import String List Bool Ascii.
From stdpp Require Import base option gmap strings list.

Local Open Scope string_scope.

(** ** Python values, exceptions and results *)

(** What [yaml.safe_load] produces: a tree of scalars, lists and mappings.
    A mapping keeps its insertion order, as a Python dict does. *)
#[warnings="-register-all"]
Inductive pyval : Type :=
  | PNone
  | PBool (b : bool)
  | PInt (z : Z)
  | PStr (s : string)
  | PList (l : list pyval)
  | PDict (d : list (string * pyval)).

Inductive Exn : Type :=
  | KeyError (key : string)
  | TypeError
  | AttributeError
  | FileNotFoundError (msg : string)
  | ValueError (msg : string)
  | ConnectionError
  | GitCommandError (msg : string)
  | BadName (name : string).

Inductive Result (A : Type) : Type :=
  | Ok (a : A)
  | Raise (e : Exn).
Arguments Ok {A} a.
Arguments Raise {A} e.

(** ** 🧩 TYPES *)

Record UploadedFile := mkUploadedFile {
  id : string;
  uploaded : bool;
  blob_id : option string
}.

Record MetadataUploadInfo := mkMetadataUploadInfo {
  metadata_uploaded : bool;
  metadata_file_path : string;
  uploaded_files : list UploadedFile
}.

Record MaybeUpload := mkMaybeUpload {
  mu_uploaded : bool;
  mu_blob_id : string
}.

Record ManifestOnlyFilePaths := mkManifestOnlyFilePaths {
  zip_file_path : string;
  sha256_file_path : string;
  sha256 : option string;
  manifest_file_path : string
}.

Record GitInfo := mkGitInfo {
  commit_sha : string;
  commit_timestamp : string;
  commit_author : string;
  commit_author_email : string
}.

Record ValidatorOptions := mkValidatorOptions {
  docs_path : string;
  prerelease_tag : option string
}.

(** The fields of the validated [ConnectorMetadataDefinitionV0] the module
    reads.  [releases] is optional: the module reads the flag with
    [getattr(metadata.data.releases, "isReleaseCandidate", False)]. *)
Record ConnectorReleases := mkConnectorReleases {
  isReleaseCandidate : bool
}.

Record ConnectorMetadataDefinitionV0 := mkMetadata {
  dockerRepository : string;
  dockerImageTag : string;
  documentationUrl : string;
  releases : option ConnectorReleases
}.

(** [upload_as_version: str | Literal[False]]. *)
Inductive VersionArg : Type :=
  | VFalse
  | VStr (s : string).

(** Python truthiness of such an argument: [False] and the empty string are
    falsy. *)
Definition version_truthy (v : VersionArg) : option string :=
  match v with
  | VFalse => None
  | VStr s => if decide (s = "") then None else Some s
  end.

(** ** The world the module acts on *)

(** A blob of the bucket: its bytes and its Cache-Control directive.  The
    store derives [md5_hash] from the bytes. *)
Record Blob := mkBlob {
  blob_data : string;
  cache_control : option string
}.

Inductive Event : Type :=
  | Print (line : string)
  | LogWarning (line : string).

Record State := mkState {
  fs : gmap string string;
  gcs : gmap string Blob;
  output : list Event
}.

Inductive HeadResult : Type :=
  | Response (ok : bool)
  | HeadRaises (e : Exn).

(** What the three git calls of [_get_git_info_for_file] come to:
    [git.Repo(...)], [repo.git.log("-1", "--format=%H", path)] and
    [repo.commit(commit_sha)].  For a file that exists and has no commit,
    [git log] prints nothing and [repo.commit("")] raises gitdb's [BadName];
    [GitCommandError] "unknown revision or path not in the working tree" is
    what [git log] fails with for a path that is not there. *)
Inductive GitLookup : Type :=
  | GitCommit (info : GitInfo)
  | InvalidGitRepositoryError
  | GitCommandFailed (msg : string)
  | GitBadName (name : string).

(** Everything the module imports and does not define. *)
Record Env := mkEnv {
  (* metadata_service.constants *)
  METADATA_FOLDER : string;
  ICON_FILE_NAME : string;
  MANIFEST_FILE_NAME : string;
  COMPONENTS_PY_FILE_NAME : string;
  (* metadata_service.helpers.files *)
  compute_gcs_md5 : string -> string;
  create_zip_and_get_sha256 : list (string * option string) -> string * string;
  (* google.cloud.storage *)
  gcs_blob_id : string -> string -> string;
  (* pathlib *)
  path_parent : string -> string;
  path_join : string -> string -> string;
  path_name : string -> string;
  (* [with_suffix] raises [ValueError] on a path that has an empty name *)
  path_with_suffix : string -> string -> Result string;
  (* tempfile: the name picked for a new file, given the files present *)
  mktemp : gmap string string -> string -> string;
  (* yaml *)
  yaml_safe_load : string -> Result pyval;
  yaml_dump : pyval -> string;
  (* git *)
  git_last_commit : string -> GitLookup;
  to_json_sanitized_dict : GitInfo -> pyval;
  (* pydash, str(), repr() of a string *)
  set_ : pyval -> list string -> pyval -> pyval;
  py_str : pyval -> string;
  py_repr : string -> string;
  (* requests *)
  requests_head : string -> HeadResult;
  (* metadata_service.validators *)
  validate_and_load : option string -> ValidatorOptions ->
                      option ConnectorMetadataDefinitionV0 * string;
  (* os.environ, json, google.oauth2 *)
  environ_GCS_CREDENTIALS : option string;
  service_account_client : string -> Result unit
}.

(** Modelled from the spec: the constants module is not part of the sources;
    the remote path layout names the two folders: [{metadataRoot}/
    {dockerRepository}/latest/{filename}] and [.../release_candidate/
    {filename}]. *)
Definition LATEST_GCS_FOLDER_NAME : string := "latest".
Definition RELEASE_CANDIDATE_GCS_FOLDER_NAME : string := "release_candidate".

(** ** The state-and-exception monad *)

Definition M (A : Type) : Type := State -> Result A * State.

Definition ret {A} (a : A) : M A := fun st => (Ok a, st).
Definition raise {A} (e : Exn) : M A := fun st => (Raise e, st).
Definition bind {A B} (m : M A) (k : A -> M B) : M B :=
  fun st =>
    match m st with
    | (Ok a, st') => k a st'
    | (Raise e, st') => (Raise e, st')
    end.
Definition lift {A} (r : Result A) : M A := fun st => (r, st).

Definition rbind {A B} (r : Result A) (k : A -> Result B) : Result B :=
  match r with
  | Ok a => k a
  | Raise e => Raise e
  end.

Notation "'do' x <- m ; k" := (bind m (fun x => k))
  (at level 10, x pattern, m at level 100, k at level 200).
Notation "'try' x <- r ; k" := (rbind r (fun x => k))
  (at level 10, x pattern, r at level 100, k at level 200).

Definition print (line : string) : M unit :=
  fun st => (Ok tt, mkState (fs st) (gcs st) (output st ++ [Print line])).
Definition logging_warning (line : string) : M unit :=
  fun st => (Ok tt, mkState (fs st) (gcs st) (output st ++ [LogWarning line])).

Definition path_exists (p : string) : M bool :=
  fun st => (Ok (bool_decide (is_Some (fs st !! p))), st).

(** [FileNotFoundError] carries the text [str()] gives for it.  For the
    error that opening a missing file raises, that text is: *)
Definition no_such_file (E : Env) (p : string) : string :=
  "[Errno 2] No such file or directory: " +:+ py_repr E p.

Definition read_bytes (E : Env) (p : string) : M string :=
  fun st =>
    match fs st !! p with
    | Some data => (Ok data, st)
    | None => (Raise (FileNotFoundError (no_such_file E p)), st)
    end.

Definition write_file (p data : string) : M unit :=
  fun st => (Ok tt, mkState (<[p := data]> (fs st)) (gcs st) (output st)).

(** [tempfile.NamedTemporaryFile(suffix=..., delete=False)]: the file is
    created, empty, under a new name, and stays after it is closed. *)
Definition NamedTemporaryFile (E : Env) (suffix : string) : M string :=
  fun st =>
    let p := mktemp E (fs st) suffix in
    (Ok p, mkState (<[p := ""]> (fs st)) (gcs st) (output st)).

Definition exn_text (e : Exn) : string :=
  match e with
  | KeyError k => k
  | TypeError => "TypeError"
  | AttributeError => "AttributeError"
  | FileNotFoundError m => m
  | ValueError m => m
  | ConnectionError => "ConnectionError"
  | GitCommandError m => m
  | BadName n => "Ref '" +:+ n +:+ "' did not resolve to an object"
  end.

Definition option_text (o : option string) : string :=
  match o with
  | Some s => s
  | None => "None"
  end.

Section Upload.

Context (E : Env).

(** ** 🚀 UPLOAD *)

(** [blob.exists()] followed by [blob.md5_hash]. *)
Definition remote_md5_hash (blob_path : string) : M (option string) :=
  fun st => (Ok (compute_gcs_md5 E ∘ blob_data <$> gcs st !! blob_path), st).

(** The upload replaces the object.  Of the blob's properties the client
    sends those set since the last [reload()]: the Cache-Control directive
    when [_save_blob_to_gcs] has just set it, and nothing otherwise, so a
    directive the object had before does not survive. *)
Definition upload_from_filename (blob_path file_path : string)
    (disable_cache : bool) : M unit :=
  fun st =>
    match fs st !! file_path with
    | None => (Raise (FileNotFoundError (no_such_file E file_path)), st)
    | Some data =>
        let cc := if disable_cache then Some "no-cache" else None in
        (Ok tt, mkState (fs st) (<[blob_path := mkBlob data cc]> (gcs st))
                        (output st))
    end.

Definition _save_blob_to_gcs (blob_path file_path : string)
    (disable_cache : bool) : M bool :=
  do _ <- print ("Uploading " +:+ file_path +:+ " to " +:+ blob_path +:+ "...");
  do _ <- upload_from_filename blob_path file_path disable_cache;
  ret true.

(** [bucket] stands for the bucket handle; the blobs themselves are in the
    state.  The id returned is the one of the blob object after the reload or
    the upload. *)
Definition upload_file_if_changed (local_file_path bucket blob_path : string)
    (disable_cache : bool) : M MaybeUpload :=
  do data <- read_bytes E local_file_path;
  let local_file_md5_hash := compute_gcs_md5 E data in
  do remote_blob_md5_hash <- remote_md5_hash blob_path;
  do _ <- print ("Local " +:+ local_file_path +:+ " md5_hash: "
                 +:+ local_file_md5_hash);
  do _ <- print ("Remote " +:+ blob_path +:+ " md5_hash: "
                 +:+ option_text remote_blob_md5_hash);
  if decide (Some local_file_md5_hash = remote_blob_md5_hash)
  then ret (mkMaybeUpload false (gcs_blob_id E bucket blob_path))
  else
    do up <- _save_blob_to_gcs blob_path local_file_path disable_cache;
    ret (mkMaybeUpload up (gcs_blob_id E bucket blob_path)).

Definition versioned_blob_path (gcp_connector_dir version name : string)
    : string :=
  (gcp_connector_dir +:+ "/" +:+ version) +:+ "/" +:+ name.

Definition latest_blob_path (gcp_connector_dir name : string) : string :=
  (gcp_connector_dir +:+ "/" +:+ LATEST_GCS_FOLDER_NAME) +:+ "/" +:+ name.

Definition missing_msg (local_path : string) : string :=
  "Expected to find file at " +:+ local_path +:+ ", but none was found.".

(** [local_path] is optional because one caller passes what
    [get_doc_local_file_path] returns, which can be [None]; [.exists()] on
    [None] raises [AttributeError]. *)
Definition _file_upload (local_path : option string)
    (gcp_connector_dir bucket file_key : string)
    (upload_as_version : VersionArg) (upload_as_latest : bool)
    (skip_if_not_exists : bool) (disable_cache : bool)
    : M (UploadedFile * UploadedFile) :=
  let latest_file_key := "latest_" +:+ file_key in
  let versioned_file_key := "versioned_" +:+ file_key in
  let versioned_file_info := mkUploadedFile versioned_file_key false None in
  let latest_file_info := mkUploadedFile latest_file_key false None in
  match local_path with
  | None => raise AttributeError
  | Some local_path =>
      do present <- path_exists local_path;
      if negb present then
        let msg := missing_msg local_path in
        if skip_if_not_exists then
          do _ <- logging_warning msg;
          ret (versioned_file_info, latest_file_info)
        else raise (FileNotFoundError msg)
      else
        do versioned_file_info <-
          match version_truthy upload_as_version with
          | Some version =>
              do r <- upload_file_if_changed local_path bucket
                        (versioned_blob_path gcp_connector_dir version
                           (path_name E local_path))
                        disable_cache;
              ret (mkUploadedFile versioned_file_key (mu_uploaded r)
                     (Some (mu_blob_id r)))
          | None => ret versioned_file_info
          end;
        do latest_file_info <-
          (if upload_as_latest then
             do r <- upload_file_if_changed local_path bucket
                       (latest_blob_path gcp_connector_dir
                          (path_name E local_path))
                       disable_cache;
             ret (mkUploadedFile latest_file_key (mu_uploaded r)
                    (Some (mu_blob_id r)))
           else ret latest_file_info);
        ret (versioned_file_info, latest_file_info)
  end.


(** ** Python operations on loosely typed documents *)

Fixpoint dict_get (d : list (string * pyval)) (k : string) : option pyval :=
  match d with
  | [] => None
  | (k', v) :: rest => if decide (k' = k) then Some v else dict_get rest k
  end.

(** [d[k] = v]: the entry is replaced where it stands, or added at the end. *)
Fixpoint dict_set (d : list (string * pyval)) (k : string) (v : pyval)
    : list (string * pyval) :=
  match d with
  | [] => [(k, v)]
  | (k', v') :: rest =>
      if decide (k' = k) then (k, v) :: rest else (k', v') :: dict_set rest k v
  end.

Fixpoint contains (needle hay : string) : bool :=
  match hay with
  | EmptyString => String.prefix needle hay
  | String _ rest => String.prefix needle hay || contains needle rest
  end.

(** [obj[k]] for a string key. *)
Definition py_getitem (obj : pyval) (k : string) : Result pyval :=
  match obj with
  | PDict d =>
      match dict_get d k with
      | Some v => Ok v
      | None => Raise (KeyError k)
      end
  | _ => Raise TypeError
  end.

(** [obj[k] = v] for a string key. *)
Definition py_setitem (obj : pyval) (k : string) (v : pyval) : Result pyval :=
  match obj with
  | PDict d => Ok (PDict (dict_set d k v))
  | _ => Raise TypeError
  end.

(** [k in obj] for a string [k]. *)
Definition py_contains (k : string) (obj : pyval) : Result bool :=
  match obj with
  | PDict d => Ok (bool_decide (is_Some (dict_get d k)))
  | PStr s => Ok (contains k s)
  | PList l =>
      Ok (existsb (fun x => match x with
                            | PStr s => bool_decide (s = k)
                            | _ => false
                            end) l)
  | _ => Raise TypeError
  end.

(** [obj.items()], from which [.values()] is read. *)
Definition py_items (obj : pyval) : Result (list (string * pyval)) :=
  match obj with
  | PDict d => Ok d
  | _ => Raise AttributeError
  end.

(** [pydash.get(obj, path, default)]: the default stands in as soon as a key
    of the path is absent. *)
Fixpoint pydash_get (obj : pyval) (path : list string) (default : pyval)
    : pyval :=
  match path with
  | [] => obj
  | k :: rest =>
      match obj with
      | PDict d =>
          match dict_get d k with
          | Some v => pydash_get v rest default
          | None => default
          end
      | _ => default
      end
  end.

(** ** 🛣️ FILES AND PATHS *)

Definition newline : ascii := ascii_of_nat 10.

Fixpoint strip_prefix (p s : string) : option string :=
  match p with
  | EmptyString => Some s
  | String a p' =>
      match s with
      | String b s' => if decide (a = b) then strip_prefix p' s' else None
      | EmptyString => None
      end
  end.

(** The longest run of characters other than a newline, and what follows. *)
Fixpoint span_line (s : string) : string * string :=
  match s with
  | EmptyString => (EmptyString, EmptyString)
  | String c rest =>
      if decide (c = newline) then (EmptyString, s)
      else let (body, tail) := span_line rest in (String c body, tail)
  end.

(** [re.compile(r"^https://docs\.airbyte\.com/(.+)$").search(url)], giving
    [match.group(1)]: [.+] takes no newline and [$] holds at the end of the
    string or before a last newline. *)
Definition docs_url_group (url : string) : option string :=
  match strip_prefix "https://docs.airbyte.com/" url with
  | None => None
  | Some rest =>
      let (body, tail) := span_line rest in
      if decide (body = "") then None
      else if decide (tail = "") then Some body
      else if decide (tail = String newline EmptyString) then Some body
      else None
  end.

Definition get_doc_local_file_path (metadata : ConnectorMetadataDefinitionV0)
    (docs_path : string) (inapp : bool) : Result (option string) :=
  match docs_url_group (documentationUrl metadata) with
  | Some group1 =>
      let extension := if inapp then ".inapp.md" else ".md" in
      try local_path <-
        path_with_suffix E (path_join E docs_path group1) extension;
      Ok (Some local_path)
  | None => Ok None
  end.

Definition maybe_create_components_zip (working_directory : string)
    : M ManifestOnlyFilePaths :=
  let yaml_manifest_file_path :=
    path_join E working_directory (MANIFEST_FILE_NAME E) in
  let components_py_file_path :=
    path_join E working_directory (COMPONENTS_PY_FILE_NAME E) in
  do python_components_zip_file_path <- NamedTemporaryFile E ".zip";
  do python_components_zip_sha256_file_path <- NamedTemporaryFile E ".sha256";
  do present <- path_exists components_py_file_path;
  do components_zip_sha256 <-
    (if present then
       fun st =>
         let files_to_zip :=
           [(components_py_file_path, fs st !! components_py_file_path);
            (yaml_manifest_file_path, fs st !! yaml_manifest_file_path)] in
         let (zip_bytes, digest) := create_zip_and_get_sha256 E files_to_zip in
         (do _ <- write_file python_components_zip_file_path zip_bytes;
          do _ <- write_file python_components_zip_sha256_file_path digest;
          ret (Some digest)) st
     else ret None);
  ret (mkManifestOnlyFilePaths python_components_zip_file_path
         python_components_zip_sha256_file_path
         components_zip_sha256
         yaml_manifest_file_path).

Definition _write_metadata_to_tmp_file (metadata_dict : pyval) : M string :=
  do tmp_file <- NamedTemporaryFile E ".yaml";
  do _ <- write_file tmp_file (yaml_dump E metadata_dict);
  ret tmp_file.

(** ** 🛠️ HELPERS *)

Definition invalid_yaml_msg (metadata_file_path : string) : string :=
  "Validation error: Metadata file " +:+ metadata_file_path
  +:+ " is invalid yaml".

Definition _safe_load_metadata_file (metadata_file_path : string) : M pyval :=
  fun st =>
    let attempt :=
      match fs st !! metadata_file_path with
      | None => Raise (FileNotFoundError (no_such_file E metadata_file_path))
      | Some text =>
          try metadata <- yaml_safe_load E text;
          match metadata with
          | PDict _ => Ok metadata
          | _ => Raise (ValueError (invalid_yaml_msg metadata_file_path +:+ "."))
          end
      end in
    match attempt with
    | Ok metadata => (Ok metadata, st)
    | Raise e =>
        (Raise (ValueError (invalid_yaml_msg metadata_file_path +:+ ": "
                            +:+ exn_text e)), st)
    end.

Definition _any_uploaded (uploaded_files : list UploadedFile)
    (keys : list string) : bool :=
  existsb (fun uploaded_file => bool_decide (id uploaded_file ∈ keys))
          uploaded_files.

Definition _get_git_info_for_file (original_metadata_file_path : string)
    : M (option GitInfo) :=
  match git_last_commit E original_metadata_file_path with
  | GitCommit info => ret (Some info)
  | InvalidGitRepositoryError =>
      do _ <- logging_warning
                ("Metadata file " +:+ original_metadata_file_path +:+
                 " is not in a git repository, skipping author info attachment.");
      ret None
  | GitCommandFailed msg =>
      if contains "unknown revision or path not in the working tree" msg
      then
        do _ <- logging_warning
                  ("Metadata file " +:+ original_metadata_file_path +:+
                   " is not tracked by git, skipping author info attachment.");
        ret None
      else raise (GitCommandError msg)
  | GitBadName name => raise (BadName name)
  end.

(** ** 🔧 METADATA MODIFICATIONS *)

(** The loop over [registryOverrides.values()]: a registry that has the key
    gets the tag, any other is left as it is. *)
Fixpoint override_registries (tag : string) (registries : list (string * pyval))
    : Result (list (string * pyval)) :=
  match registries with
  | [] => Ok []
  | (name, registry) :: rest =>
      try has_tag <- py_contains "dockerImageTag" registry;
      try registry' <- (if has_tag : bool
                        then py_setitem registry "dockerImageTag" (PStr tag)
                        else Ok registry);
      try rest' <- override_registries tag rest;
      Ok ((name, registry') :: rest')
  end.

(** The Python code mutates [metadata_dict["data"]] and the registries in
    place; on the tree each changed child is written back into its parent.
    A tree cannot say that two entries hold one object, as the aliases of a
    YAML anchor do: [_apply_prerelease_overrides_in_place] below is the
    function on the objects themselves. *)
Definition _apply_prerelease_overrides (metadata_dict : pyval)
    (validator_opts : ValidatorOptions) : Result pyval :=
  match prerelease_tag validator_opts with
  | None => Ok metadata_dict
  | Some tag =>
      try data <- py_getitem metadata_dict "data";
      try data <- py_setitem data "dockerImageTag" (PStr tag);
      try metadata_dict <- py_setitem metadata_dict "data" data;
      let overrides :=
        pydash_get metadata_dict ["data"; "registryOverrides"] (PDict []) in
      try registries <- py_items overrides;
      try registries <- override_registries tag registries;
      match py_getitem data "registryOverrides" with
      | Ok _ =>
          try data <- py_setitem data "registryOverrides" (PDict registries);
          py_setitem metadata_dict "data" data
      | Raise _ => Ok metadata_dict
      end
  end.

(** ** The document as Python holds it: objects in a store

    [yaml.safe_load] gives one object per anchor, and every alias of the
    anchor refers to that object.  A value is a scalar or a reference to a
    mapping or a list of the store. *)
Inductive oval : Type :=
  | ONone
  | OBool (b : bool)
  | OInt (z : Z)
  | OStr (s : string)
  | ORef (l : positive).

Inductive obj : Type :=
  | ODict (d : list (string * oval))
  | OList (l : list oval).

Fixpoint field_get (d : list (string * oval)) (k : string) : option oval :=
  match d with
  | [] => None
  | (k', v) :: rest => if decide (k' = k) then Some v else field_get rest k
  end.

Fixpoint field_set (d : list (string * oval)) (k : string) (v : oval)
    : list (string * oval) :=
  match d with
  | [] => [(k, v)]
  | (k', v') :: rest =>
      if decide (k' = k) then (k, v) :: rest else (k', v') :: field_set rest k v
  end.

(** [obj[k]], [obj[k] = v] and [k in obj] for a string [k]. *)
Definition obj_getitem (h : gmap positive obj) (v : oval) (k : string)
    : Result oval :=
  match v with
  | ORef l =>
      match h !! l with
      | Some (ODict d) =>
          match field_get d k with
          | Some x => Ok x
          | None => Raise (KeyError k)
          end
      | _ => Raise TypeError
      end
  | _ => Raise TypeError
  end.

Definition obj_setitem (h : gmap positive obj) (v : oval) (k : string)
    (x : oval) : Result (gmap positive obj) :=
  match v with
  | ORef l =>
      match h !! l with
      | Some (ODict d) => Ok (<[l := ODict (field_set d k x)]> h)
      | _ => Raise TypeError
      end
  | _ => Raise TypeError
  end.

Definition obj_contains (h : gmap positive obj) (k : string) (v : oval)
    : Result bool :=
  match v with
  | ORef l =>
      match h !! l with
      | Some (ODict d) => Ok (bool_decide (is_Some (field_get d k)))
      | Some (OList xs) =>
          Ok (existsb (fun x => match x with
                                | OStr s => bool_decide (s = k)
                                | _ => false
                                end) xs)
      | None => Raise TypeError
      end
  | OStr s => Ok (contains k s)
  | _ => Raise TypeError
  end.

(** [pydash.get(obj, path, default)]; [None] stands for the default. *)
Fixpoint obj_get (h : gmap positive obj) (v : oval) (path : list string)
    : option oval :=
  match path with
  | [] => Some v
  | k :: rest =>
      match v with
      | ORef l =>
          match h !! l with
          | Some (ODict d) =>
              match field_get d k with
              | Some x => obj_get h x rest
              | None => None
              end
          | _ => None
          end
      | _ => None
      end
  end.

(** The loop over [.values()] of the mapping at [overrides], which has [n]
    entries left from position [i] on.  The view is live: each value is read
    when its turn comes.  No key is added or removed on the way, so the
    iteration goes through. *)
Fixpoint override_registries_in_place (tag : string) (overrides : positive)
    (n i : nat) (h : gmap positive obj) : Result (gmap positive obj) :=
  match n with
  | O => Ok h
  | S n' =>
      match h !! overrides with
      | Some (ODict d) =>
          match d !! i with
          | Some (_, registry) =>
              try has_tag <- obj_contains h "dockerImageTag" registry;
              try h <- (if has_tag : bool
                        then obj_setitem h registry "dockerImageTag" (OStr tag)
                        else Ok h);
              override_registries_in_place tag overrides n' (S i) h
          | None => Ok h
          end
      | _ => Ok h
      end
  end.

(** [_apply_prerelease_overrides] on the store: the mappings are changed
    where they are, and the function returns the reference it was given. *)
Definition _apply_prerelease_overrides_in_place (h : gmap positive obj)
    (metadata_dict : oval) (validator_opts : ValidatorOptions)
    : Result (gmap positive obj) :=
  match prerelease_tag validator_opts with
  | None => Ok h
  | Some tag =>
      try data <- obj_getitem h metadata_dict "data";
      try h <- obj_setitem h data "dockerImageTag" (OStr tag);
      match obj_get h metadata_dict ["data"; "registryOverrides"] with
      | None => Ok h
      | Some (ORef overrides) =>
          match h !! overrides with
          | Some (ODict d) =>
              override_registries_in_place tag overrides (length d) 0 h
          | _ => Raise AttributeError
          end
      | Some _ => Raise AttributeError
      end
  end.

Definition _apply_author_info_to_metadata_file (metadata_dict : pyval)
    (original_metadata_file_path : string) : M pyval :=
  do git_info <- _get_git_info_for_file original_metadata_file_path;
  match git_info with
  | Some git_info =>
      let git_info_dict := to_json_sanitized_dict E git_info in
      ret (set_ E metadata_dict ["data"; "generated"; "git"] git_info_dict)
  | None => ret metadata_dict
  end.

Definition _apply_python_components_sha_to_metadata_file (metadata_dict : pyval)
    (python_components_sha256 : option string) : pyval :=
  match python_components_sha256 with
  | Some digest =>
      if decide (digest = "") then metadata_dict
      else
        let metadata_dict :=
          set_ E metadata_dict
            ["data"; "generated"; "pythonComponents"; "required"] (PBool true) in
        set_ E metadata_dict
          ["data"; "generated"; "pythonComponents"; "sha256"] (PStr digest)
  | None => metadata_dict
  end.

Definition sbom_url_of (repository tag : pyval) : string :=
  "https://connectors.airbyte.com/files/sbom/" +:+ py_str E repository
  +:+ "/" +:+ py_str E tag +:+ ".spdx.json".

(** The [try] block alone: [KeyError] is caught there, nothing else is. *)
Definition sbom_url_lookup (metadata_dict : pyval) : Result string :=
  try data <- py_getitem metadata_dict "data";
  try repository <- py_getitem data "dockerRepository";
  try data <- py_getitem metadata_dict "data";
  try tag <- py_getitem data "dockerImageTag";
  Ok (sbom_url_of repository tag).

Definition _apply_sbom_url_to_metadata_file (metadata_dict : pyval)
    : Result pyval :=
  match sbom_url_lookup metadata_dict with
  | Raise (KeyError _) => Ok metadata_dict
  | Raise e => Raise e
  | Ok sbom_url =>
      match requests_head E sbom_url with
      | HeadRaises e => Raise e
      | Response ok =>
          if ok
          then Ok (set_ E metadata_dict ["data"; "generated"; "sbomUrl"]
                     (PStr sbom_url))
          else Ok metadata_dict
      end
  end.

Definition _apply_modifications_to_metadata_file
    (original_metadata_file_path : string) (validator_opts : ValidatorOptions)
    (components_zip_sha256 : option string) : M string :=
  do metadata <- _safe_load_metadata_file original_metadata_file_path;
  do metadata <- lift (_apply_prerelease_overrides metadata validator_opts);
  do metadata <- _apply_author_info_to_metadata_file metadata
                   original_metadata_file_path;
  let metadata :=
    _apply_python_components_sha_to_metadata_file metadata
      components_zip_sha256 in
  do metadata <- lift (_apply_sbom_url_to_metadata_file metadata);
  _write_metadata_to_tmp_file metadata.

(** ** 💎 Main Logic *)

(** [uploaded_files.extend(pair)]. *)
Definition extend (uploaded_files : list UploadedFile)
    (pair : UploadedFile * UploadedFile) : list UploadedFile :=
  uploaded_files ++ [pair.1; pair.2].

(** The eight calls of [_file_upload] in [upload_metadata_to_gcs], each under
    the name of the variable its result is bound to. *)
Section Calls.

Context (gcp_connector_dir bucket : string).
Context (upload_as_version : VersionArg) (should_upload_latest : bool).

Definition metadata_files_uploaded (metadata_file_path : string) :=
  _file_upload (Some metadata_file_path) gcp_connector_dir bucket "metadata"
    upload_as_version should_upload_latest true true.

Definition release_candidate_files_uploaded (metadata_file_path : string) :=
  _file_upload (Some metadata_file_path) gcp_connector_dir bucket
    "release_candidate" (VStr RELEASE_CANDIDATE_GCS_FOLDER_NAME) false
    true true.

Definition icon_files_uploaded (metadata_file_path : string) :=
  _file_upload
    (Some (path_join E (path_parent E metadata_file_path) (ICON_FILE_NAME E)))
    gcp_connector_dir bucket "icon" VFalse should_upload_latest true false.

Definition doc_files_uploaded (metadata : ConnectorMetadataDefinitionV0)
    (docs_path : string) :=
  do local_doc_path <-
    lift (get_doc_local_file_path metadata docs_path false);
  _file_upload local_doc_path gcp_connector_dir bucket "doc"
    upload_as_version should_upload_latest true false.

Definition inapp_doc_files_uploaded (metadata : ConnectorMetadataDefinitionV0)
    (docs_path : string) :=
  do local_inapp_doc_path <-
    lift (get_doc_local_file_path metadata docs_path true);
  _file_upload local_inapp_doc_path gcp_connector_dir bucket "inapp_doc"
    upload_as_version should_upload_latest true false.

Definition manifest_files_uploaded (info : ManifestOnlyFilePaths) :=
  _file_upload (Some (manifest_file_path info)) gcp_connector_dir bucket
    "manifest" upload_as_version should_upload_latest true false.

Definition components_zip_sha256_files_uploaded (info : ManifestOnlyFilePaths) :=
  _file_upload (Some (sha256_file_path info)) gcp_connector_dir bucket
    "components_zip_sha256" upload_as_version should_upload_latest true false.

Definition components_zip_files_uploaded (info : ManifestOnlyFilePaths) :=
  _file_upload (Some (zip_file_path info)) gcp_connector_dir bucket
    "components_zip" upload_as_version should_upload_latest true false.

End Calls.

Definition is_release_candidate_of (metadata : ConnectorMetadataDefinitionV0)
    : bool :=
  match releases metadata with
  | Some r => isReleaseCandidate r
  | None => false
  end.

Definition upload_metadata_to_gcs (bucket_name metadata_file_path : string)
    (validator_opts : ValidatorOptions) : M MetadataUploadInfo :=
  let working_directory := path_parent E metadata_file_path in
  do manifest_only_file_info <- maybe_create_components_zip working_directory;
  do metadata_file_path <-
    _apply_modifications_to_metadata_file metadata_file_path validator_opts
      (sha256 manifest_only_file_info);
  do validated <-
    (fun st =>
       (Ok (validate_and_load E (fs st !! metadata_file_path) validator_opts),
        st));
  match validated with
  | (None, error) =>
      raise (ValueError ("Metadata file " +:+ metadata_file_path +:+
                         " is invalid for uploading: " +:+ error))
  | (Some metadata, _) =>
      let is_pre_release :=
        bool_decide (is_Some (prerelease_tag validator_opts)) in
      let is_release_candidate := is_release_candidate_of metadata in
      let should_upload_release_candidate :=
        is_release_candidate && negb is_pre_release in
      let should_upload_latest :=
        negb is_release_candidate && negb is_pre_release in
      match environ_GCS_CREDENTIALS E with
      | None => raise (ValueError "Please set the GCS_CREDENTIALS env var.")
      | Some gcs_creds =>
          if decide (gcs_creds = "")
          then raise (ValueError "Please set the GCS_CREDENTIALS env var.")
          else
            do _ <- lift (service_account_client E gcs_creds);
            let bucket := bucket_name in
            let docs_path := docs_path validator_opts in
            let gcp_connector_dir :=
              METADATA_FOLDER E +:+ "/" +:+ dockerRepository metadata in
            let upload_as_version :=
              VStr (match prerelease_tag validator_opts with
                    | None => dockerImageTag metadata
                    | Some tag => tag
                    end) in
            let uploaded_files := [] in
            do files <- metadata_files_uploaded gcp_connector_dir bucket
                          upload_as_version should_upload_latest
                          metadata_file_path;
            let uploaded_files := extend uploaded_files files in
            do uploaded_files <-
              (if should_upload_release_candidate then
                 do files <- release_candidate_files_uploaded
                               gcp_connector_dir bucket metadata_file_path;
                 ret (extend uploaded_files files)
               else ret uploaded_files);
            do files <- icon_files_uploaded gcp_connector_dir bucket
                          should_upload_latest metadata_file_path;
            let uploaded_files := extend uploaded_files files in
            do files <- doc_files_uploaded gcp_connector_dir bucket
                          upload_as_version should_upload_latest
                          metadata docs_path;
            let uploaded_files := extend uploaded_files files in
            do files <- inapp_doc_files_uploaded gcp_connector_dir bucket
                          upload_as_version should_upload_latest
                          metadata docs_path;
            let uploaded_files := extend uploaded_files files in
            do files <- manifest_files_uploaded gcp_connector_dir bucket
                          upload_as_version should_upload_latest
                          manifest_only_file_info;
            let uploaded_files := extend uploaded_files files in
            do files <- components_zip_sha256_files_uploaded
                          gcp_connector_dir bucket
                          upload_as_version should_upload_latest
                          manifest_only_file_info;
            let uploaded_files := extend uploaded_files files in
            do files <- components_zip_files_uploaded
                          gcp_connector_dir bucket
                          upload_as_version should_upload_latest
                          manifest_only_file_info;
            let uploaded_files := extend uploaded_files files in
            ret (mkMetadataUploadInfo
                   (_any_uploaded uploaded_files
                      ["latest_metadata"; "version_metadata";
                       "version_release_candidate"])
                   metadata_file_path
                   uploaded_files)
      end
  end.

End Upload.

(** ** A concrete environment

    Small stand-ins for the imported libraries, on which the model runs:
    paths are slash-separated strings, the digest of a text is the text
    itself, temporary files are numbered by the count of files present. *)

Fixpoint split_last_slash (s : string) : option (string * string) :=
  match s with
  | EmptyString => None
  | String c rest =>
      match split_last_slash rest with
      | Some (before, after) => Some (String c before, after)
      | None => if decide (c = "/"%char) then Some (EmptyString, rest) else None
      end
  end.

Definition demo_parent (p : string) : string :=
  match split_last_slash p with
  | Some (before, _) => before
  | None => "."
  end.

Definition demo_name (p : string) : string :=
  match split_last_slash p with
  | Some (_, after) => after
  | None => p
  end.

Definition demo_with_suffix (p ext : string) : Result string :=
  if decide (demo_name p = "")
  then Raise (ValueError ("PosixPath('" +:+ p +:+ "') has an empty name"))
  else Ok (p +:+ ext).

Fixpoint marks (n : nat) : string :=
  match n with
  | O => EmptyString
  | S n' => String "x"%char (marks n')
  end.

Fixpoint demo_set (obj : pyval) (path : list string) (v : pyval) : pyval :=
  match path with
  | [] => v
  | k :: rest =>
      match obj with
      | PDict d =>
          let child := match dict_get d k with
                       | Some c => c
                       | None => PDict []
                       end in
          PDict (dict_set d k (demo_set child rest v))
      | _ => obj
      end
  end.

Definition demo_str (v : pyval) : string :=
  match v with
  | PStr s => s
  | _ => "None"
  end.

Definition demo_data : list (string * pyval) :=
  [("dockerRepository", PStr "airbyte/source-foo");
   ("dockerImageTag", PStr "2.1.0");
   ("registryOverrides",
    PDict [("cloud", PDict [("dockerImageTag", PStr "2.0.9")]);
           ("oss", PDict [("enabled", PBool true)])])].

Definition demo_fields : list (string * pyval) :=
  [("metadataSpecVersion", PStr "1.0"); ("data", PDict demo_data)].

Definition demo_document : pyval := PDict demo_fields.

Definition demo_dump (v : pyval) : string :=
  "dockerImageTag: " +:+ demo_str (pydash_get v ["data"; "dockerImageTag"] PNone).

(** The environment, for a given outcome of validation and of the SBOM
    probe. *)
Definition demo_env (metadata : ConnectorMetadataDefinitionV0)
    (head : HeadResult) : Env :=
  {| METADATA_FOLDER := "metadata";
     ICON_FILE_NAME := "icon.svg";
     MANIFEST_FILE_NAME := "manifest.yaml";
     COMPONENTS_PY_FILE_NAME := "components.py";
     compute_gcs_md5 := fun data => data;
     create_zip_and_get_sha256 := fun _ => ("PK", "0a1b");
     gcs_blob_id := fun bucket name => bucket +:+ "/" +:+ name;
     path_parent := demo_parent;
     path_join := fun a b => a +:+ "/" +:+ b;
     path_name := demo_name;
     path_with_suffix := demo_with_suffix;
     mktemp := fun files suffix => "/tmp/tmp" +:+ marks (size files) +:+ suffix;
     yaml_safe_load := fun _ => Ok demo_document;
     yaml_dump := demo_dump;
     git_last_commit := fun _ => InvalidGitRepositoryError;
     to_json_sanitized_dict := fun _ => PDict [];
     set_ := demo_set;
     py_str := demo_str;
     py_repr := fun s => "'" +:+ s +:+ "'";
     requests_head := fun _ => head;
     validate_and_load := fun text _ =>
       match text with
       | Some _ => (Some metadata, "")
       | None => (None, "no such file")
       end;
     environ_GCS_CREDENTIALS := Some "{}";
     service_account_client := fun _ => Ok tt |}.

Definition demo_metadata (url : string) (rc : bool)
    : ConnectorMetadataDefinitionV0 :=
  mkMetadata "airbyte/source-foo" "2.1.0" url (Some (mkConnectorReleases rc)).

Definition docs_url : string :=
  "https://docs.airbyte.com/integrations/sources/foo".

Definition demo_opts : ValidatorOptions := mkValidatorOptions "/docs" None.

(** A connector directory holding only [metadata.yaml], and an empty
    bucket. *)
Definition demo_state : State :=
  mkState {[ "/repo/source-foo/metadata.yaml" := "dockerImageTag: 2.1.0" ]}
          ∅ [].

(** The plain case: a release whose documentation lives in the docs tree, no
    SBOM published. *)
Definition demo_E : Env :=
  demo_env (demo_metadata docs_url false) (Response false).

(** The same connector, marked as a release candidate. *)
Definition demo_E_rc : Env :=
  demo_env (demo_metadata docs_url true) (Response false).

Definition demo_run (E : Env) (st : State)
    : Result MetadataUploadInfo * State :=
  upload_metadata_to_gcs E "bucket" "/repo/source-foo/metadata.yaml"
    demo_opts st.

(** The files, the bucket and the log as a first run of the plain case
    leaves them: the starting point of a re-run. *)
Definition demo_state_rerun : State := (demo_run demo_E demo_state).2.

(** A run that is given the empty string as prerelease tag.  The override
    writes it into the document as the image tag, and the validated document
    carries it. *)
Definition demo_opts_empty_tag : ValidatorOptions :=
  mkValidatorOptions "/docs" (Some "").

Definition demo_E_empty_tag : Env :=
  demo_env (mkMetadata "airbyte/source-foo" "" docs_url
              (Some (mkConnectorReleases false)))
           (Response false).

(** A connector whose documentation is hosted outside docs.airbyte.com. *)
Definition demo_E_offsite : Env :=
  demo_env (demo_metadata "https://example.com/docs/source-foo" false)
           (Response false).

(** The SBOM probe cannot reach the server. *)
Definition demo_E_offline : Env :=
  demo_env (demo_metadata docs_url false) (HeadRaises ConnectionError).

(** ** The report flag, as the specification words it

    "True iff any outcome whose identity key is one of [latest_metadata],
    [versioned_metadata], [versioned_release_candidate] has
    [wasWritten=true]."  To be compared with [_any_uploaded] on the keys the
    code passes. *)
Definition spec_metadata_published (uploaded_files : list UploadedFile) : bool :=
  existsb (fun f =>
             uploaded f
             && bool_decide (id f ∈ ["latest_metadata"; "versioned_metadata";
                                     "versioned_release_candidate"]))
          uploaded_files.

(** ** Further concrete environments

    The stand-ins of [demo_env], with the YAML loader, the git lookup, the
    SBOM probe, the validator and the credentials as parameters. *)
Definition demo_env_with (load : string -> Result pyval)
    (git : string -> GitLookup) (head : HeadResult)
    (validated : option ConnectorMetadataDefinitionV0 * string)
    (creds : option string) (client : Result unit) : Env :=
  {| METADATA_FOLDER := "metadata";
     ICON_FILE_NAME := "icon.svg";
     MANIFEST_FILE_NAME := "manifest.yaml";
     COMPONENTS_PY_FILE_NAME := "components.py";
     compute_gcs_md5 := fun data => data;
     create_zip_and_get_sha256 := fun _ => ("PK", "0a1b");
     gcs_blob_id := fun bucket name => bucket +:+ "/" +:+ name;
     path_parent := demo_parent;
     path_join := fun a b => a +:+ "/" +:+ b;
     path_name := demo_name;
     path_with_suffix := demo_with_suffix;
     mktemp := fun files suffix => "/tmp/tmp" +:+ marks (size files) +:+ suffix;
     yaml_safe_load := load;
     yaml_dump := demo_dump;
     git_last_commit := git;
     to_json_sanitized_dict := fun info => PDict [("commit_sha", PStr (commit_sha info))];
     set_ := demo_set;
     py_str := demo_str;
     py_repr := fun s => "'" +:+ s +:+ "'";
     requests_head := fun _ => head;
     validate_and_load := fun _ _ => validated;
     environ_GCS_CREDENTIALS := creds;
     service_account_client := fun _ => client |}.

Definition demo_load : string -> Result pyval := fun _ => Ok demo_document.
Definition demo_no_git : string -> GitLookup :=
  fun _ => InvalidGitRepositoryError.

(** The validator rejects the rewritten metadata. *)
Definition demo_E_invalid : Env :=
  demo_env_with demo_load demo_no_git (Response false)
    (None, "dockerImageTag is not semver") (Some "{}") (Ok tt).

(** No credentials in the environment. *)
Definition demo_E_no_creds : Env :=
  demo_env_with demo_load demo_no_git (Response false)
    (Some (demo_metadata docs_url false), "") None (Ok tt).

(** The file is not YAML. *)
Definition demo_E_bad_yaml : Env :=
  demo_env_with (fun _ => Raise (ValueError "mapping values are not allowed here"))
    demo_no_git (Response false)
    (Some (demo_metadata docs_url false), "") (Some "{}") (Ok tt).

(** The file is tracked by git; the SBOM has been published. *)
Definition demo_commit : GitInfo :=
  mkGitInfo "9f1c2ab" "2024-01-01T00:00:00" "dev" "dev@example.com".

Definition demo_E_tracked : Env :=
  demo_env_with demo_load (fun _ => GitCommit demo_commit) (Response true)
    (Some (demo_metadata docs_url false), "") (Some "{}") (Ok tt).

(** A prerelease of the connector. *)
Definition demo_opts_prerelease : ValidatorOptions :=
  mkValidatorOptions "/docs" (Some "2.1.0-dev.abc123").

(** A document in which the registry [cloud] is an anchor and [data.pinned]
    an alias of it. *)
Definition demo_store : gmap positive obj :=
  {[ 1%positive := ODict [("metadataSpecVersion", OStr "1.0");
                          ("data", ORef 2)];
     2%positive := ODict [("dockerRepository", OStr "airbyte/source-foo");
                          ("dockerImageTag", OStr "2.1.0");
                          ("pinned", ORef 4);
                          ("registryOverrides", ORef 3);
                          ("tags", ORef 6)];
     3%positive := ODict [("cloud", ORef 4); ("oss", ORef 5)];
     4%positive := ODict [("dockerImageTag", OStr "2.0.9")];
     5%positive := ODict [("enabled", OBool true)];
     6%positive := OList [OStr "language:python"] ]}.

(** The bucket holds an older copy of the metadata, stored with a
    Cache-Control directive. *)
Definition demo_state_cached : State :=
  mkState (fs demo_state)
          {[ "metadata/airbyte/source-foo/latest/metadata.yaml" :=
               mkBlob "dockerImageTag: 2.0.0" (Some "no-cache") ]}
          [].

(** The connector directory with [components.py] and [manifest.yaml]. *)
Definition demo_state_components : State :=
  mkState {[ "/repo/source-foo/metadata.yaml" := "dockerImageTag: 2.1.0";
             "/repo/source-foo/components.py" := "class Extractor: pass";
             "/repo/source-foo/manifest.yaml" := "version: 6.0.0" ]}
          ∅ [].

(** ** Reading a pair of records *)

Definition not_written (f : UploadedFile) : Prop :=
  uploaded f = false /\ blob_id f = None.

(** What the pair returned for [file_key] says when the call was made with
    the version argument [ver] and the flag [latest]. *)
Definition record_pair (file_key : string) (ver : VersionArg) (latest : bool)
    (v l : UploadedFile) : Prop :=
  id v = "versioned_" +:+ file_key /\ id l = "latest_" +:+ file_key
  /\ (version_truthy ver = None -> not_written v)
  /\ (latest = false -> not_written l).

(** ** Texts without a line break *)

Fixpoint has_newline (s : string) : bool :=
  match s with
  | EmptyString => false
  | String c rest => bool_decide (c = newline) || has_newline rest
  end.

Definition docs_url_prefix : string := "https://docs.airbyte.com/".

(** [url] is the prefix followed by [page], a non-empty text without a line
    break, and at most one final line break. *)
Definition docs_url_page (url page : string) : Prop :=
  page <> "" /\ has_newline page = false
  /\ (url = docs_url_prefix +:+ page
      \/ url = docs_url_prefix +:+ page +:+ String newline EmptyString).

(** ** Stores that differ in image tags only *)

(** Two states of one object that differ at most in [dockerImageTag]. *)
Definition same_but_tag (o o' : obj) : Prop :=
  match o, o' with
  | ODict d, ODict d' =>
      forall k, k <> "dockerImageTag" -> field_get d' k = field_get d k
  | OList xs, OList xs' => xs' = xs
  | _, _ => False
  end.

(** What a step on the store keeps: every object is still there and differs
    at most in [dockerImageTag], and no object has appeared. *)
Definition tags_only (h h' : gmap positive obj) : Prop :=
  (forall l o, h !! l = Some o ->
     exists o', h' !! l = Some o' /\ same_but_tag o o')
  /\ (forall l, h !! l = None -> h' !! l = None).

(** The objects the mapping at [overrides] refers to. *)
Definition registry_of (h : gmap positive obj) (overrides l : positive)
    : Prop :=
  exists d name, h !! overrides = Some (ODict d) /\ (name, ORef l) ∈ d.

(** ** Relations between the states before and after a computation *)

(** [m] keeps [R]: whatever the state it starts from and whether it returns
    or raises, the state it ends in is related by [R] to the one it started
    from. *)
Definition preserves {A} (R : State -> State -> Prop) (m : M A) : Prop :=
  forall st, R st (m st).2.

Definition bucket_untouched (st st' : State) : Prop := gcs st' = gcs st.

Definition nothing_removed (st st' : State) : Prop :=
  (forall q, is_Some (fs st !! q) -> is_Some (fs st' !! q))
  /\ (forall q, is_Some (gcs st !! q) -> is_Some (gcs st' !! q)).

(** A name [tempfile] may pick. *)
Definition temporary_name (E : Env) (q : string) : Prop :=
  exists files suffix, q = mktemp E files suffix.

Definition other_files_kept (E : Env) (st st' : State) : Prop :=
  forall q, ~ temporary_name E q -> fs st' !! q = fs st !! q.

(** The log only grows. *)
Definition output_extended (st st' : State) : Prop :=
  exists more, output st' = (output st ++ more)%list.

(** What every step of a run keeps, and what the steps before the uploads
    keep on top of it. *)
Definition run_kept (E : Env) (st st' : State) : Prop :=
  nothing_removed st st' /\ other_files_kept E st st'
  /\ output_extended st st'.

Definition prelude_kept (E : Env) (st st' : State) : Prop :=
  bucket_untouched st st' /\ run_kept E st st'.

(** * Properties *)

(** ** Running the monad *)

Lemma bind_Ok_inv {A B} (m : M A) (k : A -> M B) st b st' :
  bind m k st = (Ok b, st') ->
  exists a st1, m st = (Ok a, st1) /\ k a st1 = (Ok b, st').
Proof.
  unfold bind. destruct (m st) as [[a|e] st1]; intros H.
  - exists a, st1. split; [reflexivity | exact H].
  - discriminate H.
Qed.

Lemma bind_step {A B} (m : M A) (k : A -> M B) st a st1 :
  m st = (Ok a, st1) -> bind m k st = k a st1.
Proof. unfold bind. intros ->. reflexivity. Qed.

Lemma bind_abort {A B} (m : M A) (k : A -> M B) st e st1 :
  m st = (Raise e, st1) -> bind m k st = (Raise e, st1).
Proof. unfold bind. intros ->. reflexivity. Qed.

Section UploadFacts.

Context (E : Env).

(** ** The conditional uploader *)

Lemma upload_file_if_changed_absent file bucket path dc st :
  fs st !! file = None ->
  upload_file_if_changed E file bucket path dc st
  = (Raise (FileNotFoundError (no_such_file E file)), st).
Proof.
  intros H. unfold upload_file_if_changed, bind, read_bytes. rewrite H.
  reflexivity.
Qed.

(** With the local file present the call returns; it writes exactly when the
    local digest differs from the stored one, and then the blob holds the
    local bytes. *)
Lemma upload_file_if_changed_present file bucket path dc st data :
  fs st !! file = Some data ->
  exists w st',
    upload_file_if_changed E file bucket path dc st
    = (Ok (mkMaybeUpload w (gcs_blob_id E bucket path)), st')
    /\ fs st' = fs st
    /\ (w = false <->
        Some (compute_gcs_md5 E data)
        = (compute_gcs_md5 E ∘ blob_data <$> gcs st !! path))
    /\ (w = false -> gcs st' = gcs st)
    /\ (w = true -> exists cc, gcs st' = <[path := mkBlob data cc]> (gcs st)).
Proof.
  intros H.
  unfold upload_file_if_changed, bind, read_bytes, remote_md5_hash, print.
  rewrite H. simpl.
  destruct (decide (Some (compute_gcs_md5 E data)
                    = (compute_gcs_md5 E ∘ blob_data <$> gcs st !! path)))
    as [Heq|Hne].
  - eexists false, _. split; [reflexivity|]. simpl.
    repeat split; auto; discriminate.
  - unfold _save_blob_to_gcs, bind, print, upload_from_filename, ret. simpl.
    rewrite H. simpl.
    eexists true, _. split; [reflexivity|]. simpl.
    repeat split; try discriminate; try tauto.
    intros _. eexists. reflexivity.
Qed.

Lemma upload_file_if_changed_frame file bucket path dc st :
  fs (upload_file_if_changed E file bucket path dc st).2 = fs st
  /\ forall q, q <> path ->
       gcs (upload_file_if_changed E file bucket path dc st).2 !! q
       = gcs st !! q.
Proof.
  destruct (fs st !! file) as [data|] eqn:H.
  - destruct (upload_file_if_changed_present file bucket path dc st data H)
      as (w & st' & -> & Hfs & _ & Hsame & Hnew). simpl.
    split; [exact Hfs|]. intros q Hq. destruct w.
    + destruct (Hnew eq_refl) as [cc ->]. by rewrite lookup_insert_ne.
    + by rewrite (Hsame eq_refl).
  - rewrite (upload_file_if_changed_absent _ _ _ _ _ H). simpl. done.
Qed.

(** ** The dual-target publisher *)

Lemma _file_upload_none dir bucket key ver latest skip dc st :
  _file_upload E None dir bucket key ver latest skip dc st
  = (Raise AttributeError, st).
Proof. reflexivity. Qed.

Lemma _file_upload_missing p dir bucket key ver latest skip dc st :
  fs st !! p = None ->
  _file_upload E (Some p) dir bucket key ver latest skip dc st
  = if skip
    then (Ok (mkUploadedFile ("versioned_" +:+ key) false None,
              mkUploadedFile ("latest_" +:+ key) false None),
          mkState (fs st) (gcs st)
                  (output st ++ [LogWarning (missing_msg p)]))
    else (Raise (FileNotFoundError (missing_msg p)), st).
Proof.
  intros H. unfold _file_upload, bind, path_exists. simpl. rewrite H.
  rewrite bool_decide_eq_false_2 by (intros [? ?]; discriminate). simpl.
  destruct skip; reflexivity.
Qed.

(** With the file present the call returns two records; a destination that
    is attempted carries the id of its blob, one that is not stays
    "not written, no id". *)
Lemma _file_upload_present p dir bucket key ver latest skip dc st :
  is_Some (fs st !! p) ->
  exists v l st',
    _file_upload E (Some p) dir bucket key ver latest skip dc st
    = (Ok (v, l), st')
    /\ fs st' = fs st
    /\ id v = "versioned_" +:+ key /\ id l = "latest_" +:+ key
    /\ match version_truthy ver with
       | Some version =>
           blob_id v = Some (gcs_blob_id E bucket
                               (versioned_blob_path dir version (path_name E p)))
       | None => uploaded v = false /\ blob_id v = None
       end
    /\ (if latest
        then blob_id l = Some (gcs_blob_id E bucket
                                 (latest_blob_path dir (path_name E p)))
        else uploaded l = false /\ blob_id l = None).
Proof.
  intros [data H]. unfold _file_upload, bind, path_exists, ret.
  rewrite H. rewrite bool_decide_eq_true_2 by eauto. cbn [negb]. cbv beta iota.
  destruct (version_truthy ver) as [version|]; cbv beta iota.
  - destruct (upload_file_if_changed_present p bucket
                (versioned_blob_path dir version (path_name E p)) dc st data H)
      as (w1 & st1 & R1 & Hfs1 & _).
    rewrite R1. destruct latest; cbv beta iota.
    + assert (H1 : fs st1 !! p = Some data) by (rewrite Hfs1; exact H).
      destruct (upload_file_if_changed_present p bucket
                  (latest_blob_path dir (path_name E p)) dc st1 data H1)
        as (w2 & st2 & R2 & Hfs2 & _).
      rewrite R2.
      eexists _, _, _. split; [reflexivity|]. simpl.
      repeat split; congruence.
    + eexists _, _, _. split; [reflexivity|]. simpl. repeat split; congruence.
  - destruct latest; cbv beta iota.
    + destruct (upload_file_if_changed_present p bucket
                  (latest_blob_path dir (path_name E p)) dc st data H)
        as (w2 & st2 & R2 & Hfs2 & _).
      rewrite R2.
      eexists _, _, _. split; [reflexivity|]. simpl.
      repeat split; congruence.
    + eexists _, _, _. split; [reflexivity|]. simpl. repeat split; congruence.
Qed.

(** The call leaves the local files alone, and touches no blob other than
    its two destinations. *)
Lemma _file_upload_frame lp dir bucket key ver latest skip dc st :
  fs (_file_upload E lp dir bucket key ver latest skip dc st).2 = fs st
  /\ forall q,
       (forall p version, lp = Some p -> version_truthy ver = Some version ->
          q <> versioned_blob_path dir version (path_name E p)) ->
       (forall p, lp = Some p -> latest = true ->
          q <> latest_blob_path dir (path_name E p)) ->
       gcs (_file_upload E lp dir bucket key ver latest skip dc st).2 !! q
       = gcs st !! q.
Proof.
  destruct lp as [p|]; [|by rewrite _file_upload_none].
  destruct (fs st !! p) as [data|] eqn:H.
  2:{ rewrite (_file_upload_missing p _ _ _ _ _ _ _ _ H).
      destruct skip; done. }
  unfold _file_upload, bind, path_exists, ret.
  rewrite H. rewrite bool_decide_eq_true_2 by eauto. cbn [negb].
  cbv beta iota.
  assert (Hv : forall version st0,
    version_truthy ver = Some version ->
    fs (upload_file_if_changed E p bucket
          (versioned_blob_path dir version (path_name E p)) dc st0).2 = fs st0
    /\ forall q,
         (forall p' version', Some p = Some p' ->
            version_truthy ver = Some version' ->
            q <> versioned_blob_path dir version' (path_name E p')) ->
         gcs (upload_file_if_changed E p bucket
                (versioned_blob_path dir version (path_name E p)) dc st0).2 !! q
         = gcs st0 !! q).
  { intros version st0 Hver.
    destruct (upload_file_if_changed_frame p bucket
                (versioned_blob_path dir version (path_name E p)) dc st0)
      as [F1 F2].
    split; [exact F1|]. intros q Hq. apply F2. by apply Hq. }
  assert (Hl : forall st0,
    fs (upload_file_if_changed E p bucket
          (latest_blob_path dir (path_name E p)) dc st0).2 = fs st0
    /\ forall q, q <> latest_blob_path dir (path_name E p) ->
         gcs (upload_file_if_changed E p bucket
                (latest_blob_path dir (path_name E p)) dc st0).2 !! q
         = gcs st0 !! q).
  { intros st0. apply upload_file_if_changed_frame. }
  destruct (version_truthy ver) as [version|]; cbv beta iota.
  - destruct (Hv version st eq_refl) as [F1 F2].
    destruct (upload_file_if_changed E p bucket
                (versioned_blob_path dir version (path_name E p)) dc st)
      as [[r1|e1] st1]; simpl in F1, F2; [|split; [done|]; intros; by apply F2].
    destruct latest; cbv beta iota.
    + destruct (Hl st1) as [G1 G2].
      destruct (upload_file_if_changed E p bucket
                  (latest_blob_path dir (path_name E p)) dc st1)
        as [[r2|e2] st2]; simpl in G1, G2; simpl;
        (split; [congruence|]; intros q Hq1 Hq2;
         rewrite G2 by (by apply Hq2); by apply F2).
    + simpl. split; [done|]. intros; by apply F2.
  - destruct latest; cbv beta iota.
    + destruct (Hl st) as [G1 G2].
      destruct (upload_file_if_changed E p bucket
                  (latest_blob_path dir (path_name E p)) dc st)
        as [[r2|e2] st2]; simpl in G1, G2; simpl;
        (split; [congruence|]; intros q Hq1 Hq2; apply G2; by apply Hq2).
    + simpl. done.
Qed.

End UploadFacts.

Section RunFacts.

Context (E : Env).

(** ** Blobs are never removed *)

Lemma upload_file_if_changed_keeps file bucket path dc st q :
  is_Some (gcs st !! q) ->
  is_Some (gcs (upload_file_if_changed E file bucket path dc st).2 !! q).
Proof.
  intros Hq. destruct (decide (q = path)) as [->|Hne].
  - destruct (fs st !! file) as [data|] eqn:H.
    + destruct (upload_file_if_changed_present E file bucket path dc st data H)
        as (w & st' & -> & _ & _ & Hsame & Hnew). simpl. destruct w.
      * destruct (Hnew eq_refl) as [cc ->]. rewrite lookup_insert_eq. eauto.
      * by rewrite (Hsame eq_refl).
    + by rewrite (upload_file_if_changed_absent E _ _ _ _ _ H).
  - by rewrite (proj2 (upload_file_if_changed_frame E file bucket path dc st)).
Qed.

Lemma upload_file_if_changed_stores file bucket path dc st :
  is_Some (fs st !! file) ->
  is_Some (gcs (upload_file_if_changed E file bucket path dc st).2 !! path).
Proof.
  intros [data H].
  destruct (upload_file_if_changed_present E file bucket path dc st data H)
    as (w & st' & -> & _ & Hw & Hsame & Hnew). simpl. destruct w.
  - destruct (Hnew eq_refl) as [cc ->]. rewrite lookup_insert_eq. eauto.
  - rewrite (Hsame eq_refl). pose proof (proj1 Hw eq_refl) as Heq.
    destruct (gcs st !! path); [eauto | discriminate].
Qed.

Lemma _file_upload_keeps lp dir bucket key ver latest skip dc st q :
  is_Some (gcs st !! q) ->
  is_Some (gcs (_file_upload E lp dir bucket key ver latest skip dc st).2 !! q).
Proof.
  intros Hq. destruct lp as [p|]; [|by rewrite _file_upload_none].
  destruct (fs st !! p) as [data|] eqn:H.
  2:{ rewrite (_file_upload_missing E p _ _ _ _ _ _ _ _ H).
      destruct skip; done. }
  unfold _file_upload, bind, path_exists, ret.
  rewrite H. rewrite bool_decide_eq_true_2 by eauto. cbn [negb].
  cbv beta iota.
  destruct (version_truthy ver) as [version|]; cbv beta iota.
  - pose proof (upload_file_if_changed_keeps p bucket
                  (versioned_blob_path dir version (path_name E p)) dc st q Hq)
      as K1.
    destruct (upload_file_if_changed E p bucket
                (versioned_blob_path dir version (path_name E p)) dc st)
      as [[r1|e1] st1]; simpl in K1; [|exact K1].
    destruct latest; cbv beta iota; [|exact K1].
    pose proof (upload_file_if_changed_keeps p bucket
                  (latest_blob_path dir (path_name E p)) dc st1 q K1) as K2.
    destruct (upload_file_if_changed E p bucket
                (latest_blob_path dir (path_name E p)) dc st1)
      as [[r2|e2] st2]; exact K2.
  - destruct latest; cbv beta iota; [|exact Hq].
    pose proof (upload_file_if_changed_keeps p bucket
                  (latest_blob_path dir (path_name E p)) dc st q Hq) as K2.
    destruct (upload_file_if_changed E p bucket
                (latest_blob_path dir (path_name E p)) dc st)
      as [[r2|e2] st2]; exact K2.
Qed.

(** After a call on a present file, each attempted destination holds a
    blob. *)
Lemma _file_upload_stores p dir bucket key ver latest skip dc st :
  is_Some (fs st !! p) ->
  (forall version, version_truthy ver = Some version ->
     is_Some (gcs (_file_upload E (Some p) dir bucket key ver latest skip dc st).2
              !! versioned_blob_path dir version (path_name E p)))
  /\ (latest = true ->
      is_Some (gcs (_file_upload E (Some p) dir bucket key ver latest skip dc st).2
               !! latest_blob_path dir (path_name E p))).
Proof.
  intros [data H].
  unfold _file_upload, bind, path_exists, ret.
  rewrite H. rewrite bool_decide_eq_true_2 by eauto. cbn [negb].
  cbv beta iota.
  destruct (version_truthy ver) as [version|]; cbv beta iota.
  - pose proof (upload_file_if_changed_stores p bucket
                  (versioned_blob_path dir version (path_name E p)) dc st
                  (ex_intro _ data H)) as K1.
    destruct (upload_file_if_changed_present E p bucket
                (versioned_blob_path dir version (path_name E p)) dc st data H)
      as (w1 & st1 & R1 & Hfs1 & _).
    rewrite R1 in K1 |- *. simpl in K1.
    assert (H1 : is_Some (fs st1 !! p)) by (rewrite Hfs1; eauto).
    destruct latest; cbv beta iota.
    + pose proof (upload_file_if_changed_stores p bucket
                    (latest_blob_path dir (path_name E p)) dc st1 H1) as K2.
      pose proof (upload_file_if_changed_keeps p bucket
                    (latest_blob_path dir (path_name E p)) dc st1 _ K1) as K3.
      destruct (upload_file_if_changed E p bucket
                  (latest_blob_path dir (path_name E p)) dc st1)
        as [[r2|e2] st2]; simpl in *;
        (split; [intros ? [= <-]; exact K3 | intros _; exact K2]).
    + simpl. split; [intros ? [= <-]; exact K1 | discriminate].
  - destruct latest; cbv beta iota.
    + pose proof (upload_file_if_changed_stores p bucket
                    (latest_blob_path dir (path_name E p)) dc st
                    (ex_intro _ data H)) as K2.
      destruct (upload_file_if_changed E p bucket
                  (latest_blob_path dir (path_name E p)) dc st)
        as [[r2|e2] st2]; simpl in *; (split; [discriminate | intros _; exact K2]).
    + simpl. split; discriminate.
Qed.

(** What a returned pair says, whatever the state of the local file. *)
Lemma _file_upload_Ok_inv lp dir bucket key ver latest skip dc st v l st' :
  _file_upload E lp dir bucket key ver latest skip dc st = (Ok (v, l), st') ->
  exists p,
    lp = Some p /\ fs st' = fs st
    /\ id v = "versioned_" +:+ key /\ id l = "latest_" +:+ key
    /\ (version_truthy ver = None \/ fs st !! p = None ->
        uploaded v = false /\ blob_id v = None)
    /\ (latest = false \/ fs st !! p = None ->
        uploaded l = false /\ blob_id l = None)
    /\ (forall version, is_Some (fs st !! p) ->
          version_truthy ver = Some version ->
          blob_id v = Some (gcs_blob_id E bucket
                              (versioned_blob_path dir version (path_name E p))))
    /\ (is_Some (fs st !! p) -> latest = true ->
        blob_id l = Some (gcs_blob_id E bucket
                            (latest_blob_path dir (path_name E p)))).
Proof.
  intros R. destruct lp as [p|]; [|rewrite _file_upload_none in R; discriminate].
  exists p. split; [reflexivity|].
  destruct (fs st !! p) as [data|] eqn:H.
  - destruct (_file_upload_present E p dir bucket key ver latest skip dc st
                (ex_intro _ data H))
      as (v0 & l0 & st0 & R0 & Hfs & Hv & Hl & Hver & Hlat).
    rewrite R0 in R. injection R as <- <- <-.
    split_and!; try assumption.
    + intros [Hn|?]; [|discriminate]. by rewrite Hn in Hver.
    + intros [Hn|?]; [|discriminate]. by rewrite Hn in Hlat.
    + intros version _ Hn. by rewrite Hn in Hver.
    + intros _ Hn. by rewrite Hn in Hlat.
  - rewrite (_file_upload_missing E p _ _ _ _ _ _ _ _ H) in R.
    destruct skip; [|discriminate]. injection R as <- <- <-. simpl.
    split_and!; try done; intros; by destruct (is_Some_None (A:=string)).
Qed.

End RunFacts.

(** ** The steps before the uploads *)

Section PreludeFacts.

Context (E : Env).


Lemma _safe_load_metadata_file_state p st r st' :
  _safe_load_metadata_file E p st = (r, st') -> st' = st.
Proof.
  unfold _safe_load_metadata_file.
  destruct (fs st !! p) as [text|]; [|by intros [= _ <-]].
  destruct (yaml_safe_load E text) as [[]|]; simpl; by intros [= _ <-].
Qed.

Lemma _get_git_info_for_file_state p st r st' :
  _get_git_info_for_file E p st = (r, st') ->
  fs st' = fs st /\ gcs st' = gcs st.
Proof.
  unfold _get_git_info_for_file.
  destruct (git_last_commit E p) as [info| |msg|name].
  - by intros [= _ <-].
  - by intros [= _ <-].
  - destruct (contains _ msg); by intros [= _ <-].
  - by intros [= _ <-].
Qed.

(** The rewritten metadata file exists when the mutation pipeline returns
    its path; the bucket has not been touched yet. *)
Lemma _apply_modifications_to_metadata_file_inv p opts digest st path st' :
  _apply_modifications_to_metadata_file E p opts digest st = (Ok path, st') ->
  gcs st' = gcs st
  /\ is_Some (fs st' !! path)
  /\ forall q, is_Some (fs st !! q) -> is_Some (fs st' !! q).
Proof.
  unfold _apply_modifications_to_metadata_file. intros R.
  apply bind_Ok_inv in R as (m1 & s1 & R1 & R).
  apply _safe_load_metadata_file_state in R1 as ->.
  apply bind_Ok_inv in R as (m2 & s2 & R2 & R).
  unfold lift in R2. injection R2 as _ <-.
  apply bind_Ok_inv in R as (m3 & s3 & R3 & R).
  assert (fs s3 = fs st /\ gcs s3 = gcs st) as [F3 G3].
  { unfold _apply_author_info_to_metadata_file in R3.
    apply bind_Ok_inv in R3 as (g & sg & Rg & R3).
    apply _get_git_info_for_file_state in Rg as [Fg Gg].
    destruct g; unfold ret in R3; injection R3 as _ <-; done. }
  apply bind_Ok_inv in R as (m4 & s4 & R4 & R).
  unfold lift in R4. injection R4 as _ <-.
  unfold _write_metadata_to_tmp_file, bind, NamedTemporaryFile, write_file,
    ret in R.
  cbn in R. injection R as <- <-. cbn.
  split_and!.
  - exact G3.
  - rewrite lookup_insert_eq. eauto.
  - intros q Hq. rewrite F3, !lookup_insert. repeat case_decide; eauto.
Qed.

End PreludeFacts.

(** ** Taking a returned run apart *)

Section RunInversion.

Context (E : Env).

(** A run that returns a report has gone through every step: the prelude,
    validation, and each call of [_file_upload] in turn. *)
Lemma doc_files_uploaded_Ok_inv dir bucket ver latest metadata docs st f st' :
  doc_files_uploaded E dir bucket ver latest metadata docs st = (Ok f, st') ->
  exists lp,
    get_doc_local_file_path E metadata docs false = Ok lp
    /\ _file_upload E lp dir bucket "doc" ver latest true false st
       = (Ok f, st').
Proof.
  unfold doc_files_uploaded, bind, lift.
  destruct (get_doc_local_file_path E metadata docs false) as [lp|e];
    [eauto | discriminate].
Qed.

Lemma inapp_doc_files_uploaded_Ok_inv dir bucket ver latest metadata docs
    st f st' :
  inapp_doc_files_uploaded E dir bucket ver latest metadata docs st
  = (Ok f, st') ->
  exists lp,
    get_doc_local_file_path E metadata docs true = Ok lp
    /\ _file_upload E lp dir bucket "inapp_doc" ver latest true false st
       = (Ok f, st').
Proof.
  unfold inapp_doc_files_uploaded, bind, lift.
  destruct (get_doc_local_file_path E metadata docs true) as [lp|e];
    [eauto | discriminate].
Qed.

Lemma upload_metadata_to_gcs_Ok_inv bucket_name path0 opts st report st' :
  upload_metadata_to_gcs E bucket_name path0 opts st = (Ok report, st') ->
  exists info st0 sa metadata err,
    let mfp := metadata_file_path report in
    let dir := METADATA_FOLDER E +:+ "/" +:+ dockerRepository metadata in
    let ver := VStr (match prerelease_tag opts with
                     | None => dockerImageTag metadata
                     | Some tag => tag
                     end) in
    let pre := bool_decide (is_Some (prerelease_tag opts)) in
    let rc := is_release_candidate_of metadata && negb pre in
    let latest := negb (is_release_candidate_of metadata) && negb pre in
    maybe_create_components_zip E (path_parent E path0) st = (Ok info, st0)
    /\ _apply_modifications_to_metadata_file E path0 opts (sha256 info) st0
       = (Ok mfp, sa)
    /\ validate_and_load E (fs sa !! mfp) opts = (Some metadata, err)
    /\ exists f1 s1 rcs s2 f3 s3 f4 s4 f5 s5 f6 s6 f7 s7 f8,
         metadata_files_uploaded E dir bucket_name ver latest mfp sa
         = (Ok f1, s1)
         /\ (if rc
             then exists f2,
                 release_candidate_files_uploaded E dir bucket_name mfp s1
                 = (Ok f2, s2) /\ rcs = [f2.1; f2.2]
             else s2 = s1 /\ rcs = [])
         /\ icon_files_uploaded E dir bucket_name latest mfp s2 = (Ok f3, s3)
         /\ doc_files_uploaded E dir bucket_name ver latest metadata
              (docs_path opts) s3 = (Ok f4, s4)
         /\ inapp_doc_files_uploaded E dir bucket_name ver latest metadata
              (docs_path opts) s4 = (Ok f5, s5)
         /\ manifest_files_uploaded E dir bucket_name ver latest info s5
            = (Ok f6, s6)
         /\ components_zip_sha256_files_uploaded E dir bucket_name ver latest
              info s6 = (Ok f7, s7)
         /\ components_zip_files_uploaded E dir bucket_name ver latest
              info s7 = (Ok f8, st')
         /\ uploaded_files report
            = ([f1.1; f1.2] ++ rcs
               ++ [f3.1; f3.2; f4.1; f4.2; f5.1; f5.2; f6.1; f6.2;
                   f7.1; f7.2; f8.1; f8.2])%list
         /\ metadata_uploaded report
            = _any_uploaded (uploaded_files report)
                ["latest_metadata"; "version_metadata";
                 "version_release_candidate"].
Proof.
  unfold upload_metadata_to_gcs. intros R.
  apply bind_Ok_inv in R as (info & st0 & R0 & R).
  apply bind_Ok_inv in R as (mfp & sa & Ra & R).
  apply bind_Ok_inv in R as (validated & sv & Rv & R).
  injection Rv as <- <-.
  destruct (validate_and_load E (fs sa !! mfp) opts) as [[metadata|] err] eqn:V;
    [|discriminate R].
  destruct (environ_GCS_CREDENTIALS E) as [creds|]; [|discriminate R].
  destruct (decide (creds = "")); [discriminate R|].
  apply bind_Ok_inv in R as (u & sc & Rc & R).
  unfold lift in Rc. injection Rc as _ <-.
  apply bind_Ok_inv in R as (f1 & s1 & R1 & R).
  apply bind_Ok_inv in R as (files2 & s2 & R2 & R).
  apply bind_Ok_inv in R as (f3 & s3 & R3 & R).
  apply bind_Ok_inv in R as (f4 & s4 & R4 & R).
  apply bind_Ok_inv in R as (f5 & s5 & R5 & R).
  apply bind_Ok_inv in R as (f6 & s6 & R6 & R).
  apply bind_Ok_inv in R as (f7 & s7 & R7 & R).
  apply bind_Ok_inv in R as (f8 & s8 & R8 & R).
  unfold ret in R. injection R as <- <-.
  exists info, st0, sa, metadata, err. cbn [metadata_file_path].
  split; [exact R0|]. split; [exact Ra|]. split; [exact V|].
  destruct (is_release_candidate_of metadata
            && negb (bool_decide (is_Some (prerelease_tag opts)))) eqn:RC.
  - apply bind_Ok_inv in R2 as (f2 & s2' & R2 & R2').
    unfold ret in R2'. injection R2' as <- <-.
    exists f1, s1, [f2.1; f2.2], s2', f3, s3, f4, s4, f5, s5, f6, s6, f7, s7, f8.
    split_and!; try assumption; try reflexivity.
    exists f2. split; [exact R2 | reflexivity].
  - unfold ret in R2. injection R2 as <- <-.
    exists f1, s1, [], s1, f3, s3, f4, s4, f5, s5, f6, s6, f7, s7, f8.
    split_and!; try assumption; try reflexivity.
Qed.

End RunInversion.

(** ** Runs that return *)

Section RunProgress.

Context (E : Env).

(** With a path in hand and [skip_if_not_exists] set, the publisher always
    returns. *)
Lemma _file_upload_total p dir bucket key ver latest dc st :
  exists pair st',
    _file_upload E (Some p) dir bucket key ver latest true dc st
    = (Ok pair, st').
Proof.
  destruct (fs st !! p) as [data|] eqn:H.
  - destruct (_file_upload_present E p dir bucket key ver latest true dc st
                (ex_intro _ data H)) as (v & l & st' & R & _).
    eauto.
  - rewrite (_file_upload_missing E p _ _ _ _ _ _ _ _ H). eauto.
Qed.

Lemma release_candidate_step_total (c : bool) dir bucket mfp files0 s1 :
  exists files s2,
    (if c then
       do files <- release_candidate_files_uploaded E dir bucket mfp;
       ret (extend files0 files)
     else ret files0) s1 = (Ok files, s2).
Proof.
  destruct c.
  - destruct (_file_upload_total mfp dir bucket "release_candidate"
                (VStr RELEASE_CANDIDATE_GCS_FOLDER_NAME) false true s1)
      as (f2 & s2 & R2).
    unfold release_candidate_files_uploaded.
    rewrite (bind_step _ _ _ _ _ R2). unfold ret. eauto.
  - unfold ret. eauto.
Qed.

(** Once the prelude, validation and the credentials are through, the run
    returns a report as soon as the two documentation paths can be computed;
    no local file other than the rewritten metadata has to exist. *)
Lemma upload_metadata_to_gcs_returns bucket_name path0 opts st
    info st0 mfp sa metadata err creds doc inapp_doc :
  maybe_create_components_zip E (path_parent E path0) st = (Ok info, st0) ->
  _apply_modifications_to_metadata_file E path0 opts (sha256 info) st0
  = (Ok mfp, sa) ->
  validate_and_load E (fs sa !! mfp) opts = (Some metadata, err) ->
  environ_GCS_CREDENTIALS E = Some creds -> creds <> "" ->
  service_account_client E creds = Ok tt ->
  get_doc_local_file_path E metadata (docs_path opts) false = Ok (Some doc) ->
  get_doc_local_file_path E metadata (docs_path opts) true
  = Ok (Some inapp_doc) ->
  exists report st',
    upload_metadata_to_gcs E bucket_name path0 opts st = (Ok report, st').
Proof.
  intros R0 Ra V C Cne SA Hdoc Hinapp.
  unfold upload_metadata_to_gcs.
  rewrite (bind_step _ _ _ _ _ R0).
  rewrite (bind_step _ _ _ _ _ Ra).
  unfold bind at 1. rewrite V, C.
  destruct (decide (creds = "")) as [?|_]; [done|].
  unfold bind at 1, lift at 1. rewrite SA.
  match goal with
  | |- context [metadata_files_uploaded E ?d ?b ?v ?l mfp] =>
      destruct (_file_upload_total mfp d b "metadata" v l true sa)
        as (f1 & s1 & R1)
  end.
  unfold metadata_files_uploaded at 1. rewrite (bind_step _ _ _ _ _ R1).
  match goal with
  | |- context [bind (if ?c then _ else _) _ s1] =>
      destruct (release_candidate_step_total c
                  (METADATA_FOLDER E +:+ "/" +:+ dockerRepository metadata)
                  bucket_name mfp (extend [] f1) s1) as (files2 & s2 & R2)
  end.
  rewrite (bind_step _ _ _ _ _ R2).
  match goal with
  | |- context [icon_files_uploaded E ?d ?b ?l mfp] =>
      destruct (_file_upload_total
                  (path_join E (path_parent E mfp) (ICON_FILE_NAME E))
                  d b "icon" VFalse l false s2) as (f3 & s3 & R3)
  end.
  unfold icon_files_uploaded at 1. rewrite (bind_step _ _ _ _ _ R3).
  match goal with
  | |- context [doc_files_uploaded E ?d ?b ?v ?l metadata ?docs] =>
      destruct (_file_upload_total doc d b "doc" v l false s3)
        as (f4 & s4 & R4);
      assert (R4' : doc_files_uploaded E d b v l metadata docs s3
                    = (Ok f4, s4))
        by (unfold doc_files_uploaded; rewrite Hdoc; exact R4);
      destruct (_file_upload_total inapp_doc d b "inapp_doc" v l false s4)
        as (f5 & s5 & R5);
      assert (R5' : inapp_doc_files_uploaded E d b v l metadata docs s4
                    = (Ok f5, s5))
        by (unfold inapp_doc_files_uploaded; rewrite Hinapp; exact R5)
  end.
  rewrite (bind_step _ _ _ _ _ R4').
  rewrite (bind_step _ _ _ _ _ R5').
  unfold manifest_files_uploaded at 1.
  match goal with
  | |- context [_file_upload E (Some ?p) ?d ?b "manifest" ?v ?l true false] =>
      destruct (_file_upload_total p d b "manifest" v l false s5)
        as (f6 & s6 & R6)
  end.
  rewrite (bind_step _ _ _ _ _ R6).
  unfold components_zip_sha256_files_uploaded at 1.
  match goal with
  | |- context [_file_upload E (Some ?p) ?d ?b "components_zip_sha256"
                  ?v ?l true false] =>
      destruct (_file_upload_total p d b "components_zip_sha256" v l false s6)
        as (f7 & s7 & R7)
  end.
  rewrite (bind_step _ _ _ _ _ R7).
  unfold components_zip_files_uploaded at 1.
  match goal with
  | |- context [_file_upload E (Some ?p) ?d ?b "components_zip"
                  ?v ?l true false] =>
      destruct (_file_upload_total p d b "components_zip" v l false s7)
        as (f8 & s8 & R8)
  end.
  rewrite (bind_step _ _ _ _ _ R8).
  unfold ret. eauto.
Qed.

End RunProgress.

Lemma _file_upload_fs (E : Env) lp dir bucket key ver latest skip dc st r st' :
  _file_upload E lp dir bucket key ver latest skip dc st = (r, st') ->
  fs st' = fs st.
Proof.
  intros R.
  pose proof (proj1 (_file_upload_frame E lp dir bucket key ver latest skip
                       dc st)) as F.
  by rewrite R in F.
Qed.

(** * The claims *)

(** C5.  Idempotence and change detection of the conditional uploader.  After
    a first publish of a local file the blob carries the digest of the file.
    A second publish of the same file to the same path, with the file left as
    it was, returns [uploaded = false] and leaves the bucket as it is; with
    the file rewritten in between, the second publish returns
    [uploaded = false] when the new bytes have the digest the store holds
    (nothing is written), and [uploaded = true] when the digest differs, the
    blob then holding the new bytes.  A change is seen through the digest
    only. *)
Theorem upload_file_if_changed_idempotent (E : Env)
    (file bucket path : string) (dc dc' : bool) (st : State) (data : string) :
  fs st !! file = Some data ->
  exists r1 st1,
    upload_file_if_changed E file bucket path dc st = (Ok r1, st1)
    /\ (compute_gcs_md5 E ∘ blob_data <$> gcs st1 !! path)
       = Some (compute_gcs_md5 E data)
    /\ (exists r2 st2,
          upload_file_if_changed E file bucket path dc' st1 = (Ok r2, st2)
          /\ mu_uploaded r2 = false /\ gcs st2 = gcs st1)
    /\ forall data',
         let st1' := mkState (<[file := data']> (fs st1)) (gcs st1)
                             (output st1) in
         exists r2 st2,
           upload_file_if_changed E file bucket path dc' st1' = (Ok r2, st2)
           /\ (compute_gcs_md5 E data' = compute_gcs_md5 E data ->
               mu_uploaded r2 = false /\ gcs st2 = gcs st1)
           /\ (compute_gcs_md5 E data' <> compute_gcs_md5 E data ->
               mu_uploaded r2 = true
               /\ blob_data <$> gcs st2 !! path = Some data').
Proof.
  intros H.
  destruct (upload_file_if_changed_present E file bucket path dc st data H)
    as (w & st1 & R1 & Hfs & Hw & Hsame & Hnew).
  assert (Hremote : (compute_gcs_md5 E ∘ blob_data <$> gcs st1 !! path)
                    = Some (compute_gcs_md5 E data)).
  { destruct w.
    - destruct (Hnew eq_refl) as [cc ->]. by rewrite lookup_insert_eq.
    - rewrite (Hsame eq_refl). symmetry. by apply Hw. }
  exists (mkMaybeUpload w (gcs_blob_id E bucket path)), st1.
  split; [exact R1|]. split; [exact Hremote|]. split.
  - assert (H1 : fs st1 !! file = Some data) by (by rewrite Hfs).
    destruct (upload_file_if_changed_present E file bucket path dc' st1 data H1)
      as (w2 & st2 & R2 & _ & Hw2 & Hsame2 & _).
    assert (w2 = false) as -> by (apply Hw2; by rewrite Hremote).
    eexists _, st2. split; [exact R2|]. split; [reflexivity|]. by apply Hsame2.
  - intros data' st1'.
    assert (H1 : fs st1' !! file = Some data')
      by (subst st1'; cbn; apply lookup_insert_eq).
    destruct (upload_file_if_changed_present E file bucket path dc' st1' data' H1)
      as (w2 & st2 & R2 & _ & Hw2 & Hsame2 & Hnew2).
    subst st1'. cbn [gcs] in *.
    eexists _, st2. split; [exact R2|]. cbn [mu_uploaded]. split.
    + intros Heq. assert (w2 = false) as ->
        by (apply Hw2; rewrite Hremote; by f_equal).
      split; [reflexivity|]. by apply Hsame2.
    + intros Hne. destruct w2.
      * split; [reflexivity|]. destruct (Hnew2 eq_refl) as [cc ->].
        by rewrite lookup_insert_eq.
      * exfalso. apply Hne. pose proof (proj1 Hw2 eq_refl) as Heq.
        rewrite Hremote in Heq. by injection Heq.
Qed.

Lemma upload_file_if_changed_idempotent_witness :
  exists r1 st1,
    upload_file_if_changed (demo_env (demo_metadata docs_url false)
                              (Response false))
      "/tmp/a.yaml" "bucket" "metadata/a/latest/a.yaml" true
      (mkState {[ "/tmp/a.yaml" := "v1" ]} ∅ []) = (Ok r1, st1)
    /\ exists r2 st2,
         upload_file_if_changed (demo_env (demo_metadata docs_url false)
                                   (Response false))
           "/tmp/a.yaml" "bucket" "metadata/a/latest/a.yaml" true st1
         = (Ok r2, st2)
         /\ mu_uploaded r2 = false /\ gcs st2 = gcs st1.
Proof.
  destruct (upload_file_if_changed_idempotent
              (demo_env (demo_metadata docs_url false) (Response false))
              "/tmp/a.yaml" "bucket" "metadata/a/latest/a.yaml" true true
              (mkState {[ "/tmp/a.yaml" := "v1" ]} ∅ []) "v1")
    as (r1 & st1 & R1 & _ & Hsecond & _).
  - vm_compute. reflexivity.
  - exists r1, st1. split; [exact R1 | exact Hsecond].
Defined.

(** C8.  Alias independence of the dual-target publisher.  With no version
    alias and [upload_as_latest] set, every blob other than the one at
    [{dir}/latest/{name}] is after the call what it was before; with a
    version alias and [upload_as_latest] unset, every blob other than the one
    at [{dir}/{alias}/{name}] is; with neither, the bucket is unchanged.  The
    local files are never touched. *)
Theorem _file_upload_alias_independence (E : Env)
    (p dir bucket key : string) (skip dc : bool) (st : State) :
  (forall q, q <> latest_blob_path dir (path_name E p) ->
     gcs (_file_upload E (Some p) dir bucket key VFalse true skip dc st).2 !! q
     = gcs st !! q)
  /\ (forall alias q, q <> versioned_blob_path dir alias (path_name E p) ->
        gcs (_file_upload E (Some p) dir bucket key (VStr alias) false
               skip dc st).2 !! q
        = gcs st !! q)
  /\ gcs (_file_upload E (Some p) dir bucket key VFalse false skip dc st).2
     = gcs st
  /\ forall ver latest,
       fs (_file_upload E (Some p) dir bucket key ver latest skip dc st).2
       = fs st.
Proof.
  split_and!.
  - intros q Hq.
    apply (_file_upload_frame E (Some p) dir bucket key VFalse true skip dc st).
    + intros p' version _ Hv. discriminate Hv.
    + intros p' [= <-] _. exact Hq.
  - intros alias q Hq.
    apply (_file_upload_frame E (Some p) dir bucket key (VStr alias) false
             skip dc st).
    + intros p' version [= <-] Hv. simpl in Hv.
      destruct (decide (alias = "")); [discriminate|]. by injection Hv as <-.
    + intros p' _ Hl. discriminate Hl.
  - apply map_eq. intros q.
    apply (_file_upload_frame E (Some p) dir bucket key VFalse false skip dc st).
    + intros p' version _ Hv. discriminate Hv.
    + intros p' _ Hl. discriminate Hl.
  - intros ver latest.
    apply (_file_upload_frame E (Some p) dir bucket key ver latest skip dc st).
Qed.

Lemma _file_upload_alias_independence_witness :
  gcs (_file_upload demo_E (Some "/repo/source-foo/metadata.yaml")
         "metadata/airbyte/source-foo" "bucket" "metadata" VFalse true
         true true demo_state).2
  !! "metadata/airbyte/source-foo/2.1.0/metadata.yaml"
  = gcs demo_state !! "metadata/airbyte/source-foo/2.1.0/metadata.yaml"
  /\ gcs (_file_upload demo_E (Some "/repo/source-foo/metadata.yaml")
            "metadata/airbyte/source-foo" "bucket" "metadata" (VStr "2.1.0")
            false true true demo_state).2
     !! "metadata/airbyte/source-foo/latest/metadata.yaml"
     = gcs demo_state !! "metadata/airbyte/source-foo/latest/metadata.yaml".
Proof.
  destruct (_file_upload_alias_independence demo_E
              "/repo/source-foo/metadata.yaml" "metadata/airbyte/source-foo"
              "bucket" "metadata" true true demo_state)
    as (Hlatest & Hversioned & _).
  split.
  - apply Hlatest. intros H. vm_compute in H. discriminate H.
  - apply Hversioned. intros H. vm_compute in H. discriminate H.
Defined.

(** C9.  A local path that does not exist.  With [skip_if_not_exists] the
    publisher returns the two records "not written, no id" and changes
    neither the files nor the bucket; without it the call raises
    [FileNotFoundError].  The icon step of the orchestrator passes a path and
    keeps the default [skip_if_not_exists=True], so it returns in every
    state, with the two "not written, no id" records when there is no icon
    file; and whether a run returns a report does not depend on the icon:
    a run that has its credentials and for which [get_doc_local_file_path]
    gives the two documentation paths returns, with or without an icon
    file. *)
Theorem _file_upload_missing_file (E : Env) :
  (forall p dir bucket key ver latest dc st,
     fs st !! p = None ->
     (exists st',
        _file_upload E (Some p) dir bucket key ver latest true dc st
        = (Ok (mkUploadedFile ("versioned_" +:+ key) false None,
               mkUploadedFile ("latest_" +:+ key) false None), st')
        /\ fs st' = fs st /\ gcs st' = gcs st)
     /\ _file_upload E (Some p) dir bucket key ver latest false dc st
        = (Raise (FileNotFoundError (missing_msg p)), st))
  /\ (forall dir bucket latest mfp st,
        exists pair st',
          icon_files_uploaded E dir bucket latest mfp st = (Ok pair, st')
          /\ (fs st !! path_join E (path_parent E mfp) (ICON_FILE_NAME E) = None ->
              pair = (mkUploadedFile "versioned_icon" false None,
                      mkUploadedFile "latest_icon" false None)))
  /\ (forall bucket_name path0 opts st info st0 mfp sa metadata err creds
             doc inapp_doc,
        maybe_create_components_zip E (path_parent E path0) st = (Ok info, st0) ->
        _apply_modifications_to_metadata_file E path0 opts (sha256 info) st0
        = (Ok mfp, sa) ->
        validate_and_load E (fs sa !! mfp) opts = (Some metadata, err) ->
        environ_GCS_CREDENTIALS E = Some creds -> creds <> "" ->
        service_account_client E creds = Ok tt ->
        get_doc_local_file_path E metadata (docs_path opts) false
        = Ok (Some doc) ->
        get_doc_local_file_path E metadata (docs_path opts) true
        = Ok (Some inapp_doc) ->
        exists report st',
          upload_metadata_to_gcs E bucket_name path0 opts st = (Ok report, st')
          /\ exists v l,
               v ∈ uploaded_files report /\ l ∈ uploaded_files report
               /\ id v = "versioned_icon" /\ id l = "latest_icon"
               /\ (fs sa !! path_join E (path_parent E mfp) (ICON_FILE_NAME E)
                   = None ->
                   uploaded v = false /\ blob_id v = None
                   /\ uploaded l = false /\ blob_id l = None)).
Proof.
  split_and!.
  - intros p dir bucket key ver latest dc st H. split.
    + rewrite (_file_upload_missing E p _ _ _ _ _ _ _ _ H). eauto.
    + by rewrite (_file_upload_missing E p _ _ _ _ _ _ _ _ H).
  - intros dir bucket latest mfp st. unfold icon_files_uploaded.
    destruct (fs st !! path_join E (path_parent E mfp) (ICON_FILE_NAME E))
      as [data|] eqn:H.
    + destruct (_file_upload_total E
                  (path_join E (path_parent E mfp) (ICON_FILE_NAME E))
                  dir bucket "icon" VFalse latest false st) as (pair & st' & R).
      exists pair, st'. split; [exact R | discriminate].
    + rewrite (_file_upload_missing E _ _ _ _ _ _ _ _ _ H). eauto.
  - intros bucket_name path0 opts st info st0 mfp sa metadata err creds
      doc inapp_doc R0 Ra V C Cne SA Hdoc Hinapp.
    destruct (upload_metadata_to_gcs_returns E bucket_name path0 opts st
                info st0 mfp sa metadata err creds doc inapp_doc
                R0 Ra V C Cne SA Hdoc Hinapp)
      as (report & st' & R).
    exists report, st'. split; [exact R|].
    apply upload_metadata_to_gcs_Ok_inv in R
      as (info' & st0' & sa' & metadata' & err' & R0' & Ra' & V' & Hsteps).
    rewrite R0 in R0'. injection R0' as <- <-.
    rewrite Ra in Ra'. injection Ra' as Hmfp <-.
    destruct Hsteps as (f1 & s1 & rcs & s2 & f3 & s3 & f4 & s4 & f5 & s5 & f6
                        & s6 & f7 & s7 & f8 & R1 & R2 & R3 & _ & _ & _ & _ & _
                        & Hfiles & _).
    rewrite <- Hmfp in *.
    assert (Hfs2 : fs s2 = fs sa).
    { unfold metadata_files_uploaded in R1.
      unfold release_candidate_files_uploaded in R2.
      apply _file_upload_fs in R1.
      destruct (is_release_candidate_of metadata' && _) in R2.
      - destruct R2 as (f2 & R2 & _).
        apply _file_upload_fs in R2. congruence.
      - destruct R2 as [-> _]. exact R1. }
    destruct f3 as [v l]. unfold icon_files_uploaded in R3.
    apply _file_upload_Ok_inv in R3
      as (p & [= <-] & _ & Hv & Hl & Hvn & Hln & _).
    exists v, l. rewrite Hfiles. split_and!.
    + rewrite !elem_of_app, !elem_of_cons. tauto.
    + rewrite !elem_of_app, !elem_of_cons. tauto.
    + exact Hv.
    + exact Hl.
    + rewrite <- Hfs2. intros Hmiss.
      destruct Hvn as [? ?]; [by right|]. destruct Hln as [? ?]; [by right|].
      done.
Qed.

Lemma _file_upload_missing_file_witness :
  (exists st',
     _file_upload demo_E (Some "/tmp/icon.svg") "metadata/airbyte/source-foo"
       "bucket" "icon" VFalse true true false demo_state
     = (Ok (mkUploadedFile "versioned_icon" false None,
            mkUploadedFile "latest_icon" false None), st')
     /\ fs st' = fs demo_state /\ gcs st' = gcs demo_state)
  /\ exists report st',
       demo_run demo_E demo_state = (Ok report, st').
Proof.
  destruct (_file_upload_missing_file demo_E) as (Hmissing & _ & Hrun).
  split.
  - apply (Hmissing "/tmp/icon.svg" "metadata/airbyte/source-foo" "bucket"
             "icon" VFalse true false demo_state).
    vm_compute. reflexivity.
  - edestruct (Hrun "bucket" "/repo/source-foo/metadata.yaml" demo_opts
                 demo_state) as (report & st' & R & _).
    + vm_compute. reflexivity.
    + vm_compute. reflexivity.
    + vm_compute. reflexivity.
    + reflexivity.
    + discriminate.
    + reflexivity.
    + vm_compute. reflexivity.
    + vm_compute. reflexivity.
    + eauto.
Defined.

(** ** The records of a report *)

Section ReportFacts.

Context (E : Env).

(** The ids a returned run has collected, in the order of the calls; the
    local files are, at the end, those the uploads started from. *)
Lemma upload_metadata_to_gcs_Ok_ids bucket_name path0 opts st report st' :
  upload_metadata_to_gcs E bucket_name path0 opts st = (Ok report, st') ->
  exists metadata err,
    validate_and_load E (fs st' !! metadata_file_path report) opts
    = (Some metadata, err)
    /\ is_Some (fs st' !! metadata_file_path report)
    /\ id <$> uploaded_files report
       = (["versioned_metadata"; "latest_metadata"]
          ++ (if is_release_candidate_of metadata
                 && negb (bool_decide (is_Some (prerelease_tag opts)))
              then ["versioned_release_candidate"; "latest_release_candidate"]
              else [])
          ++ ["versioned_icon"; "latest_icon";
              "versioned_doc"; "latest_doc";
              "versioned_inapp_doc"; "latest_inapp_doc";
              "versioned_manifest"; "latest_manifest";
              "versioned_components_zip_sha256";
              "latest_components_zip_sha256";
              "versioned_components_zip"; "latest_components_zip"])%list.
Proof.
  intros R.
  apply upload_metadata_to_gcs_Ok_inv in R
    as (info & st0 & sa & metadata & err & R0 & Ra & V & Hsteps).
  destruct Hsteps as (f1 & s1 & rcs & s2 & f3 & s3 & f4 & s4 & f5 & s5 & f6
                      & s6 & f7 & s7 & f8 & R1 & R2 & R3 & R4 & R5 & R6 & R7
                      & R8 & Hfiles & _).
  apply doc_files_uploaded_Ok_inv in R4 as (lp4 & Hlp4 & R4).
  apply inapp_doc_files_uploaded_Ok_inv in R5 as (lp5 & Hlp5 & R5).
  apply _apply_modifications_to_metadata_file_inv in Ra as (_ & Hmfp & _).
  unfold metadata_files_uploaded, icon_files_uploaded, doc_files_uploaded,
    inapp_doc_files_uploaded, manifest_files_uploaded,
    components_zip_sha256_files_uploaded, components_zip_files_uploaded in *.
  destruct f1 as [v1 l1], f3 as [v3 l3], f4 as [v4 l4], f5 as [v5 l5],
    f6 as [v6 l6], f7 as [v7 l7], f8 as [v8 l8].
  apply _file_upload_Ok_inv in R1 as (? & _ & F1 & I1 & J1 & _).
  apply _file_upload_Ok_inv in R3 as (? & _ & F3 & I3 & J3 & _).
  apply _file_upload_Ok_inv in R4 as (? & _ & F4 & I4 & J4 & _).
  apply _file_upload_Ok_inv in R5 as (? & _ & F5 & I5 & J5 & _).
  apply _file_upload_Ok_inv in R6 as (? & _ & F6 & I6 & J6 & _).
  apply _file_upload_Ok_inv in R7 as (? & _ & F7 & I7 & J7 & _).
  apply _file_upload_Ok_inv in R8 as (? & _ & F8 & I8 & J8 & _).
  assert (fs s2 = fs s1
          /\ id <$> rcs
             = if is_release_candidate_of metadata
                  && negb (bool_decide (is_Some (prerelease_tag opts)))
               then ["versioned_release_candidate"; "latest_release_candidate"]
               else []) as [F2 I2].
  { destruct (is_release_candidate_of metadata && _).
    - destruct R2 as ([v2 l2] & R2 & ->).
      unfold release_candidate_files_uploaded in R2.
      apply _file_upload_Ok_inv in R2 as (? & _ & F2 & I2 & J2 & _).
      cbn. by rewrite I2, J2.
    - by destruct R2 as [-> ->]. }
  assert (Hfs : fs st' = fs sa) by congruence.
  exists metadata, err. rewrite Hfs. split; [exact V|]. split; [exact Hmfp|].
  rewrite Hfiles, !fmap_app, I2. cbn.
  by rewrite I1, J1, I3, J3, I4, J4, I5, J5, I6, J6, I7, J7, I8, J8.
Qed.

End ReportFacts.



(** ** Where a run writes *)

Section RoutingFacts.

Context (E : Env).

Lemma _file_upload_keeps_run lp dir bucket key ver latest skip dc st r st' q :
  _file_upload E lp dir bucket key ver latest skip dc st = (r, st') ->
  is_Some (gcs st !! q) -> is_Some (gcs st' !! q).
Proof.
  intros R Hq.
  pose proof (_file_upload_keeps E lp dir bucket key ver latest skip dc st q Hq)
    as K.
  by rewrite R in K.
Qed.


Lemma _file_upload_stores_run p dir bucket key ver latest skip dc st r st' :
  _file_upload E (Some p) dir bucket key ver latest skip dc st = (r, st') ->
  is_Some (fs st !! p) ->
  (forall version, version_truthy ver = Some version ->
     is_Some (gcs st' !! versioned_blob_path dir version (path_name E p)))
  /\ (latest = true ->
      is_Some (gcs st' !! latest_blob_path dir (path_name E p))).
Proof.
  intros R Hp.
  pose proof (_file_upload_stores E p dir bucket key ver latest skip dc st Hp)
    as S.
  by rewrite R in S.
Qed.


End RoutingFacts.

Ltac id_clash :=
  match goal with
  | H1 : id ?x = _, H2 : id ?x = _ |- _ =>
      rewrite H1 in H2; discriminate H2
  end.



(** ** The report flag and the optional artifacts *)

Section ReportFlag.

Context (E : Env).

(** X10.  The report flag of a returned run.  [_any_uploaded] looks at ids
    only, and the record [latest_metadata] is in every report: the flag
    [metadata_uploaded] of a returned run is always set. *)
Lemma upload_metadata_to_gcs_flag_always bucket_name path0 opts st report st' :
  upload_metadata_to_gcs E bucket_name path0 opts st = (Ok report, st') ->
  metadata_uploaded report = true.
Proof.
  intros R.
  pose proof (upload_metadata_to_gcs_Ok_ids E _ _ _ _ _ _ R)
    as (metadata & err & _ & _ & Hids).
  apply upload_metadata_to_gcs_Ok_inv in R
    as (info & st0 & sa & metadata0 & err0 & _ & _ & _ & Hsteps).
  destruct Hsteps as (f1 & s1 & rcs & s2 & f3 & s3 & f4 & s4 & f5 & s5 & f6
                      & s6 & f7 & s7 & f8 & _ & _ & _ & _ & _ & _ & _ & _
                      & Hfiles & ->).
  rewrite Hfiles in Hids |- *. cbn in Hids |- *.
  injection Hids as _ Hl _. rewrite Hl.
  apply orb_true_iff. right. apply orb_true_iff. left.
  apply bool_decide_eq_true_2. apply list_elem_of_here.
Qed.

(** X11.  No report without a documentation path.  A run that returns has
    reached both documentation steps with a path in hand: the documentation
    URL of the validated document matches the pattern of
    [get_doc_local_file_path], and the function has returned a path for the
    documentation and for the in-app documentation.  (For a URL that does not
    match it returns [None], on which [_file_upload] calls [.exists()];
    [skip_if_not_exists], left at its default, is of no help there.) *)
Lemma upload_metadata_to_gcs_needs_docs_url bucket_name path0 opts st
    report st' :
  upload_metadata_to_gcs E bucket_name path0 opts st = (Ok report, st') ->
  exists metadata err doc inapp_doc,
    validate_and_load E (fs st' !! metadata_file_path report) opts
    = (Some metadata, err)
    /\ is_Some (docs_url_group (documentationUrl metadata))
    /\ get_doc_local_file_path E metadata (docs_path opts) false
       = Ok (Some doc)
    /\ get_doc_local_file_path E metadata (docs_path opts) true
       = Ok (Some inapp_doc).
Proof.
  intros R.
  pose proof (upload_metadata_to_gcs_Ok_ids E _ _ _ _ _ _ R)
    as (metadata & err & V & _ & _).
  apply upload_metadata_to_gcs_Ok_inv in R
    as (info & st0 & sa & metadata0 & err0 & R0 & Ra & V0 & Hsteps).
  destruct Hsteps as (f1 & s1 & rcs & s2 & f3 & s3 & f4 & s4 & f5 & s5 & f6
                      & s6 & f7 & s7 & f8 & R1 & R2 & R3 & R4 & R5 & R6 & R7
                      & R8 & Hfiles & _).
  apply doc_files_uploaded_Ok_inv in R4 as (lp4 & Hlp4 & R4).
  apply inapp_doc_files_uploaded_Ok_inv in R5 as (lp5 & Hlp5 & R5).
  pose proof R4 as R4'. pose proof R5 as R5'.
  assert (Hfs : fs st' = fs sa).
  { unfold metadata_files_uploaded, icon_files_uploaded, doc_files_uploaded,
      inapp_doc_files_uploaded, manifest_files_uploaded,
      components_zip_sha256_files_uploaded, components_zip_files_uploaded,
      release_candidate_files_uploaded in *.
    apply _file_upload_fs in R1, R3, R4, R5, R6, R7, R8.
    assert (fs s2 = fs s1).
    { destruct (is_release_candidate_of metadata0 && _).
      - destruct R2 as (f2 & R2 & _). by apply _file_upload_fs in R2.
      - by destruct R2 as [-> _]. }
    congruence. }
  rewrite Hfs, V0 in V. injection V as -> ->.
  destruct lp4 as [doc|]; [|by rewrite _file_upload_none in R4'].
  destruct lp5 as [inapp_doc|]; [|by rewrite _file_upload_none in R5'].
  exists metadata, err, doc, inapp_doc. split_and!; try done.
  - by rewrite Hfs.
  - unfold get_doc_local_file_path in Hlp4.
    destruct (docs_url_group (documentationUrl metadata));
      [eauto | discriminate Hlp4].
Qed.


End ReportFlag.

(** C1.  The report flag when nothing is written.  A run that is given the
    empty string as prerelease tag is a prerelease, so nothing goes to the
    latest folder and there is no release-candidate step, and its version
    alias is empty, so nothing goes to a version folder either.  The run
    returns a report in which no record is written and the bucket is as it
    was: the flag as the specification words it is false, yet
    [metadata_uploaded] is true.  [_any_uploaded] tests
    [uploaded_file.id in keys] and never reads [uploaded]. *)
Theorem metadata_uploaded_when_nothing_written :
  exists report st',
    upload_metadata_to_gcs demo_E_empty_tag "bucket"
      "/repo/source-foo/metadata.yaml" demo_opts_empty_tag demo_state
    = (Ok report, st')
    /\ Forall (fun f => uploaded f = false /\ blob_id f = None)
         (uploaded_files report)
    /\ gcs st' = gcs demo_state
    /\ spec_metadata_published (uploaded_files report) = false
    /\ metadata_uploaded report = true.
Proof.
  eexists _, _. split; [vm_compute; reflexivity|].
  split; [|split_and!; vm_compute; reflexivity].
  cbn [uploaded_files]. repeat constructor.
Qed.

(** C2.  No [components.py] in the working directory.  The run on the
    connector directory that holds only [metadata.yaml] publishes the
    temporary zip file all the same: both [components_zip] records are
    written and carry a blob id, and the bucket holds an empty archive.  The
    file was created, empty, by [NamedTemporaryFile(delete=False)] and
    exists when [_file_upload] looks for it. *)
Theorem components_zip_published_without_components :
  fs demo_state !! "/repo/source-foo/components.py" = None
  /\ exists report st',
       demo_run demo_E demo_state = (Ok report, st')
       /\ mkUploadedFile "versioned_components_zip" true
            (Some "bucket/metadata/airbyte/source-foo/2.1.0/tmpx.zip")
          ∈ uploaded_files report
       /\ mkUploadedFile "latest_components_zip" true
            (Some "bucket/metadata/airbyte/source-foo/latest/tmpx.zip")
          ∈ uploaded_files report
       /\ gcs st' !! "metadata/airbyte/source-foo/2.1.0/tmpx.zip"
          = Some (mkBlob "" None).
Proof.
  split; [vm_compute; reflexivity|].
  eexists _, _. split; [vm_compute; reflexivity|].
  cbn [uploaded_files]. split_and!.
  - do 12 apply list_elem_of_further. apply list_elem_of_here.
  - do 13 apply list_elem_of_further. apply list_elem_of_here.
  - vm_compute. reflexivity.
Qed.

(** C4.  A documentation URL outside the docs tree.  For a validated
    document whose [documentationUrl] does not start with
    [https://docs.airbyte.com/], [get_doc_local_file_path] returns [None],
    the [doc] step calls [.exists()] on it, and the run aborts with
    [AttributeError] - after the metadata has been written to the bucket. *)
Theorem doc_upload_aborts_on_offsite_url :
  get_doc_local_file_path demo_E_offsite
    (demo_metadata "https://example.com/docs/source-foo" false) "/docs" false
  = Ok None
  /\ (demo_run demo_E_offsite demo_state).1 = Raise AttributeError
  /\ is_Some (gcs (demo_run demo_E_offsite demo_state).2
              !! "metadata/airbyte/source-foo/latest/tmpxxx.yaml").
Proof.
  split_and!.
  - vm_compute. reflexivity.
  - vm_compute. reflexivity.
  - vm_compute. eauto.
Qed.

(** ** The metadata mutations *)

Lemma dict_get_set_eq d k v : dict_get (dict_set d k v) k = Some v.
Proof.
  induction d as [|[k' v'] d IH]; cbn.
  - by rewrite decide_True.
  - destruct (decide (k' = k)) as [->|Hne]; cbn.
    + by rewrite decide_True.
    + by rewrite decide_False.
Qed.

Lemma dict_get_set_ne d k k' v :
  k' <> k -> dict_get (dict_set d k v) k' = dict_get d k'.
Proof.
  intros Hne. induction d as [|[k0 v0] d IH]; cbn.
  - by rewrite decide_False.
  - destruct (decide (k0 = k)) as [->|Hk]; cbn.
    + by rewrite !decide_False.
    + destruct (decide (k0 = k')); [done | exact IH].
Qed.

(** On registries that are mappings the loop goes through: each registry
    that has the key gets the tag, each other one is kept as it is. *)
Lemma override_registries_ok tag registries :
  Forall (fun entry => exists rd, entry.2 = PDict rd) registries ->
  exists registries',
    override_registries tag registries = Ok registries'
    /\ forall name rd,
         dict_get registries name = Some (PDict rd) ->
         exists rd',
           dict_get registries' name = Some (PDict rd')
           /\ (is_Some (dict_get rd "dockerImageTag") ->
               dict_get rd' "dockerImageTag" = Some (PStr tag))
           /\ (dict_get rd "dockerImageTag" = None -> rd' = rd).
Proof.
  induction 1 as [|[name0 registry] rest [rd0 Hrd] _ IH]; cbn.
  - eexists. split; [reflexivity|]. intros name rd Hget. discriminate Hget.
  - cbn in Hrd. subst registry.
    destruct IH as (rest' & -> & Hrest). cbn.
    destruct (bool_decide (is_Some (dict_get rd0 "dockerImageTag"))) eqn:Has;
      cbn; (eexists; split; [reflexivity|]); intros name rd Hget; cbn;
      destruct (decide (name0 = name)) as [->|Hne]; try (by apply Hrest).
    + injection Hget as <-. eexists. split; [reflexivity|]. split.
      * intros _. apply dict_get_set_eq.
      * intros Hnone. apply bool_decide_eq_true_1 in Has.
        rewrite Hnone in Has. by destruct Has.
    + injection Hget as <-. eexists. split; [reflexivity|]. split.
      * intros Hsome. apply bool_decide_eq_false_1 in Has. done.
      * done.
Qed.

(** C7.  The prerelease override.  On a document whose [data] is a mapping
    and whose [registryOverrides], when present, maps registry names to
    mappings, a supplied tag becomes [data.dockerImageTag] and the
    [dockerImageTag] of every registry override that has one; an override
    without the field is left as it is.  Without a tag the mutation returns
    the document it was given, whatever it is. *)
Theorem _apply_prerelease_overrides_replaces_tags
    (d dd : list (string * pyval)) (tag docs : string) :
  dict_get d "data" = Some (PDict dd) ->
  (forall overrides, dict_get dd "registryOverrides" = Some overrides ->
     exists registries,
       overrides = PDict registries
       /\ Forall (fun entry => exists rd, entry.2 = PDict rd) registries) ->
  (exists doc',
     _apply_prerelease_overrides (PDict d) (mkValidatorOptions docs (Some tag))
     = Ok doc'
     /\ pydash_get doc' ["data"; "dockerImageTag"] PNone = PStr tag
     /\ forall name rd,
          pydash_get (PDict d) ["data"; "registryOverrides"; name] PNone
          = PDict rd ->
          exists rd',
            pydash_get doc' ["data"; "registryOverrides"; name] PNone
            = PDict rd'
            /\ (is_Some (dict_get rd "dockerImageTag") ->
                dict_get rd' "dockerImageTag" = Some (PStr tag))
            /\ (dict_get rd "dockerImageTag" = None -> rd' = rd))
  /\ forall doc,
       _apply_prerelease_overrides doc (mkValidatorOptions docs None) = Ok doc.
Proof.
  intros Hdata Hshape. split; [|reflexivity].
  unfold _apply_prerelease_overrides. cbn [prerelease_tag].
  cbn [py_getitem rbind]. rewrite Hdata. cbn [py_setitem rbind].
  set (dd1 := dict_set dd "dockerImageTag" (PStr tag)).
  set (d1 := dict_set d "data" (PDict dd1)).
  assert (Hd1 : dict_get d1 "data" = Some (PDict dd1))
    by apply dict_get_set_eq.
  assert (Hov : dict_get dd1 "registryOverrides"
                = dict_get dd "registryOverrides")
    by (by apply dict_get_set_ne).
  assert (Htag1 : dict_get dd1 "dockerImageTag" = Some (PStr tag))
    by apply dict_get_set_eq.
  cbn [pydash_get]. rewrite Hd1, Hov.
  destruct (dict_get dd "registryOverrides") as [overrides|] eqn:Hregs.
  - destruct (Hshape overrides eq_refl) as (registries & -> & Hdicts).
    cbn [py_items rbind].
    destruct (override_registries_ok tag registries Hdicts)
      as (registries' & -> & Hreg).
    cbn [rbind py_setitem].
    set (dd2 := dict_set dd1 "registryOverrides" (PDict registries')).
    cbn [py_getitem]. rewrite Hov.
    eexists. split; [reflexivity|]. cbn [pydash_get].
    rewrite dict_get_set_eq. split.
    + subst dd2. rewrite dict_get_set_ne by done. by rewrite Htag1.
    + intros name rd. rewrite Hdata, Hregs.
      subst dd2. rewrite dict_get_set_eq.
      destruct (dict_get registries name) as [registry|] eqn:Hname;
        [|discriminate].
      intros ->. destruct (Hreg name rd Hname) as (rd' & -> & Hrd').
      eauto.
  - cbn [py_items rbind override_registries py_getitem]. rewrite Hov.
    eexists. split; [reflexivity|]. cbn [pydash_get].
    rewrite Hd1, Htag1. split; [reflexivity|].
    intros name rd. rewrite Hdata, Hregs. discriminate.
Qed.

Lemma _apply_prerelease_overrides_replaces_tags_witness :
  exists doc',
    _apply_prerelease_overrides demo_document
      (mkValidatorOptions "/docs" (Some "1.0.0-dev.abc123")) = Ok doc'
    /\ pydash_get doc' ["data"; "dockerImageTag"] PNone
       = PStr "1.0.0-dev.abc123"
    /\ pydash_get doc' ["data"; "registryOverrides"; "cloud"; "dockerImageTag"]
         PNone = PStr "1.0.0-dev.abc123"
    /\ pydash_get doc' ["data"; "registryOverrides"; "oss"] PNone
       = PDict [("enabled", PBool true)].
Proof.
  destruct (_apply_prerelease_overrides_replaces_tags demo_fields demo_data
              "1.0.0-dev.abc123" "/docs")
    as [(doc' & R & Htop & Hregs) _].
  - reflexivity.
  - intros overrides [= <-]. eexists. split; [reflexivity|].
    repeat constructor; cbn; eauto.
  - exists doc'. split; [exact R|]. split; [exact Htop|].
    injection R as <-. split; reflexivity.
Defined.

(** C3, as the code has it.  The SBOM step returns the document unchanged,
    without raising, when the key [data], [dockerRepository] or
    [dockerImageTag] is missing, and when the probe answers with a status
    that is not OK. *)
Theorem _apply_sbom_url_skips_on_lookup_failure (E : Env)
    (d : list (string * pyval)) :
  dict_get d "data" = None
  \/ (exists dd, dict_get d "data" = Some (PDict dd)
                 /\ (dict_get dd "dockerRepository" = None
                     \/ dict_get dd "dockerImageTag" = None))
  \/ (exists sbom_url, sbom_url_lookup E (PDict d) = Ok sbom_url
                       /\ requests_head E sbom_url = Response false) ->
  _apply_sbom_url_to_metadata_file E (PDict d) = Ok (PDict d).
Proof.
  unfold _apply_sbom_url_to_metadata_file.
  intros [Hdata | [(dd & Hdata & Hfield) | (sbom_url & Hurl & Hhead)]].
  - unfold sbom_url_lookup. cbn. by rewrite Hdata.
  - unfold sbom_url_lookup. cbn. rewrite Hdata. cbn.
    destruct Hfield as [Hrepo | Htag].
    + by rewrite Hrepo.
    + destruct (dict_get dd "dockerRepository"); cbn; by rewrite ?Htag.
  - by rewrite Hurl, Hhead.
Qed.

Lemma _apply_sbom_url_skips_on_lookup_failure_witness :
  _apply_sbom_url_to_metadata_file demo_E
    (PDict [("data", PDict [("dockerRepository", PStr "airbyte/source-foo")])])
  = Ok (PDict [("data", PDict [("dockerRepository", PStr "airbyte/source-foo")])])
  /\ _apply_sbom_url_to_metadata_file demo_E demo_document = Ok demo_document.
Proof.
  split.
  - apply (_apply_sbom_url_skips_on_lookup_failure demo_E).
    right. left. eexists. split; [reflexivity|]. right. reflexivity.
  - apply (_apply_sbom_url_skips_on_lookup_failure demo_E).
    right. right. eexists. split; reflexivity.
Defined.

(** An exception of the probe itself is not caught: it leaves the step, and
    with it the run. *)
Lemma _apply_sbom_url_probe_exception (E : Env) metadata_dict sbom_url e :
  sbom_url_lookup E metadata_dict = Ok sbom_url ->
  requests_head E sbom_url = HeadRaises e ->
  _apply_sbom_url_to_metadata_file E metadata_dict = Raise e.
Proof.
  intros Hurl Hhead. unfold _apply_sbom_url_to_metadata_file.
  by rewrite Hurl, Hhead.
Qed.

(** C3, as stated, fails: with the server out of reach the probe raises, the
    SBOM step raises with it instead of returning the document, and the whole
    run aborts before anything is uploaded. *)
Lemma _apply_sbom_url_network_failure_raises :
  requests_head demo_E_offline
    "https://connectors.airbyte.com/files/sbom/airbyte/source-foo/2.1.0.spdx.json"
  = HeadRaises ConnectionError
  /\ _apply_sbom_url_to_metadata_file demo_E_offline demo_document
     = Raise ConnectionError
  /\ _apply_sbom_url_to_metadata_file demo_E_offline demo_document
     <> Ok demo_document
  /\ (demo_run demo_E_offline demo_state).1 = Raise ConnectionError
  /\ gcs (demo_run demo_E_offline demo_state).2 = ∅.
Proof.
  split_and!.
  - reflexivity.
  - reflexivity.
  - discriminate.
  - vm_compute. reflexivity.
  - vm_compute. reflexivity.
Qed.

(** ** Runs that reach the uploads *)

Section Reached.

Context (E : Env).



End Reached.




(** * Further properties of the module *)

(** ** Relations kept along a computation *)

Lemma preserves_bind {A B} (R : State -> State -> Prop) (m : M A)
    (k : A -> M B) :
  (forall s1 s2 s3, R s1 s2 -> R s2 s3 -> R s1 s3) ->
  preserves R m -> (forall a, preserves R (k a)) -> preserves R (bind m k).
Proof.
  intros Htrans Hm Hk st. unfold bind.
  pose proof (Hm st) as H1. destruct (m st) as [[a|e] s1]; cbn in *.
  - eapply Htrans; [exact H1 | apply Hk].
  - exact H1.
Qed.

Lemma output_extended_refl s : output_extended s s.
Proof. exists []. by rewrite app_nil_r. Qed.

Lemma output_extended_same s s' : output s' = output s -> output_extended s s'.
Proof. intros H. exists []. by rewrite app_nil_r. Qed.

Lemma output_extended_step s line :
  output_extended s (mkState (fs s) (gcs s) (output s ++ [line])).
Proof. by exists [line]. Qed.

Lemma run_kept_refl E s : run_kept E s s.
Proof.
  split; [by split|]. split; [by intros q _ | apply output_extended_refl].
Qed.

Lemma run_kept_trans E s1 s2 s3 :
  run_kept E s1 s2 -> run_kept E s2 s3 -> run_kept E s1 s3.
Proof.
  intros ([F1 G1] & K1 & [m1 O1]) ([F2 G2] & K2 & [m2 O2]).
  split; [split; eauto|]. split.
  - intros q Hq. rewrite K2, K1; done.
  - exists (m1 ++ m2)%list. by rewrite O2, O1, app_assoc.
Qed.

Lemma prelude_kept_refl E s : prelude_kept E s s.
Proof. split; [reflexivity | apply run_kept_refl]. Qed.

Lemma prelude_kept_trans E s1 s2 s3 :
  prelude_kept E s1 s2 -> prelude_kept E s2 s3 -> prelude_kept E s1 s3.
Proof.
  intros [B1 K1] [B2 K2]. split.
  - unfold bucket_untouched in *. congruence.
  - eapply run_kept_trans; eassumption.
Qed.

Lemma prelude_kept_run_kept E s s' : prelude_kept E s s' -> run_kept E s s'.
Proof. by intros [_ ?]. Qed.

(** A state that differs by the log only, or by a file written under a
    temporary name. *)
Lemma run_kept_same_stores E s s' :
  fs s' = fs s -> gcs s' = gcs s -> output_extended s s' -> run_kept E s s'.
Proof.
  intros F G O. split; [split; intros q; by rewrite ?F, ?G|].
  split; [intros q _; by rewrite F | exact O].
Qed.

Lemma prelude_kept_temp_write E s files suffix data out :
  output_extended s (mkState (<[mktemp E files suffix := data]> (fs s))
                             (gcs s) out) ->
  prelude_kept E s (mkState (<[mktemp E files suffix := data]> (fs s))
                            (gcs s) out).
Proof.
  intros O. split; [reflexivity|]. split; [split|split].
  - intros q Hq. cbn. rewrite lookup_insert. case_decide; eauto.
  - done.
  - intros q Hq. cbn. rewrite lookup_insert_ne; [done|].
    intros <-. apply Hq. by exists files, suffix.
  - exact O.
Qed.

Section Kept.

Context (E : Env).

Lemma NamedTemporaryFile_kept suffix :
  preserves (prelude_kept E) (NamedTemporaryFile E suffix).
Proof.
  intros st. unfold NamedTemporaryFile. cbn [snd].
  apply prelude_kept_temp_write. by apply output_extended_same.
Qed.

Lemma maybe_create_components_zip_kept working_directory :
  preserves (prelude_kept E)
    (maybe_create_components_zip E working_directory).
Proof.
  intros st.
  unfold maybe_create_components_zip, bind, NamedTemporaryFile, path_exists,
    write_file, ret.
  cbv beta iota zeta. cbn [fs gcs output].
  set (zip := mktemp E (fs st) ".zip").
  set (s1 := mkState (<[zip := ""]> (fs st)) (gcs st) (output st)).
  assert (K1 : prelude_kept E st s1)
    by (apply prelude_kept_temp_write; by apply output_extended_same).
  set (sha := mktemp E (<[zip := ""]> (fs st)) ".sha256").
  set (s2 := mkState (<[sha := ""]> (fs s1)) (gcs s1) (output s1)).
  assert (K2 : prelude_kept E s1 s2)
    by (apply prelude_kept_temp_write; by apply output_extended_same).
  destruct (bool_decide _); cbv beta iota.
  - destruct (create_zip_and_get_sha256 E _) as [zip_bytes digest].
    cbv beta iota. cbn [fs gcs output snd].
    set (s3 := mkState (<[zip := zip_bytes]> (fs s2)) (gcs s2) (output s2)).
    assert (K3 : prelude_kept E s2 s3)
      by (apply prelude_kept_temp_write; by apply output_extended_same).
    set (s4 := mkState (<[sha := digest]> (fs s3)) (gcs s3) (output s3)).
    assert (K4 : prelude_kept E s3 s4)
      by (apply prelude_kept_temp_write; by apply output_extended_same).
    change (prelude_kept E st s4).
    eauto using prelude_kept_trans.
  - cbn [snd]. change (prelude_kept E st s2).
    eauto using prelude_kept_trans.
Qed.

Lemma _safe_load_metadata_file_kept p :
  preserves (prelude_kept E) (_safe_load_metadata_file E p).
Proof.
  intros st. destruct (_safe_load_metadata_file E p st) as [r st'] eqn:R.
  apply _safe_load_metadata_file_state in R as ->. apply prelude_kept_refl.
Qed.

Lemma logging_warning_kept line :
  preserves (prelude_kept E) (logging_warning line).
Proof.
  intros st. split; [reflexivity|].
  apply run_kept_same_stores; [done..|]. apply output_extended_step.
Qed.

Lemma _get_git_info_for_file_kept p :
  preserves (prelude_kept E) (_get_git_info_for_file E p).
Proof.
  unfold _get_git_info_for_file.
  destruct (git_last_commit E p) as [info| |msg|name].
  - intros st. apply prelude_kept_refl.
  - apply preserves_bind; [apply prelude_kept_trans|apply logging_warning_kept|].
    intros _ st. apply prelude_kept_refl.
  - destruct (contains _ msg).
    + apply preserves_bind;
        [apply prelude_kept_trans|apply logging_warning_kept|].
      intros _ st. apply prelude_kept_refl.
    + intros st. apply prelude_kept_refl.
  - intros st. apply prelude_kept_refl.
Qed.

Lemma _write_metadata_to_tmp_file_kept metadata_dict :
  preserves (prelude_kept E) (_write_metadata_to_tmp_file E metadata_dict).
Proof.
  intros st.
  unfold _write_metadata_to_tmp_file, bind, NamedTemporaryFile, write_file, ret.
  cbn [fs gcs output snd].
  set (tmp := mktemp E (fs st) ".yaml").
  set (s1 := mkState (<[tmp := ""]> (fs st)) (gcs st) (output st)).
  assert (K1 : prelude_kept E st s1)
    by (apply prelude_kept_temp_write; by apply output_extended_same).
  eapply prelude_kept_trans; [exact K1|].
  apply (prelude_kept_temp_write E s1 (fs st) ".yaml").
  by apply output_extended_same.
Qed.

(** The mutation pipeline, whether it returns the path of the rewritten file
    or raises: the bucket is as it was, no file is gone, and only temporary
    names have been written. *)
Lemma _apply_modifications_to_metadata_file_kept p opts digest :
  preserves (prelude_kept E)
    (_apply_modifications_to_metadata_file E p opts digest).
Proof.
  unfold _apply_modifications_to_metadata_file.
  apply preserves_bind;
    [apply prelude_kept_trans | apply _safe_load_metadata_file_kept |].
  intros m1. apply preserves_bind; [apply prelude_kept_trans | |].
  { intros st. apply prelude_kept_refl. }
  intros m2. apply preserves_bind; [apply prelude_kept_trans | |].
  { unfold _apply_author_info_to_metadata_file.
    apply preserves_bind;
      [apply prelude_kept_trans | apply _get_git_info_for_file_kept |].
    intros [g|] st; apply prelude_kept_refl. }
  intros m3. apply preserves_bind; [apply prelude_kept_trans | |].
  { intros st. apply prelude_kept_refl. }
  intros m4. apply _write_metadata_to_tmp_file_kept.
Qed.

End Kept.

Lemma output_extended_trans s1 s2 s3 :
  output_extended s1 s2 -> output_extended s2 s3 -> output_extended s1 s3.
Proof.
  intros [m1 H1] [m2 H2]. exists (m1 ++ m2)%list.
  by rewrite H2, H1, app_assoc.
Qed.

Section KeptByUploads.

Context (E : Env).

Lemma print_output line : preserves output_extended (print line).
Proof. intros st. apply output_extended_step. Qed.

Lemma upload_file_if_changed_output file bucket path dc :
  preserves output_extended (upload_file_if_changed E file bucket path dc).
Proof.
  unfold upload_file_if_changed.
  apply preserves_bind; [apply output_extended_trans | |].
  { intros st. unfold read_bytes. destruct (fs st !! file);
      apply output_extended_refl. }
  intros data. apply preserves_bind; [apply output_extended_trans | |].
  { intros st. apply output_extended_refl. }
  intros remote. apply preserves_bind;
    [apply output_extended_trans | apply print_output |].
  intros _. apply preserves_bind;
    [apply output_extended_trans | apply print_output |].
  intros _. destruct (decide _).
  - intros st. apply output_extended_refl.
  - apply preserves_bind; [apply output_extended_trans | |].
    + unfold _save_blob_to_gcs.
      apply preserves_bind;
        [apply output_extended_trans | apply print_output |].
      intros _. apply preserves_bind; [apply output_extended_trans | |].
      * intros st. unfold upload_from_filename.
        destruct (fs st !! file); cbn; by apply output_extended_same.
      * intros _ st. apply output_extended_refl.
    + intros up st. apply output_extended_refl.
Qed.

Lemma _file_upload_output lp dir bucket key ver latest skip dc :
  preserves output_extended
    (_file_upload E lp dir bucket key ver latest skip dc).
Proof.
  unfold _file_upload. destruct lp as [p|];
    [|intros st; apply output_extended_refl].
  apply preserves_bind; [apply output_extended_trans | |].
  { intros st. apply output_extended_refl. }
  intros present. destruct (negb present).
  - destruct skip.
    + apply preserves_bind; [apply output_extended_trans | |].
      * intros st. apply output_extended_step.
      * intros _ st. apply output_extended_refl.
    + intros st. apply output_extended_refl.
  - apply preserves_bind; [apply output_extended_trans | |].
    { destruct (version_truthy ver).
      - apply preserves_bind;
          [apply output_extended_trans
          | apply upload_file_if_changed_output |].
        intros r st. apply output_extended_refl.
      - intros st. apply output_extended_refl. }
    intros v. apply preserves_bind; [apply output_extended_trans | |].
    { destruct latest.
      - apply preserves_bind;
          [apply output_extended_trans
          | apply upload_file_if_changed_output |].
        intros r st. apply output_extended_refl.
      - intros st. apply output_extended_refl. }
    intros l st. apply output_extended_refl.
Qed.

(** A call of the publisher, whether it returns or raises: local files as
    they were, no blob gone, the log longer or the same. *)
Lemma _file_upload_kept lp dir bucket key ver latest skip dc :
  preserves (run_kept E) (_file_upload E lp dir bucket key ver latest skip dc).
Proof.
  intros st.
  pose proof (proj1 (_file_upload_frame E lp dir bucket key ver latest skip
                       dc st)) as F.
  split; [split|split].
  - intros q. by rewrite F.
  - intros q. apply _file_upload_keeps.
  - intros q _. by rewrite F.
  - apply _file_upload_output.
Qed.

Lemma doc_files_uploaded_kept dir bucket ver latest metadata docs :
  preserves (run_kept E)
    (doc_files_uploaded E dir bucket ver latest metadata docs).
Proof.
  unfold doc_files_uploaded.
  apply preserves_bind; [apply run_kept_trans | |].
  - intros st. apply run_kept_refl.
  - intros lp. apply _file_upload_kept.
Qed.

Lemma inapp_doc_files_uploaded_kept dir bucket ver latest metadata docs :
  preserves (run_kept E)
    (inapp_doc_files_uploaded E dir bucket ver latest metadata docs).
Proof.
  unfold inapp_doc_files_uploaded.
  apply preserves_bind; [apply run_kept_trans | |].
  - intros st. apply run_kept_refl.
  - intros lp. apply _file_upload_kept.
Qed.

(** The whole run, whether it returns a report or raises. *)
Lemma upload_metadata_to_gcs_kept bucket_name path0 opts :
  preserves (run_kept E) (upload_metadata_to_gcs E bucket_name path0 opts).
Proof.
  unfold upload_metadata_to_gcs.
  apply preserves_bind; [apply run_kept_trans | |].
  { intros st. apply prelude_kept_run_kept,
      maybe_create_components_zip_kept. }
  intros info. apply preserves_bind; [apply run_kept_trans | |].
  { intros st. apply prelude_kept_run_kept,
      _apply_modifications_to_metadata_file_kept. }
  intros mfp. apply preserves_bind; [apply run_kept_trans | |].
  { intros st. apply run_kept_refl. }
  intros [[metadata|] err]; [|intros st; apply run_kept_refl].
  destruct (environ_GCS_CREDENTIALS E) as [creds|];
    [|intros st; apply run_kept_refl].
  destruct (decide (creds = "")); [intros st; apply run_kept_refl|].
  apply preserves_bind; [apply run_kept_trans | |].
  { intros st. apply run_kept_refl. }
  intros _. apply preserves_bind;
    [apply run_kept_trans | apply _file_upload_kept |].
  intros f1. apply preserves_bind; [apply run_kept_trans | |].
  { destruct (_ && _).
    - apply preserves_bind;
        [apply run_kept_trans | apply _file_upload_kept |].
      intros f2 st. apply run_kept_refl.
    - intros st. apply run_kept_refl. }
  intros files2. apply preserves_bind;
    [apply run_kept_trans | apply _file_upload_kept |].
  intros f3. apply preserves_bind;
    [apply run_kept_trans | apply doc_files_uploaded_kept |].
  intros f4. apply preserves_bind;
    [apply run_kept_trans | apply inapp_doc_files_uploaded_kept |].
  intros f5. apply preserves_bind;
    [apply run_kept_trans | apply _file_upload_kept |].
  intros f6. apply preserves_bind;
    [apply run_kept_trans | apply _file_upload_kept |].
  intros f7. apply preserves_bind;
    [apply run_kept_trans | apply _file_upload_kept |].
  intros f8 st. apply run_kept_refl.
Qed.

End KeptByUploads.

(** X1.  A run never removes anything.  Whether [upload_metadata_to_gcs]
    returns a report or raises at any step, every local file that existed
    before still exists, every blob of the bucket that existed before still
    exists, and everything that had been printed or logged is still the
    beginning of the log. *)
Theorem upload_metadata_to_gcs_removes_nothing (E : Env)
    (bucket_name path0 : string) (opts : ValidatorOptions) (st : State) :
  let st' := (upload_metadata_to_gcs E bucket_name path0 opts st).2 in
  (forall q, is_Some (fs st !! q) -> is_Some (fs st' !! q))
  /\ (forall q, is_Some (gcs st !! q) -> is_Some (gcs st' !! q))
  /\ exists more, output st' = (output st ++ more)%list.
Proof.
  destruct (upload_metadata_to_gcs_kept E bucket_name path0 opts st)
    as ([F G] & _ & O).
  cbv zeta. split_and!; assumption.
Qed.

(** X2.  A run writes local files under temporary names only.  Whether it
    returns or raises, every path that is not a name picked by [tempfile]
    holds after the run what it held before: the connector directory, the
    original [metadata.yaml] and the docs tree are left as they are. *)
Theorem upload_metadata_to_gcs_writes_temporary_files_only (E : Env)
    (bucket_name path0 : string) (opts : ValidatorOptions) (st : State)
    (q : string) :
  (forall files suffix, q <> mktemp E files suffix) ->
  fs (upload_metadata_to_gcs E bucket_name path0 opts st).2 !! q
  = fs st !! q.
Proof.
  intros Hq.
  destruct (upload_metadata_to_gcs_kept E bucket_name path0 opts st)
    as (_ & K & _).
  apply K. intros (files & suffix & ->). by apply (Hq files suffix).
Qed.

Lemma upload_metadata_to_gcs_writes_temporary_files_only_witness :
  fs (demo_run demo_E demo_state).2 !! "/repo/source-foo/metadata.yaml"
  = Some "dockerImageTag: 2.1.0".
Proof.
  unfold demo_run.
  rewrite (upload_metadata_to_gcs_writes_temporary_files_only demo_E).
  - vm_compute. reflexivity.
  - intros files suffix H. cbn in H. discriminate H.
Defined.

Lemma upload_metadata_to_gcs_removes_nothing_witness :
  is_Some (fs (demo_run demo_E_offsite demo_state_rerun).2
           !! "/repo/source-foo/metadata.yaml")
  /\ is_Some (gcs (demo_run demo_E_offsite demo_state_rerun).2
              !! "metadata/airbyte/source-foo/2.1.0/tmpx.zip").
Proof.
  destruct (upload_metadata_to_gcs_removes_nothing demo_E_offsite "bucket"
              "/repo/source-foo/metadata.yaml" demo_opts
              demo_state_rerun) as (Hfiles & Hblobs & _).
  split.
  - apply Hfiles. vm_compute. eauto.
  - apply Hblobs. vm_compute. eauto.
Defined.

(** ** Failures before the uploads *)

Lemma prelude_bucket_untouched (E : Env) path0 opts st info st0 r sa :
  maybe_create_components_zip E (path_parent E path0) st = (Ok info, st0) ->
  _apply_modifications_to_metadata_file E path0 opts (sha256 info) st0
  = (r, sa) ->
  gcs sa = gcs st.
Proof.
  intros R0 Ra.
  pose proof (maybe_create_components_zip_kept E (path_parent E path0) st)
    as [B0 _].
  pose proof (_apply_modifications_to_metadata_file_kept E path0 opts
                (sha256 info) st0) as [Ba _].
  rewrite R0 in B0. rewrite Ra in Ba. unfold bucket_untouched in *.
  cbn in *. congruence.
Qed.

(** X3.  An error of the mutation pipeline is the error of the run.  When
    loading or mutating the metadata raises - the file is not a YAML mapping,
    a prerelease override meets a malformed document, git fails, the SBOM
    probe cannot connect - the run raises the same exception at once and the
    bucket is as it was. *)
Theorem upload_metadata_to_gcs_pipeline_error (E : Env)
    (bucket_name path0 : string) (opts : ValidatorOptions) (st : State)
    (info : ManifestOnlyFilePaths) (st0 : State) (e : Exn) (sa : State) :
  maybe_create_components_zip E (path_parent E path0) st = (Ok info, st0) ->
  _apply_modifications_to_metadata_file E path0 opts (sha256 info) st0
  = (Raise e, sa) ->
  upload_metadata_to_gcs E bucket_name path0 opts st = (Raise e, sa)
  /\ gcs sa = gcs st.
Proof.
  intros R0 Ra. split.
  - unfold upload_metadata_to_gcs.
    rewrite (bind_step _ _ _ _ _ R0). by rewrite (bind_abort _ _ _ _ _ Ra).
  - by apply (prelude_bucket_untouched E path0 opts st info st0 (Raise e)).
Qed.

Lemma upload_metadata_to_gcs_pipeline_error_witness :
  (demo_run demo_E_bad_yaml demo_state).1
  = Raise (ValueError "Validation error: Metadata file /repo/source-foo/metadata.yaml is invalid yaml: mapping values are not allowed here")
  /\ gcs (demo_run demo_E_bad_yaml demo_state).2 = gcs demo_state.
Proof.
  edestruct (upload_metadata_to_gcs_pipeline_error demo_E_bad_yaml "bucket"
               "/repo/source-foo/metadata.yaml" demo_opts demo_state)
    as [R G].
  - vm_compute. reflexivity.
  - vm_compute. reflexivity.
  - unfold demo_run. rewrite R. split; [reflexivity | exact G].
Defined.

(** X4.  A document the validator rejects.  When [validate_and_load] returns
    no document for the rewritten file, the run raises [ValueError] with the
    path of that file and the validator's message, before any credential is
    read or anything is uploaded: the bucket is as it was. *)
Theorem upload_metadata_to_gcs_invalid_metadata (E : Env)
    (bucket_name path0 : string) (opts : ValidatorOptions) (st : State)
    (info : ManifestOnlyFilePaths) (st0 : State) (mfp : string) (sa : State)
    (error : string) :
  maybe_create_components_zip E (path_parent E path0) st = (Ok info, st0) ->
  _apply_modifications_to_metadata_file E path0 opts (sha256 info) st0
  = (Ok mfp, sa) ->
  validate_and_load E (fs sa !! mfp) opts = (None, error) ->
  upload_metadata_to_gcs E bucket_name path0 opts st
  = (Raise (ValueError ("Metadata file " +:+ mfp +:+
                        " is invalid for uploading: " +:+ error)), sa)
  /\ gcs sa = gcs st.
Proof.
  intros R0 Ra V. split.
  - unfold upload_metadata_to_gcs.
    rewrite (bind_step _ _ _ _ _ R0), (bind_step _ _ _ _ _ Ra).
    unfold bind at 1. by rewrite V.
  - by apply (prelude_bucket_untouched E path0 opts st info st0 (Ok mfp)).
Qed.

Lemma upload_metadata_to_gcs_invalid_metadata_witness :
  (demo_run demo_E_invalid demo_state).1
  = Raise (ValueError "Metadata file /tmp/tmpxxx.yaml is invalid for uploading: dockerImageTag is not semver")
  /\ gcs (demo_run demo_E_invalid demo_state).2 = gcs demo_state.
Proof.
  edestruct (upload_metadata_to_gcs_invalid_metadata demo_E_invalid "bucket"
               "/repo/source-foo/metadata.yaml" demo_opts demo_state)
    as [R G].
  - vm_compute. reflexivity.
  - vm_compute. reflexivity.
  - reflexivity.
  - unfold demo_run. rewrite R. split; [reflexivity | exact G].
Defined.

(** X5.  Credentials are checked before the first upload.  With a validated
    document in hand, a missing or empty [GCS_CREDENTIALS] makes the run
    raise [ValueError "Please set the GCS_CREDENTIALS env var."], and
    credentials the client refuses make it raise the client's error; in both
    cases the bucket is as it was. *)
Theorem upload_metadata_to_gcs_credentials_first (E : Env)
    (bucket_name path0 : string) (opts : ValidatorOptions) (st : State)
    (info : ManifestOnlyFilePaths) (st0 : State) (mfp : string) (sa : State)
    (metadata : ConnectorMetadataDefinitionV0) (err : string) :
  maybe_create_components_zip E (path_parent E path0) st = (Ok info, st0) ->
  _apply_modifications_to_metadata_file E path0 opts (sha256 info) st0
  = (Ok mfp, sa) ->
  validate_and_load E (fs sa !! mfp) opts = (Some metadata, err) ->
  gcs sa = gcs st
  /\ (environ_GCS_CREDENTIALS E = None \/ environ_GCS_CREDENTIALS E = Some "" ->
      upload_metadata_to_gcs E bucket_name path0 opts st
      = (Raise (ValueError "Please set the GCS_CREDENTIALS env var."), sa))
  /\ (forall creds e,
        environ_GCS_CREDENTIALS E = Some creds -> creds <> "" ->
        service_account_client E creds = Raise e ->
        upload_metadata_to_gcs E bucket_name path0 opts st = (Raise e, sa)).
Proof.
  intros R0 Ra V. split_and!.
  - by apply (prelude_bucket_untouched E path0 opts st info st0 (Ok mfp)).
  - intros Hcreds. unfold upload_metadata_to_gcs.
    rewrite (bind_step _ _ _ _ _ R0), (bind_step _ _ _ _ _ Ra).
    unfold bind at 1. rewrite V.
    destruct Hcreds as [-> | ->]; [reflexivity|].
    by rewrite decide_True.
  - intros creds e C Cne SA. unfold upload_metadata_to_gcs.
    rewrite (bind_step _ _ _ _ _ R0), (bind_step _ _ _ _ _ Ra).
    unfold bind at 1. rewrite V, C. rewrite decide_False by done.
    unfold bind at 1, lift at 1. by rewrite SA.
Qed.

Lemma upload_metadata_to_gcs_credentials_first_witness :
  (demo_run demo_E_no_creds demo_state).1
  = Raise (ValueError "Please set the GCS_CREDENTIALS env var.")
  /\ gcs (demo_run demo_E_no_creds demo_state).2 = gcs demo_state.
Proof.
  edestruct (upload_metadata_to_gcs_credentials_first demo_E_no_creds
               "bucket" "/repo/source-foo/metadata.yaml" demo_opts
               demo_state)
    as (G & R & _).
  - vm_compute. reflexivity.
  - vm_compute. reflexivity.
  - reflexivity.
  - unfold demo_run. rewrite R by (by left). split; [reflexivity | exact G].
Defined.

(** ** The records of a report, pair by pair *)

Section Records.

Context (E : Env).

Lemma _file_upload_record_pair lp dir bucket key ver latest skip dc st v l st' :
  _file_upload E lp dir bucket key ver latest skip dc st = (Ok (v, l), st') ->
  record_pair key ver latest v l.
Proof.
  intros R.
  apply _file_upload_Ok_inv in R as (p & _ & _ & Hv & Hl & Hvn & Hln & _).
  split_and!; [exact Hv | exact Hl | |].
  - intros Hn. apply Hvn. by left.
  - intros Hn. apply Hln. by left.
Qed.

(** The report of a returned run: the pairs of the calls in order, each read
    with the arguments of its call; the metadata pair and the
    release-candidate pair carry the ids of their blobs. *)
Lemma upload_metadata_to_gcs_Ok_records bucket_name path0 opts st report st' :
  upload_metadata_to_gcs E bucket_name path0 opts st = (Ok report, st') ->
  exists metadata err,
    let mfp := metadata_file_path report in
    let dir := METADATA_FOLDER E +:+ "/" +:+ dockerRepository metadata in
    let ver := VStr (match prerelease_tag opts with
                     | None => dockerImageTag metadata
                     | Some tag => tag
                     end) in
    let pre := bool_decide (is_Some (prerelease_tag opts)) in
    let rc := is_release_candidate_of metadata && negb pre in
    let latest := negb (is_release_candidate_of metadata) && negb pre in
    validate_and_load E (fs st' !! mfp) opts = (Some metadata, err)
    /\ exists v1 l1 rcs v3 l3 v4 l4 v5 l5 v6 l6 v7 l7 v8 l8,
         uploaded_files report
         = ([v1; l1] ++ rcs
            ++ [v3; l3; v4; l4; v5; l5; v6; l6; v7; l7; v8; l8])%list
         /\ record_pair "metadata" ver latest v1 l1
         /\ (forall version, version_truthy ver = Some version ->
               blob_id v1
               = Some (gcs_blob_id E bucket_name
                         (versioned_blob_path dir version (path_name E mfp)))
               /\ is_Some (gcs st' !! versioned_blob_path dir version
                                        (path_name E mfp)))
         /\ (if rc
             then exists v2 l2,
                 rcs = [v2; l2]
                 /\ record_pair "release_candidate"
                      (VStr RELEASE_CANDIDATE_GCS_FOLDER_NAME) false v2 l2
             else rcs = [])
         /\ record_pair "icon" VFalse latest v3 l3
         /\ record_pair "doc" ver latest v4 l4
         /\ record_pair "inapp_doc" ver latest v5 l5
         /\ record_pair "manifest" ver latest v6 l6
         /\ record_pair "components_zip_sha256" ver latest v7 l7
         /\ record_pair "components_zip" ver latest v8 l8.
Proof.
  intros R.
  destruct (upload_metadata_to_gcs_Ok_ids E _ _ _ _ _ _ R)
    as (metadata & err & V & Hmfp & _).
  exists metadata, err. cbv zeta. split; [exact V|].
  apply upload_metadata_to_gcs_Ok_inv in R
    as (info & st0 & sa & metadata0 & err0 & R0 & Ra & V0 & Hsteps).
  destruct Hsteps as (f1 & s1 & rcs & s2 & f3 & s3 & f4 & s4 & f5 & s5 & f6
                      & s6 & f7 & s7 & f8 & R1 & R2 & R3 & R4 & R5 & R6 & R7
                      & R8 & Hfiles & _).
  apply doc_files_uploaded_Ok_inv in R4 as (lp4 & Hlp4 & R4).
  apply inapp_doc_files_uploaded_Ok_inv in R5 as (lp5 & Hlp5 & R5).
  unfold metadata_files_uploaded, icon_files_uploaded, doc_files_uploaded,
    inapp_doc_files_uploaded, manifest_files_uploaded,
    components_zip_sha256_files_uploaded, components_zip_files_uploaded,
    release_candidate_files_uploaded in *.
  assert (Hfs2 : fs s2 = fs s1).
  { destruct (is_release_candidate_of metadata0 && _).
    - destruct R2 as (f2 & R2 & _). by apply _file_upload_fs in R2.
    - by destruct R2 as [-> _]. }
  pose proof (_file_upload_fs _ _ _ _ _ _ _ _ _ _ _ _ R1) as Hfs1.
  assert (Hfs : fs st' = fs sa).
  { pose proof (_file_upload_fs _ _ _ _ _ _ _ _ _ _ _ _ R3).
    pose proof (_file_upload_fs _ _ _ _ _ _ _ _ _ _ _ _ R4).
    pose proof (_file_upload_fs _ _ _ _ _ _ _ _ _ _ _ _ R5).
    pose proof (_file_upload_fs _ _ _ _ _ _ _ _ _ _ _ _ R6).
    pose proof (_file_upload_fs _ _ _ _ _ _ _ _ _ _ _ _ R7).
    pose proof (_file_upload_fs _ _ _ _ _ _ _ _ _ _ _ _ R8).
    congruence. }
  rewrite Hfs, V0 in V. injection V as -> ->. rewrite Hfs in Hmfp.
  assert (Hkeep : forall q, is_Some (gcs s1 !! q) -> is_Some (gcs st' !! q)).
  { intros q Hq.
    apply (_file_upload_keeps_run E _ _ _ _ _ _ _ _ _ _ _ q R8).
    apply (_file_upload_keeps_run E _ _ _ _ _ _ _ _ _ _ _ q R7).
    apply (_file_upload_keeps_run E _ _ _ _ _ _ _ _ _ _ _ q R6).
    apply (_file_upload_keeps_run E _ _ _ _ _ _ _ _ _ _ _ q R5).
    apply (_file_upload_keeps_run E _ _ _ _ _ _ _ _ _ _ _ q R4).
    apply (_file_upload_keeps_run E _ _ _ _ _ _ _ _ _ _ _ q R3).
    destruct (is_release_candidate_of metadata && _).
    - destruct R2 as (f2 & R2 & _).
      by apply (_file_upload_keeps_run E _ _ _ _ _ _ _ _ _ _ _ q R2).
    - by destruct R2 as [-> _]. }
  destruct f1 as [v1 l1], f3 as [v3 l3], f4 as [v4 l4], f5 as [v5 l5],
    f6 as [v6 l6], f7 as [v7 l7], f8 as [v8 l8].
  cbn [fst snd] in Hfiles.
  pose proof (_file_upload_stores_run E _ _ _ _ _ _ _ _ _ _ _ R1 Hmfp)
    as [Hstore1 _].
  pose proof (_file_upload_record_pair _ _ _ _ _ _ _ _ _ _ _ _ R1) as P1.
  apply _file_upload_Ok_inv in R1
    as (? & [= <-] & _ & _ & _ & _ & _ & Hv1 & _).
  exists v1, l1, rcs, v3, l3, v4, l4, v5, l5, v6, l6, v7, l7, v8, l8.
  split_and!; try exact Hfiles; try exact P1;
    try (eapply _file_upload_record_pair; eassumption).
  - intros version Hver. split; [by apply Hv1|].
    apply Hkeep. by apply Hstore1.
  - destruct (is_release_candidate_of metadata && _).
    + destruct R2 as ([v2 l2] & R2 & ->). exists v2, l2.
      split; [reflexivity|]. eapply _file_upload_record_pair. exact R2.
    + by destruct R2 as [_ ->].
Qed.

End Records.

Ltac latest_clash :=
  match goal with
  | H1 : id ?x = _, H2 : String.prefix _ (id ?x) = true |- _ =>
      rewrite H1 in H2; cbn in H2; discriminate H2
  end.



(** X7.  The metadata always goes under the version alias.  The alias is the
    prerelease tag when one is supplied and the document's image tag
    otherwise.  When it is not empty, the record [versioned_metadata] of a
    returned run carries the id of the blob at [{dir}/{alias}/{name}], where
    [name] is the file name of the rewritten metadata file, and that blob
    exists when the run ends. *)
Theorem metadata_published_under_version_alias (E : Env)
    (bucket_name path0 : string) (opts : ValidatorOptions) (st : State)
    (report : MetadataUploadInfo) (st' : State) :
  upload_metadata_to_gcs E bucket_name path0 opts st = (Ok report, st') ->
  exists metadata err,
    validate_and_load E (fs st' !! metadata_file_path report) opts
    = (Some metadata, err)
    /\ let alias := match prerelease_tag opts with
                    | None => dockerImageTag metadata
                    | Some tag => tag
                    end in
       let blob_path :=
         versioned_blob_path
           (METADATA_FOLDER E +:+ "/" +:+ dockerRepository metadata) alias
           (path_name E (metadata_file_path report)) in
       alias <> "" ->
       (exists f, f ∈ uploaded_files report
                  /\ id f = "versioned_metadata"
                  /\ blob_id f = Some (gcs_blob_id E bucket_name blob_path))
       /\ is_Some (gcs st' !! blob_path).
Proof.
  intros R.
  destruct (upload_metadata_to_gcs_Ok_records E _ _ _ _ _ _ R)
    as (metadata & err & V & Hrec).
  exists metadata, err. split; [exact V|]. cbv zeta in *.
  destruct Hrec as (v1 & l1 & rcs & v3 & l3 & v4 & l4 & v5 & l5 & v6 & l6
                    & v7 & l7 & v8 & l8 & Hfiles & (I1 & _) & Hv1 & _).
  intros Halias.
  destruct (Hv1 _ ltac:(cbn; by rewrite decide_False)) as [Hid Hblob].
  split; [|exact Hblob].
  exists v1. split_and!; [|exact I1|exact Hid].
  rewrite Hfiles, !elem_of_app, !elem_of_cons. tauto.
Qed.

Lemma metadata_published_under_version_alias_witness :
  exists report st',
    upload_metadata_to_gcs demo_E "bucket" "/repo/source-foo/metadata.yaml"
      demo_opts_prerelease demo_state = (Ok report, st')
    /\ is_Some (gcs st'
                !! versioned_blob_path "metadata/airbyte/source-foo"
                     "2.1.0-dev.abc123"
                     (demo_name (metadata_file_path report))).
Proof.
  destruct (upload_metadata_to_gcs demo_E "bucket"
              "/repo/source-foo/metadata.yaml" demo_opts_prerelease
              demo_state) as [[report|e] st'] eqn:R;
    [|vm_compute in R; discriminate R].
  destruct (metadata_published_under_version_alias demo_E "bucket"
              "/repo/source-foo/metadata.yaml" demo_opts_prerelease
              demo_state report st' R) as (metadata & err & V & H).
  exists report, st'. split; [reflexivity|].
  cbn in V. destruct (fs st' !! metadata_file_path report);
    [|discriminate V].
  injection V as <- _. cbv zeta in H.
  refine (proj2 (H _)). discriminate.
Defined.

(** X8.  Latest copies are for plain releases only.  When the validated
    document is a release candidate, or a prerelease tag is supplied, every
    [latest_...] record of a returned run is "not written, no id": no
    artifact of any kind is published as latest. *)
Theorem latest_only_for_plain_release (E : Env)
    (bucket_name path0 : string) (opts : ValidatorOptions) (st : State)
    (report : MetadataUploadInfo) (st' : State) :
  upload_metadata_to_gcs E bucket_name path0 opts st = (Ok report, st') ->
  exists metadata err,
    validate_and_load E (fs st' !! metadata_file_path report) opts
    = (Some metadata, err)
    /\ (is_release_candidate_of metadata = true
        \/ is_Some (prerelease_tag opts) ->
        forall f, f ∈ uploaded_files report ->
          String.prefix "latest_" (id f) = true -> not_written f).
Proof.
  intros R.
  destruct (upload_metadata_to_gcs_Ok_records E _ _ _ _ _ _ R)
    as (metadata & err & V & Hrec).
  exists metadata, err. split; [exact V|]. cbv zeta in *.
  intros Hcase.
  assert (Hlatest : negb (is_release_candidate_of metadata)
                    && negb (bool_decide (is_Some (prerelease_tag opts)))
                    = false).
  { destruct Hcase as [-> | Hpre]; [reflexivity|].
    rewrite (bool_decide_eq_true_2 _ Hpre). apply andb_false_r. }
  rewrite Hlatest in Hrec.
  destruct Hrec as (v1 & l1 & rcs & v3 & l3 & v4 & l4 & v5 & l5 & v6 & l6
                    & v7 & l7 & v8 & l8 & Hfiles & P1 & _ & P2 & P3 & P4 & P5
                    & P6 & P7 & P8).
  destruct P1 as (I1 & J1 & _ & L1), P3 as (I3 & J3 & _ & L3),
    P4 as (I4 & J4 & _ & L4), P5 as (I5 & J5 & _ & L5),
    P6 as (I6 & J6 & _ & L6), P7 as (I7 & J7 & _ & L7),
    P8 as (I8 & J8 & _ & L8).
  cbn in I1, J1, I3, J3, I4, J4, I5, J5, I6, J6, I7, J7, I8, J8.
  intros f Hf Hid. rewrite Hfiles in Hf.
  destruct (is_release_candidate_of metadata
            && negb (bool_decide (is_Some (prerelease_tag opts)))).
  - destruct P2 as (v2 & l2 & -> & I2 & J2 & _ & L2). cbn in I2, J2.
    rewrite !elem_of_app, !elem_of_cons, !elem_of_nil in Hf.
    repeat (destruct Hf as [Hf|Hf]); try subst f; try done;
      first [latest_clash | auto].
  - subst rcs.
    rewrite !elem_of_app, !elem_of_cons, !elem_of_nil in Hf.
    repeat (destruct Hf as [Hf|Hf]); try subst f; try done;
      first [latest_clash | auto].
Qed.

Lemma latest_only_for_plain_release_witness :
  exists report st',
    demo_run demo_E_rc demo_state = (Ok report, st')
    /\ forall f, f ∈ uploaded_files report ->
         String.prefix "latest_" (id f) = true -> not_written f.
Proof.
  unfold demo_run.
  destruct (upload_metadata_to_gcs demo_E_rc "bucket"
              "/repo/source-foo/metadata.yaml" demo_opts demo_state)
    as [[report|e] st'] eqn:R; [|vm_compute in R; discriminate R].
  destruct (latest_only_for_plain_release demo_E_rc "bucket"
              "/repo/source-foo/metadata.yaml" demo_opts demo_state
              report st' R) as (metadata & err & V & H).
  exists report, st'. split; [reflexivity|].
  cbn in V. destruct (fs st' !! metadata_file_path report);
    [|discriminate V].
  injection V as <- _. apply H. by left.
Defined.

(** X9.  The icon has no versioned copy.  In the report of every returned
    run the record [versioned_icon] is "not written, no id": the icon call
    passes [upload_as_version=False]. *)
Theorem icon_never_versioned (E : Env)
    (bucket_name path0 : string) (opts : ValidatorOptions) (st : State)
    (report : MetadataUploadInfo) (st' : State) :
  upload_metadata_to_gcs E bucket_name path0 opts st = (Ok report, st') ->
  (exists f, f ∈ uploaded_files report /\ id f = "versioned_icon")
  /\ forall f, f ∈ uploaded_files report -> id f = "versioned_icon" ->
       not_written f.
Proof.
  intros R.
  destruct (upload_metadata_to_gcs_Ok_records E _ _ _ _ _ _ R)
    as (metadata & err & V & Hrec).
  cbv zeta in Hrec.
  destruct Hrec as (v1 & l1 & rcs & v3 & l3 & v4 & l4 & v5 & l5 & v6 & l6
                    & v7 & l7 & v8 & l8 & Hfiles & P1 & _ & P2 & P3 & P4 & P5
                    & P6 & P7 & P8).
  destruct P1 as (I1 & J1 & _), P3 as (I3 & J3 & N3 & _),
    P4 as (I4 & J4 & _), P5 as (I5 & J5 & _),
    P6 as (I6 & J6 & _), P7 as (I7 & J7 & _),
    P8 as (I8 & J8 & _).
  cbn in I1, J1, I3, J3, I4, J4, I5, J5, I6, J6, I7, J7, I8, J8.
  split.
  - exists v3. split; [|exact I3].
    rewrite Hfiles, !elem_of_app, !elem_of_cons. tauto.
  - intros f Hf Hid. rewrite Hfiles in Hf.
    destruct (is_release_candidate_of metadata
              && negb (bool_decide (is_Some (prerelease_tag opts)))).
    + destruct P2 as (v2 & l2 & -> & I2 & J2 & _). cbn in I2, J2.
      rewrite !elem_of_app, !elem_of_cons, !elem_of_nil in Hf.
      repeat (destruct Hf as [Hf|Hf]); try subst f; try done;
        first [id_clash | by apply N3].
    + subst rcs.
      rewrite !elem_of_app, !elem_of_cons, !elem_of_nil in Hf.
      repeat (destruct Hf as [Hf|Hf]); try subst f; try done;
        first [id_clash | by apply N3].
Qed.

Lemma icon_never_versioned_witness :
  exists report st',
    demo_run demo_E demo_state = (Ok report, st')
    /\ exists f, f ∈ uploaded_files report /\ id f = "versioned_icon"
                 /\ not_written f.
Proof.
  unfold demo_run.
  destruct (upload_metadata_to_gcs demo_E "bucket"
              "/repo/source-foo/metadata.yaml" demo_opts demo_state)
    as [[report|e] st'] eqn:R; [|vm_compute in R; discriminate R].
  destruct (icon_never_versioned demo_E "bucket"
              "/repo/source-foo/metadata.yaml" demo_opts demo_state
              report st' R) as [(f & Hf & Hid) Hnot].
  exists report, st'. split; [reflexivity|].
  exists f. split; [exact Hf|]. split; [exact Hid|]. by apply Hnot.
Defined.

Lemma upload_metadata_to_gcs_flag_always_witness :
  exists report st',
    demo_run demo_E demo_state_rerun = (Ok report, st')
    /\ metadata_uploaded report = true.
Proof.
  unfold demo_run.
  destruct (upload_metadata_to_gcs demo_E "bucket"
              "/repo/source-foo/metadata.yaml" demo_opts
              demo_state_rerun)
    as [[report|e] st'] eqn:R; [|vm_compute in R; discriminate R].
  exists report, st'. split; [reflexivity|].
  exact (upload_metadata_to_gcs_flag_always demo_E _ _ _ _ _ _ R).
Defined.

Lemma upload_metadata_to_gcs_needs_docs_url_witness :
  exists report st',
    demo_run demo_E demo_state = (Ok report, st')
    /\ exists metadata err doc inapp_doc,
         validate_and_load demo_E (fs st' !! metadata_file_path report)
           demo_opts = (Some metadata, err)
         /\ is_Some (docs_url_group (documentationUrl metadata))
         /\ get_doc_local_file_path demo_E metadata (docs_path demo_opts)
              false = Ok (Some doc)
         /\ get_doc_local_file_path demo_E metadata (docs_path demo_opts)
              true = Ok (Some inapp_doc).
Proof.
  unfold demo_run.
  destruct (upload_metadata_to_gcs demo_E "bucket"
              "/repo/source-foo/metadata.yaml" demo_opts demo_state)
    as [[report|e] st'] eqn:R; [|vm_compute in R; discriminate R].
  exists report, st'. split; [reflexivity|].
  exact (upload_metadata_to_gcs_needs_docs_url demo_E _ _ _ _ _ _ R).
Defined.


(** ** The documentation path *)

Lemma append_String a p s : String a p +:+ s = String a (p +:+ s).
Proof. reflexivity. Qed.

Lemma append_empty_r s : s +:+ "" = s.
Proof.
  induction s as [|c s IH]; [reflexivity|]. by rewrite append_String, IH.
Qed.

Lemma strip_prefix_app p s : strip_prefix p (p +:+ s) = Some s.
Proof.
  induction p as [|a p IH]; [reflexivity|].
  rewrite append_String. cbn [strip_prefix]. by rewrite decide_True.
Qed.

Lemma strip_prefix_Some p s rest :
  strip_prefix p s = Some rest -> s = p +:+ rest.
Proof.
  revert s. induction p as [|a p IH]; intros s H; cbn [strip_prefix] in H.
  - by injection H as ->.
  - destruct s as [|b s]; [discriminate|].
    destruct (decide (a = b)) as [->|]; [|discriminate].
    by rewrite append_String, (IH s H).
Qed.

Lemma span_line_whole s : has_newline s = false -> span_line s = (s, "").
Proof.
  induction s as [|c s IH]; cbn [span_line has_newline]; [reflexivity|].
  intros H. apply orb_false_iff in H as [Hc Hs].
  apply bool_decide_eq_false_1 in Hc. rewrite decide_False by done.
  by rewrite (IH Hs).
Qed.

Lemma span_line_break body rest :
  has_newline body = false ->
  span_line (body +:+ String newline rest) = (body, String newline rest).
Proof.
  induction body as [|c s IH]; cbn [has_newline].
  - intros _. change ("" +:+ String newline rest) with (String newline rest).
    cbn [span_line]. by rewrite decide_True.
  - intros H. apply orb_false_iff in H as [Hc Hs].
    apply bool_decide_eq_false_1 in Hc.
    rewrite append_String. cbn [span_line]. rewrite decide_False by done.
    by rewrite (IH Hs).
Qed.

Lemma span_line_inv s body tail :
  span_line s = (body, tail) ->
  s = body +:+ tail /\ has_newline body = false
  /\ (tail = "" \/ exists rest, tail = String newline rest).
Proof.
  revert body tail. induction s as [|c s IH]; intros body tail H;
    cbn [span_line] in H.
  - injection H as <- <-. split_and!; [reflexivity | reflexivity | by left].
  - destruct (decide (c = newline)) as [->|Hc].
    + injection H as <- <-. split_and!; [reflexivity | reflexivity |].
      right. eauto.
    + destruct (span_line s) as [b t] eqn:Hs. injection H as <- <-.
      destruct (IH b t eq_refl) as (-> & Hb & Ht).
      split_and!; [by rewrite append_String | | exact Ht].
      cbn [has_newline]. rewrite Hb. by rewrite bool_decide_eq_false_2.
Qed.

(** The regular expression, read on strings: it matches exactly the URLs
    made of the prefix, a page that is not empty and has no line break, and at
    most one final line break; the group is the page. *)
Lemma docs_url_group_spec url body :
  docs_url_group url = Some body <->
  body <> "" /\ has_newline body = false
  /\ (url = docs_url_prefix +:+ body
      \/ url = docs_url_prefix +:+ body +:+ String newline EmptyString).
Proof.
  unfold docs_url_group. fold docs_url_prefix. split.
  - destruct (strip_prefix docs_url_prefix url) as [rest|] eqn:Hp;
      [|discriminate].
    apply strip_prefix_Some in Hp as ->.
    destruct (span_line rest) as [b t] eqn:Hs.
    apply span_line_inv in Hs as (-> & Hb & Ht).
    destruct (decide (b = "")); [discriminate|].
    destruct (decide (t = "")) as [->|].
    { intros [= <-]. split_and!; [done..|]. left.
      by rewrite append_empty_r. }
    destruct (decide (t = String newline EmptyString)) as [->|];
      [|discriminate].
    intros [= <-]. split_and!; [done..|]. by right.
  - intros (Hne & Hb & [-> | ->]); rewrite strip_prefix_app.
    + rewrite (span_line_whole _ Hb). rewrite decide_False by done.
      by rewrite decide_True.
    + rewrite (span_line_break _ _ Hb). rewrite decide_False by done.
      rewrite decide_False by done. by rewrite decide_True.
Qed.

(** X13.  Where the documentation of a connector is looked for.  When the
    documentation URL is [https://docs.airbyte.com/] followed by a page that
    is not empty and has no line break (a single final line break is let
    through), [get_doc_local_file_path] gives what [with_suffix] gives for
    the page under the docs directory and the suffix [.md], or [.inapp.md]
    for the in-app documentation: that path, or the [ValueError] that
    [with_suffix] raises on a path with an empty name.  It returns [None]
    exactly when the URL is of no such form. *)
Theorem get_doc_local_file_path_spec (E : Env)
    (metadata : ConnectorMetadataDefinitionV0) (docs : string)
    (inapp : bool) :
  let url := documentationUrl metadata in
  let extension := if inapp then ".inapp.md" else ".md" in
  (forall page, docs_url_page url page ->
     get_doc_local_file_path E metadata docs inapp
     = (try local_path <-
          path_with_suffix E (path_join E docs page) extension;
        Ok (Some local_path)))
  /\ (get_doc_local_file_path E metadata docs inapp = Ok None
      <-> forall page, ~ docs_url_page url page).
Proof.
  cbv zeta. unfold get_doc_local_file_path, docs_url_page. split.
  - intros page H. apply docs_url_group_spec in H. by rewrite H.
  - split.
    + intros H page Hpage. apply docs_url_group_spec in Hpage.
      rewrite Hpage in H.
      by destruct (path_with_suffix E (path_join E docs page) _).
    + intros H.
      destruct (docs_url_group (documentationUrl metadata)) as [page|] eqn:Hg;
        [|reflexivity].
      apply docs_url_group_spec in Hg. by destruct (H page).
Qed.

Lemma get_doc_local_file_path_spec_witness :
  get_doc_local_file_path demo_E (demo_metadata docs_url false) "/docs" true
  = Ok (Some "/docs/integrations/sources/foo.inapp.md")
  /\ get_doc_local_file_path demo_E
       (demo_metadata "https://docs.airbyte.com//" false) "/docs" false
     = Raise (ValueError "PosixPath('/docs//') has an empty name").
Proof.
  split.
  - apply (proj1 (get_doc_local_file_path_spec demo_E
                    (demo_metadata docs_url false) "/docs" true)
             "integrations/sources/foo").
    split_and!; [discriminate | reflexivity | by left].
  - apply (proj1 (get_doc_local_file_path_spec demo_E
                    (demo_metadata "https://docs.airbyte.com//" false)
                    "/docs" false) "/").
    split_and!; [discriminate | reflexivity | by left].
Defined.

(** ** The auxiliary artifacts *)

(** X14.  What [maybe_create_components_zip] leaves behind.  It always
    returns, with the manifest path of the working directory and the names of
    two temporary files it has created, and never touches the bucket.  When
    the working directory has no [components.py], the hash is [None] and both
    files are empty.  When it has one, the zip file holds the archive of
    [components.py] and the manifest, and the hash in the result is the one
    written to the hash file.  (The temporary names are taken to differ from
    each other and from the two paths read.) *)
Theorem maybe_create_components_zip_outcome (E : Env)
    (working_directory : string) (st : State) :
  let components := path_join E working_directory (COMPONENTS_PY_FILE_NAME E) in
  let manifest := path_join E working_directory (MANIFEST_FILE_NAME E) in
  let zip := mktemp E (fs st) ".zip" in
  let sha := mktemp E (<[zip := ""]> (fs st)) ".sha256" in
  zip <> sha -> components <> zip -> components <> sha ->
  manifest <> zip -> manifest <> sha ->
  exists st' digest,
    maybe_create_components_zip E working_directory st
    = (Ok (mkManifestOnlyFilePaths zip sha digest manifest), st')
    /\ gcs st' = gcs st
    /\ match fs st !! components with
       | None =>
           digest = None /\ fs st' !! zip = Some "" /\ fs st' !! sha = Some ""
       | Some code =>
           let archive :=
             create_zip_and_get_sha256 E
               [(components, Some code); (manifest, fs st !! manifest)] in
           digest = Some archive.2
           /\ fs st' !! zip = Some archive.1
           /\ fs st' !! sha = Some archive.2
       end.
Proof.
  intros components manifest zip sha Hzs Hcz Hcs Hmz Hms.
  unfold maybe_create_components_zip, bind, NamedTemporaryFile, path_exists,
    write_file, ret.
  cbv beta iota zeta. cbn [fs gcs output].
  fold components manifest zip. fold sha.
  rewrite !lookup_insert_ne by done.
  destruct (fs st !! components) as [code|] eqn:Hc.
  - rewrite bool_decide_eq_true_2 by eauto. cbv beta iota zeta.
    cbn [fs gcs output]. rewrite !lookup_insert_ne by done. rewrite Hc.
    destruct (create_zip_and_get_sha256 E _) as [zip_bytes digest].
    cbv beta iota. cbn [fs gcs output].
    eexists _, _. split; [reflexivity|]. cbn [fs gcs fst snd].
    split_and!; try reflexivity.
    + rewrite lookup_insert_ne by done. by rewrite lookup_insert_eq.
    + by rewrite lookup_insert_eq.
  - rewrite bool_decide_eq_false_2 by (intros [? ?]; discriminate).
    cbv beta iota. eexists _, _. split; [reflexivity|]. cbn.
    split_and!; try reflexivity.
    + rewrite lookup_insert_ne by done. by rewrite lookup_insert_eq.
    + by rewrite lookup_insert_eq.
Qed.

Lemma maybe_create_components_zip_outcome_witness :
  exists st',
    maybe_create_components_zip demo_E "/repo/source-foo" demo_state_components
    = (Ok (mkManifestOnlyFilePaths "/tmp/tmpxxx.zip" "/tmp/tmpxxxx.sha256"
             (Some "0a1b") "/repo/source-foo/manifest.yaml"), st')
    /\ fs st' !! "/tmp/tmpxxx.zip" = Some "PK"
    /\ fs st' !! "/tmp/tmpxxxx.sha256" = Some "0a1b".
Proof.
  destruct (maybe_create_components_zip_outcome demo_E "/repo/source-foo"
              demo_state_components)
    as (st' & digest & R & _ & H).
  - vm_compute. discriminate.
  - vm_compute. discriminate.
  - vm_compute. discriminate.
  - vm_compute. discriminate.
  - vm_compute. discriminate.
  - exists st'. vm_compute in H. destruct H as (-> & Hzip & Hsha).
    split; [|split].
    + vm_compute. vm_compute in R. exact R.
    + exact Hzip.
    + exact Hsha.
Defined.

(** ** Loading and rewriting the metadata *)

(** X15.  [_safe_load_metadata_file] returns a mapping or raises
    [ValueError].  Whatever goes wrong - the file is missing, the YAML does
    not parse, it parses to something that is not a mapping (an empty file, a
    list, a scalar) - the error is a [ValueError] whose message starts with
    "Validation error: Metadata file <path> is invalid yaml: "; a value that
    is returned is the mapping the YAML loader gave for the text of the file.
    Nothing is written or logged. *)
Theorem _safe_load_metadata_file_result (E : Env) (p : string) (st : State) :
  exists r,
    _safe_load_metadata_file E p st = (r, st)
    /\ match r with
       | Ok metadata =>
           exists d text,
             metadata = PDict d /\ fs st !! p = Some text
             /\ yaml_safe_load E text = Ok (PDict d)
       | Raise e =>
           exists detail,
             e = ValueError (invalid_yaml_msg p +:+ ": " +:+ detail)
       end.
Proof.
  unfold _safe_load_metadata_file.
  destruct (fs st !! p) as [text|];
    [|eexists; split; [reflexivity|]; cbv beta iota; eauto].
  destruct (yaml_safe_load E text) as [[| | | | |d]|e] eqn:Hload; cbn;
    eexists; (split; [reflexivity|]); cbv beta iota; eauto.
Qed.

Lemma bind_Raise_inv {A B} (m : M A) (k : A -> M B) st e st' :
  bind m k st = (Raise e, st') ->
  m st = (Raise e, st')
  \/ exists a s1, m st = (Ok a, s1) /\ k a s1 = (Raise e, st').
Proof.
  unfold bind. destruct (m st) as [[a|e0] s1]; intros H.
  - right. eauto.
  - left. by injection H as -> ->.
Qed.

(** X16.  A pipeline that raises leaves no file behind.  The rewritten
    metadata is written at the very end: when
    [_apply_modifications_to_metadata_file] raises, at whichever step, the
    local files and the bucket are exactly as they were. *)
Theorem _apply_modifications_to_metadata_file_raise (E : Env)
    (p : string) (opts : ValidatorOptions) (digest : option string)
    (st : State) (e : Exn) (st' : State) :
  _apply_modifications_to_metadata_file E p opts digest st = (Raise e, st') ->
  fs st' = fs st /\ gcs st' = gcs st.
Proof.
  unfold _apply_modifications_to_metadata_file. intros R.
  apply bind_Raise_inv in R as [R | (m1 & s1 & R1 & R)].
  { by apply _safe_load_metadata_file_state in R as ->. }
  apply _safe_load_metadata_file_state in R1 as ->.
  apply bind_Raise_inv in R as [R | (m2 & s2 & R2 & R)].
  { unfold lift in R. by injection R as _ <-. }
  unfold lift in R2. injection R2 as _ <-.
  assert (Hauthor : forall r s,
            _apply_author_info_to_metadata_file E m2 p st = (r, s) ->
            fs s = fs st /\ gcs s = gcs st).
  { intros r s H. unfold _apply_author_info_to_metadata_file, bind in H.
    destruct (_get_git_info_for_file E p st) as [[g|eg] sg] eqn:Hg;
      apply _get_git_info_for_file_state in Hg as [Fg Gg].
    - destruct g; unfold ret in H; injection H as _ <-; done.
    - injection H as _ <-. done. }
  apply bind_Raise_inv in R as [R | (m3 & s3 & R3 & R)].
  { by apply Hauthor in R. }
  apply Hauthor in R3 as [F3 G3].
  apply bind_Raise_inv in R as [R | (m4 & s4 & R4 & R)].
  { unfold lift in R. injection R as _ <-. done. }
  unfold _write_metadata_to_tmp_file, bind, NamedTemporaryFile, write_file,
    ret in R.
  cbn in R. discriminate R.
Qed.

Lemma _apply_modifications_to_metadata_file_raise_witness :
  fs (_apply_modifications_to_metadata_file demo_E_bad_yaml
        "/repo/source-foo/metadata.yaml" demo_opts None demo_state).2
  = fs demo_state.
Proof.
  destruct (_apply_modifications_to_metadata_file demo_E_bad_yaml
              "/repo/source-foo/metadata.yaml" demo_opts None demo_state)
    as [[path|e] st'] eqn:R; [vm_compute in R; discriminate R|].
  by destruct (_apply_modifications_to_metadata_file_raise _ _ _ _ _ _ _ R).
Defined.

(** X17.  Nothing to stamp, nothing changed.  Without a prerelease tag,
    when git raises [InvalidGitRepositoryError] or a [GitCommandError] whose
    text contains "unknown revision or path not in the working tree" (the
    two errors [_get_git_info_for_file] catches), without packaged
    components, and when the SBOM step has nothing to attach, the pipeline
    creates one temporary [.yaml] file, writes to it the YAML dump of the
    document exactly as it was loaded, and returns its path; the original
    file is only read. *)
Theorem _apply_modifications_to_metadata_file_plain (E : Env)
    (p : string) (opts : ValidatorOptions) (digest : option string)
    (st : State) (text : string) (d : list (string * pyval)) :
  prerelease_tag opts = None ->
  fs st !! p = Some text ->
  yaml_safe_load E text = Ok (PDict d) ->
  digest = None \/ digest = Some "" ->
  git_last_commit E p = InvalidGitRepositoryError
  \/ (exists msg,
        git_last_commit E p = GitCommandFailed msg
        /\ contains "unknown revision or path not in the working tree" msg
           = true) ->
  _apply_sbom_url_to_metadata_file E (PDict d) = Ok (PDict d) ->
  let tmp := mktemp E (fs st) ".yaml" in
  exists st',
    _apply_modifications_to_metadata_file E p opts digest st = (Ok tmp, st')
    /\ fs st' = <[tmp := yaml_dump E (PDict d)]> (fs st)
    /\ gcs st' = gcs st.
Proof.
  intros Hpre Hfile Hload Hdigest Hgit Hsbom tmp.
  unfold _apply_modifications_to_metadata_file.
  assert (R1 : _safe_load_metadata_file E p st = (Ok (PDict d), st)).
  { unfold _safe_load_metadata_file. rewrite Hfile. cbn. by rewrite Hload. }
  rewrite (bind_step _ _ _ _ _ R1).
  unfold _apply_prerelease_overrides. rewrite Hpre.
  rewrite (bind_step (lift (Ok (PDict d))) _ st (PDict d) st eq_refl).
  assert (exists s3,
            _apply_author_info_to_metadata_file E (PDict d) p st
            = (Ok (PDict d), s3) /\ fs s3 = fs st /\ gcs s3 = gcs st)
    as (s3 & R3 & F3 & G3).
  { unfold _apply_author_info_to_metadata_file, _get_git_info_for_file.
    destruct Hgit as [-> | (msg & -> & ->)];
      unfold bind, logging_warning, ret; cbn; eauto. }
  rewrite (bind_step _ _ _ _ _ R3).
  assert (Hcomp : _apply_python_components_sha_to_metadata_file E (PDict d)
                    digest = PDict d).
  { destruct Hdigest as [-> | ->]; reflexivity. }
  rewrite Hcomp, Hsbom.
  rewrite (bind_step (lift (Ok (PDict d))) _ s3 (PDict d) s3 eq_refl).
  unfold _write_metadata_to_tmp_file, bind, NamedTemporaryFile, write_file,
    ret.
  cbn [fs gcs output]. rewrite F3, G3. fold tmp.
  eexists. split; [reflexivity|]. cbn [fs gcs].
  split; [apply insert_insert_eq | reflexivity].
Qed.

Lemma _apply_modifications_to_metadata_file_plain_witness :
  exists st',
    _apply_modifications_to_metadata_file demo_E
      "/repo/source-foo/metadata.yaml" demo_opts None demo_state
    = (Ok "/tmp/tmpx.yaml", st')
    /\ fs st' !! "/tmp/tmpx.yaml" = Some "dockerImageTag: 2.1.0"
    /\ fs st' !! "/repo/source-foo/metadata.yaml"
       = Some "dockerImageTag: 2.1.0".
Proof.
  destruct (_apply_modifications_to_metadata_file_plain demo_E
              "/repo/source-foo/metadata.yaml" demo_opts None demo_state
              "dockerImageTag: 2.1.0" demo_fields)
    as (st' & R & F & _).
  - reflexivity.
  - vm_compute. reflexivity.
  - reflexivity.
  - by left.
  - by left.
  - reflexivity.
  - exists st'. split; [exact R|]. rewrite F. split; vm_compute; reflexivity.
Defined.

(** ** The cache directive and repeated publishing *)

(** X18.  What a write stores.  When the digest of the local file differs
    from the one the bucket holds (or the blob does not exist), the blob holds
    afterwards the bytes of the file; its Cache-Control is [no-cache] when
    [disable_cache] is set and is not set at all otherwise: the upload
    replaces the object and a directive the old object had is not carried
    over.  When the digests agree the blob is left exactly as it is:
    [disable_cache] does not change the directive of an unchanged blob. *)
Theorem upload_file_if_changed_cache_control (E : Env)
    (file bucket path : string) (dc : bool) (st : State) (data : string) :
  fs st !! file = Some data ->
  let st' := (upload_file_if_changed E file bucket path dc st).2 in
  if decide (Some (compute_gcs_md5 E data)
             = (compute_gcs_md5 E ∘ blob_data <$> gcs st !! path))
  then gcs st' = gcs st
  else gcs st' !! path
       = Some (mkBlob data (if dc then Some "no-cache" else None)).
Proof.
  intros H.
  unfold upload_file_if_changed, bind, read_bytes, remote_md5_hash, print.
  rewrite H. cbn [fs gcs output].
  destruct (decide _) as [Heq|Hne]; [reflexivity|].
  unfold _save_blob_to_gcs, bind, print, upload_from_filename, ret.
  cbn [fs gcs output]. rewrite H. cbn [snd gcs].
  by rewrite lookup_insert_eq.
Qed.

Lemma upload_file_if_changed_cache_control_witness :
  gcs (upload_file_if_changed demo_E "/repo/source-foo/metadata.yaml" "bucket"
         "metadata/airbyte/source-foo/latest/metadata.yaml" true
         demo_state).2
  !! "metadata/airbyte/source-foo/latest/metadata.yaml"
  = Some (mkBlob "dockerImageTag: 2.1.0" (Some "no-cache"))
  /\ gcs (upload_file_if_changed demo_E "/repo/source-foo/metadata.yaml"
            "bucket" "metadata/airbyte/source-foo/latest/metadata.yaml" false
            demo_state_cached).2
     !! "metadata/airbyte/source-foo/latest/metadata.yaml"
     = Some (mkBlob "dockerImageTag: 2.1.0" None).
Proof.
  split.
  - pose proof (upload_file_if_changed_cache_control demo_E
                  "/repo/source-foo/metadata.yaml" "bucket"
                  "metadata/airbyte/source-foo/latest/metadata.yaml" true
                  demo_state "dockerImageTag: 2.1.0" eq_refl) as H.
    cbv zeta in H. exact H.
  - pose proof (upload_file_if_changed_cache_control demo_E
                  "/repo/source-foo/metadata.yaml" "bucket"
                  "metadata/airbyte/source-foo/latest/metadata.yaml" false
                  demo_state_cached "dockerImageTag: 2.1.0" eq_refl) as H.
    cbv zeta in H. exact H.
Defined.

Section Synced.

Context (E : Env).

(** After a call on a present file the blob carries the digest of the
    file. *)
Lemma upload_file_if_changed_synced file bucket path dc st data :
  fs st !! file = Some data ->
  (compute_gcs_md5 E ∘ blob_data
   <$> gcs (upload_file_if_changed E file bucket path dc st).2 !! path)
  = Some (compute_gcs_md5 E data).
Proof.
  intros H.
  destruct (upload_file_if_changed_present E file bucket path dc st data H)
    as (w & st1 & -> & _ & Hw & Hsame & Hnew). cbn [snd]. destruct w.
  - destruct (Hnew eq_refl) as [cc ->]. by rewrite lookup_insert_eq.
  - rewrite (Hsame eq_refl). symmetry. by apply Hw.
Qed.

(** On a blob that already carries the digest of the file the call is a
    probe: nothing is written. *)
Lemma upload_file_if_changed_probe file bucket path dc st data :
  fs st !! file = Some data ->
  (compute_gcs_md5 E ∘ blob_data <$> gcs st !! path)
  = Some (compute_gcs_md5 E data) ->
  exists st',
    upload_file_if_changed E file bucket path dc st
    = (Ok (mkMaybeUpload false (gcs_blob_id E bucket path)), st')
    /\ fs st' = fs st /\ gcs st' = gcs st.
Proof.
  intros H Hd.
  destruct (upload_file_if_changed_present E file bucket path dc st data H)
    as (w & st1 & R & F & Hw & Hsame & _).
  assert (w = false) as -> by (by apply Hw).
  exists st1. split; [exact R|]. split; [exact F | by apply Hsame].
Qed.

Lemma _file_upload_synced_destinations p dir bucket key ver latest skip dc
    st data :
  fs st !! p = Some data ->
  let st' := (_file_upload E (Some p) dir bucket key ver latest skip dc st).2 in
  (forall version, version_truthy ver = Some version ->
     (compute_gcs_md5 E ∘ blob_data
      <$> gcs st' !! versioned_blob_path dir version (path_name E p))
     = Some (compute_gcs_md5 E data))
  /\ (latest = true ->
      (compute_gcs_md5 E ∘ blob_data
       <$> gcs st' !! latest_blob_path dir (path_name E p))
      = Some (compute_gcs_md5 E data)).
Proof.
  intros H. cbv zeta.
  unfold _file_upload, bind, path_exists, ret.
  rewrite H. rewrite bool_decide_eq_true_2 by eauto. cbn [negb].
  cbv beta iota.
  destruct (version_truthy ver) as [version|]; cbv beta iota.
  - pose proof (upload_file_if_changed_synced p bucket
                  (versioned_blob_path dir version (path_name E p)) dc st
                  data H) as S1.
    destruct (upload_file_if_changed_present E p bucket
                (versioned_blob_path dir version (path_name E p)) dc st data H)
      as (w1 & st1 & R1 & Hfs1 & _).
    rewrite R1 in S1 |- *. cbn [snd] in S1.
    assert (H1 : fs st1 !! p = Some data) by (by rewrite Hfs1).
    destruct latest; cbv beta iota.
    + pose proof (upload_file_if_changed_synced p bucket
                    (latest_blob_path dir (path_name E p)) dc st1 data H1)
        as S2.
      pose proof (proj2 (upload_file_if_changed_frame E p bucket
                           (latest_blob_path dir (path_name E p)) dc st1))
        as F2.
      destruct (upload_file_if_changed E p bucket
                  (latest_blob_path dir (path_name E p)) dc st1)
        as [[r2|e2] st2]; cbn [snd] in *;
        (split; [|intros _; exact S2]); intros v [= <-];
        (destruct (decide (versioned_blob_path dir version (path_name E p)
                           = latest_blob_path dir (path_name E p)))
           as [->|Hne]; [exact S2 | by rewrite F2]).
    + cbn [snd]. split; [intros v [= <-]; exact S1 | discriminate].
  - destruct latest; cbv beta iota.
    + pose proof (upload_file_if_changed_synced p bucket
                    (latest_blob_path dir (path_name E p)) dc st data H)
        as S2.
      destruct (upload_file_if_changed E p bucket
                  (latest_blob_path dir (path_name E p)) dc st)
        as [[r2|e2] st2]; cbn [snd] in *;
        (split; [discriminate | intros _; exact S2]).
    + cbn [snd]. split; discriminate.
Qed.

End Synced.

(** X19.  After publishing, every destination matches the local file.  When
    the publisher has been called on a file that exists, the blob at each
    destination it was asked to publish to - the versioned path when a
    version alias is given, the latest path when [upload_as_latest] is set -
    carries the digest of that file, whether the call wrote it or found it
    there. *)
Theorem _file_upload_destinations_match (E : Env)
    (p dir bucket key : string) (ver : VersionArg) (latest skip dc : bool)
    (st : State) (data : string) :
  fs st !! p = Some data ->
  let st' := (_file_upload E (Some p) dir bucket key ver latest skip dc st).2 in
  (forall version, version_truthy ver = Some version ->
     (compute_gcs_md5 E ∘ blob_data
      <$> gcs st' !! versioned_blob_path dir version (path_name E p))
     = Some (compute_gcs_md5 E data))
  /\ (latest = true ->
      (compute_gcs_md5 E ∘ blob_data
       <$> gcs st' !! latest_blob_path dir (path_name E p))
      = Some (compute_gcs_md5 E data)).
Proof. apply _file_upload_synced_destinations. Qed.

Lemma _file_upload_destinations_match_witness :
  (blob_data
   <$> gcs (_file_upload demo_E (Some "/repo/source-foo/metadata.yaml")
              "metadata/airbyte/source-foo" "bucket" "metadata"
              (VStr "2.1.0") true true true demo_state).2
       !! "metadata/airbyte/source-foo/latest/metadata.yaml")
  = Some "dockerImageTag: 2.1.0".
Proof.
  destruct (_file_upload_destinations_match demo_E
              "/repo/source-foo/metadata.yaml" "metadata/airbyte/source-foo"
              "bucket" "metadata" (VStr "2.1.0") true true true demo_state
              "dockerImageTag: 2.1.0" eq_refl) as [_ Hlatest].
  exact (Hlatest eq_refl).
Defined.

(** X20.  Publishing twice is publishing once.  A second call of the
    publisher with the same arguments, the local file left as it is, returns
    both records with [uploaded = false] and changes nothing in the bucket:
    each destination is probed and found to match. *)
Theorem _file_upload_idempotent (E : Env)
    (p dir bucket key : string) (ver : VersionArg) (latest skip dc : bool)
    (st : State) (data : string) :
  fs st !! p = Some data ->
  let st1 := (_file_upload E (Some p) dir bucket key ver latest skip dc st).2 in
  exists v l st2,
    _file_upload E (Some p) dir bucket key ver latest skip dc st1
    = (Ok (v, l), st2)
    /\ uploaded v = false /\ uploaded l = false
    /\ gcs st2 = gcs st1 /\ fs st2 = fs st.
Proof.
  intros H st1.
  destruct (_file_upload_synced_destinations E p dir bucket key ver latest
              skip dc st data H) as [Sv Sl]. fold st1 in Sv, Sl.
  assert (H1 : fs st1 !! p = Some data).
  { subst st1.
    by rewrite (proj1 (_file_upload_frame E (Some p) dir bucket key ver
                         latest skip dc st)). }
  assert (Hfs : fs st1 = fs st).
  { subst st1.
    apply (_file_upload_frame E (Some p) dir bucket key ver latest skip dc st). }
  clearbody st1.
  unfold _file_upload, bind, path_exists, ret.
  rewrite H1. rewrite bool_decide_eq_true_2 by eauto. cbn [negb].
  cbv beta iota.
  destruct (version_truthy ver) as [version|]; cbv beta iota.
  - destruct (upload_file_if_changed_probe E p bucket
                (versioned_blob_path dir version (path_name E p)) dc st1 data
                H1 (Sv version eq_refl)) as (s2 & R2 & F2 & G2).
    rewrite R2. destruct latest; cbv beta iota.
    + assert (H2 : fs s2 !! p = Some data) by (by rewrite F2).
      assert (S2 : (compute_gcs_md5 E ∘ blob_data
                    <$> gcs s2 !! latest_blob_path dir (path_name E p))
                   = Some (compute_gcs_md5 E data))
        by (rewrite G2; by apply Sl).
      destruct (upload_file_if_changed_probe E p bucket
                  (latest_blob_path dir (path_name E p)) dc s2 data H2 S2)
        as (s3 & R3 & F3 & G3).
      rewrite R3. eexists _, _, _. split; [reflexivity|]. cbn.
      split_and!; congruence.
    + eexists _, _, _. split; [reflexivity|]. cbn. split_and!; congruence.
  - destruct latest; cbv beta iota.
    + destruct (upload_file_if_changed_probe E p bucket
                  (latest_blob_path dir (path_name E p)) dc st1 data H1
                  (Sl eq_refl)) as (s3 & R3 & F3 & G3).
      rewrite R3. eexists _, _, _. split; [reflexivity|]. cbn.
      split_and!; congruence.
    + eexists _, _, _. split; [reflexivity|]. cbn. split_and!; congruence.
Qed.

Lemma _file_upload_idempotent_witness :
  exists v l st2,
    _file_upload demo_E (Some "/repo/source-foo/metadata.yaml")
      "metadata/airbyte/source-foo" "bucket" "metadata" (VStr "2.1.0") true
      true true
      (_file_upload demo_E (Some "/repo/source-foo/metadata.yaml")
         "metadata/airbyte/source-foo" "bucket" "metadata" (VStr "2.1.0")
         true true true demo_state).2
    = (Ok (v, l), st2)
    /\ uploaded v = false /\ uploaded l = false.
Proof.
  destruct (_file_upload_idempotent demo_E "/repo/source-foo/metadata.yaml"
              "metadata/airbyte/source-foo" "bucket" "metadata" (VStr "2.1.0")
              true true true demo_state "dockerImageTag: 2.1.0" eq_refl)
    as (v & l & st2 & R & Hv & Hl & _).
  exists v, l, st2. split; [exact R|]. by split.
Defined.

(** ** More on the prerelease override *)

Lemma dict_set_same d k v : dict_get d k = Some v -> dict_set d k v = d.
Proof.
  induction d as [|[k' v'] d IH]; cbn; [discriminate|].
  destruct (decide (k' = k)) as [->|Hne].
  - by intros [= ->].
  - intros H. by rewrite (IH H).
Qed.

Lemma dict_set_keys_present d k v :
  is_Some (dict_get d k) -> (dict_set d k v).*1 = d.*1.
Proof.
  induction d as [|[k' v'] d IH]; cbn; [by intros [? ?]|].
  destruct (decide (k' = k)) as [->|Hne]; cbn; [done|].
  intros H. by rewrite (IH H).
Qed.

(** What a loop that went through has done, registry by registry: the names
    are the same, in the same order, and a registry that is a mapping differs
    from what it was at most in [dockerImageTag]. *)
Lemma override_registries_inv tag registries registries' :
  override_registries tag registries = Ok registries' ->
  registries'.*1 = registries.*1
  /\ (forall name rd,
        dict_get registries name = Some (PDict rd) ->
        exists rd',
          dict_get registries' name = Some (PDict rd')
          /\ forall k, k <> "dockerImageTag" ->
               dict_get rd' k = dict_get rd k)
  /\ override_registries tag registries' = Ok registries'.
Proof.
  revert registries'.
  induction registries as [|[name0 registry] rest IH]; intros registries' H;
    cbn in H.
  - injection H as <-. split_and!; [reflexivity | | reflexivity].
    intros name rd Hget. discriminate Hget.
  - destruct (py_contains "dockerImageTag" registry) as [has|] eqn:Hc;
      [|discriminate H]. cbn in H.
    destruct (if has then py_setitem registry "dockerImageTag" (PStr tag)
              else Ok registry) as [registry'|] eqn:Hs; [|discriminate H].
    cbn in H.
    destruct (override_registries tag rest) as [rest'|] eqn:Hr;
      [|discriminate H].
    cbn in H. injection H as <-.
    destruct (IH rest' eq_refl) as (Hnames & Hrest & Hagain).
    split_and!.
    + cbn. by rewrite Hnames.
    + intros name rd Hget. cbn in Hget |- *.
      destruct (decide (name0 = name)) as [->|Hne]; [|by apply Hrest].
      injection Hget as ->. destruct has.
      * cbn in Hs. injection Hs as <-. eexists. split; [reflexivity|].
        intros k Hk. by apply dict_get_set_ne.
      * injection Hs as <-. eauto.
    + cbn. destruct has.
      * destruct registry; try discriminate Hs. cbn in Hs.
        injection Hs as <-. cbn.
        rewrite dict_get_set_eq.
        rewrite bool_decide_eq_true_2 by eauto. cbn.
        rewrite dict_set_same by apply dict_get_set_eq.
        by rewrite Hagain.
      * injection Hs as <-. rewrite Hc. cbn. by rewrite Hagain.
Qed.

(** X21.  Malformed documents under a prerelease tag.  With a tag supplied,
    [_apply_prerelease_overrides] raises [KeyError "data"] on a document
    without [data], [TypeError] when [data] is not a mapping,
    [AttributeError] when [registryOverrides] is present and is not a mapping
    (a list, say), and [TypeError] when the loop, having gone through
    registries that are mappings, reaches a registry that is null. *)
Theorem _apply_prerelease_overrides_malformed (tag docs : string)
    (d : list (string * pyval)) :
  let run := _apply_prerelease_overrides (PDict d)
               (mkValidatorOptions docs (Some tag)) in
  (dict_get d "data" = None -> run = Raise (KeyError "data"))
  /\ (forall v, dict_get d "data" = Some v ->
        (forall dd, v <> PDict dd) -> run = Raise TypeError)
  /\ (forall dd overrides,
        dict_get d "data" = Some (PDict dd) ->
        dict_get dd "registryOverrides" = Some overrides ->
        (forall registries, overrides <> PDict registries) ->
        run = Raise AttributeError)
  /\ (forall dd before name after,
        dict_get d "data" = Some (PDict dd) ->
        dict_get dd "registryOverrides"
        = Some (PDict (before ++ (name, PNone) :: after)) ->
        Forall (fun entry => exists rd, entry.2 = PDict rd) before ->
        run = Raise TypeError).
Proof.
  cbv zeta. unfold _apply_prerelease_overrides. cbn [prerelease_tag].
  split_and!.
  - intros H. cbn. by rewrite H.
  - intros v H Hv. cbn. rewrite H. cbn.
    destruct v; try reflexivity. by destruct (Hv d0).
  - intros dd overrides Hdata Hov Hshape. cbn [py_getitem rbind].
    rewrite Hdata. cbn [py_setitem rbind pydash_get].
    rewrite dict_get_set_eq, dict_get_set_ne, Hov by done.
    destruct overrides; try reflexivity. by destruct (Hshape d0).
  - intros dd before name after Hdata Hov Hbefore. cbn [py_getitem rbind].
    rewrite Hdata. cbn [py_setitem rbind pydash_get].
    rewrite dict_get_set_eq, dict_get_set_ne, Hov by done.
    cbn [py_items rbind].
    assert (Hloop : override_registries tag (before ++ (name, PNone) :: after)
                    = Raise TypeError).
    { clear -Hbefore. induction Hbefore as [|[n r] rest [rd Hrd] _ IH].
      - reflexivity.
      - cbn in Hrd. subst r. cbn.
        destruct (bool_decide _); cbn; by rewrite IH. }
    by rewrite Hloop.
Qed.

Lemma _apply_prerelease_overrides_malformed_witness :
  _apply_prerelease_overrides (PDict [("metadataSpecVersion", PStr "1.0")])
    (mkValidatorOptions "/docs" (Some "1.0.0-dev.abc123"))
  = Raise (KeyError "data")
  /\ _apply_prerelease_overrides
       (PDict [("data", PDict [("registryOverrides", PList [])])])
       (mkValidatorOptions "/docs" (Some "1.0.0-dev.abc123"))
     = Raise AttributeError.
Proof.
  split.
  - apply (_apply_prerelease_overrides_malformed "1.0.0-dev.abc123" "/docs").
    reflexivity.
  - eapply (_apply_prerelease_overrides_malformed "1.0.0-dev.abc123" "/docs");
      [reflexivity | reflexivity | discriminate].
Defined.

(** ** The override on the store of objects *)

Lemma field_get_set_eq d k v : field_get (field_set d k v) k = Some v.
Proof.
  induction d as [|[k' v'] d IH]; cbn.
  - by rewrite decide_True.
  - destruct (decide (k' = k)) as [->|Hne]; cbn.
    + by rewrite decide_True.
    + by rewrite decide_False.
Qed.

Lemma field_get_set_ne d k k' v :
  k' <> k -> field_get (field_set d k v) k' = field_get d k'.
Proof.
  intros Hne. induction d as [|[k0 v0] d IH]; cbn.
  - by rewrite decide_False.
  - destruct (decide (k0 = k)) as [->|Hne0]; cbn.
    + by rewrite !decide_False.
    + destruct (decide (k0 = k')); [done | exact IH].
Qed.

Lemma elem_of_field_set d k v x :
  x ∈ field_set d k v -> x ∈ d \/ x = (k, v).
Proof.
  induction d as [|[k' v'] d IH]; cbn.
  - intros H. apply list_elem_of_singleton in H. by right.
  - destruct (decide (k' = k)) as [->|Hne]; intros H;
      apply elem_of_cons in H as [->|H].
    + by right.
    + left. by apply list_elem_of_further.
    + left. apply list_elem_of_here.
    + destruct (IH H) as [?|?]; [left; by apply list_elem_of_further | by right].
Qed.

Lemma same_but_tag_refl o : same_but_tag o o.
Proof. by destruct o. Qed.

Lemma same_but_tag_trans o1 o2 o3 :
  same_but_tag o1 o2 -> same_but_tag o2 o3 -> same_but_tag o1 o3.
Proof.
  destruct o1, o2, o3; cbn; try done.
  - intros H12 H23 k Hk. by rewrite H23, H12.
  - congruence.
Qed.

Lemma tags_only_refl h : tags_only h h.
Proof.
  split; [|done]. intros l o H. exists o. split; [done|].
  apply same_but_tag_refl.
Qed.

Lemma tags_only_trans h1 h2 h3 :
  tags_only h1 h2 -> tags_only h2 h3 -> tags_only h1 h3.
Proof.
  intros [S12 N12] [S23 N23]. split.
  - intros l o H. destruct (S12 l o H) as (o2 & H2 & T12).
    destruct (S23 l o2 H2) as (o3 & H3 & T23).
    exists o3. split; [done|]. by eapply same_but_tag_trans.
  - intros l H. by apply N23, N12.
Qed.

(** One assignment of [dockerImageTag]: the object assigned to is the one
    the reference names, and no other changes. *)
Lemma obj_setitem_tag h v x h' :
  obj_setitem h v "dockerImageTag" x = Ok h' ->
  exists l d,
    v = ORef l /\ h !! l = Some (ODict d)
    /\ h' = <[l := ODict (field_set d "dockerImageTag" x)]> h
    /\ tags_only h h'
    /\ forall l', l' <> l -> h' !! l' = h !! l'.
Proof.
  unfold obj_setitem. destruct v as [| | | |l]; try discriminate.
  destruct (h !! l) as [[d|xs]|] eqn:Hl; try discriminate.
  intros [= <-]. exists l, d. split_and!; try done.
  - split.
    + intros l' o H. destruct (decide (l' = l)) as [->|Hne].
      * eexists. split; [apply lookup_insert_eq|].
        rewrite Hl in H. injection H as <-. cbn.
        intros k Hk. by apply field_get_set_ne.
      * exists o. split; [by rewrite lookup_insert_ne|].
        apply same_but_tag_refl.
    + intros l' H. rewrite lookup_insert_ne; [done|]. congruence.
  - intros l' Hne. by rewrite lookup_insert_ne.
Qed.

Lemma override_registries_in_place_inv tag overrides n i h h' :
  override_registries_in_place tag overrides n i h = Ok h' ->
  tags_only h h'
  /\ forall l, ~ registry_of h overrides l -> h' !! l = h !! l.
Proof.
  revert i h. induction n as [|n IH]; intros i h H; cbn in H.
  { injection H as <-. split; [apply tags_only_refl | done]. }
  destruct (h !! overrides) as [[d|xs]|] eqn:Hov;
    [| injection H as <-; split; [apply tags_only_refl | done]..].
  destruct (d !! i) as [[name registry]|] eqn:Hi;
    [| injection H as <-; split; [apply tags_only_refl | done]].
  destruct (obj_contains h "dockerImageTag" registry) as [has|] eqn:Hc;
    [|discriminate H]. cbn [rbind] in H.
  destruct has; cbn [rbind] in H.
  - destruct (obj_setitem h registry "dockerImageTag" (OStr tag))
      as [h1|] eqn:Hs; [|discriminate H]. cbn [rbind] in H.
    apply obj_setitem_tag in Hs as (lr & dr & -> & Hlr & Hh1 & T1 & F1).
    destruct (IH _ _ H) as [T2 F2]. split.
    + by eapply tags_only_trans.
    + intros l Hl.
      assert (Hne : l <> lr).
      { intros ->. apply Hl. exists d, name. split; [done|].
        by eapply list_elem_of_lookup_2. }
      rewrite F2, F1; [done | done |].
      intros (d1 & name1 & Hd1 & Hin). apply Hl.
      destruct (decide (overrides = lr)) as [->|Hov'].
      * rewrite Hh1, lookup_insert_eq in Hd1. injection Hd1 as <-.
        rewrite Hlr in Hov. injection Hov as <-.
        apply elem_of_field_set in Hin as [Hin|[=]].
        by exists dr, name1.
      * rewrite F1 in Hd1 by done. by exists d1, name1.
  - by apply IH in H.
Qed.

(** Writing a tag into a mapping gives the mappings no new object to refer
    to. *)
Lemma registry_of_tag_written h lr dr tag overrides l :
  h !! lr = Some (ODict dr) ->
  registry_of (<[lr := ODict (field_set dr "dockerImageTag" (OStr tag))]> h)
    overrides l ->
  registry_of h overrides l.
Proof.
  intros Hlr (d1 & name & Hd1 & Hin).
  destruct (decide (overrides = lr)) as [->|Hne].
  - rewrite lookup_insert_eq in Hd1. injection Hd1 as <-.
    apply elem_of_field_set in Hin as [Hin|[=]]. by exists dr, name.
  - rewrite lookup_insert_ne in Hd1 by done. by exists d1, name.
Qed.

(** X22.  The override writes image tags only, where the objects are.  On
    the store of objects [yaml.safe_load] has built, with a tag supplied: when
    [_apply_prerelease_overrides] returns, no object has appeared or
    disappeared, every mapping has, for every key other than
    [dockerImageTag], the entry it had, and every list is as it was.  An
    object that is neither the [data] mapping nor one the
    [registryOverrides] mapping refers to is unchanged altogether.  A
    registry that is shared through a YAML alias is one object: whoever
    refers to it sees the new tag. *)
Theorem _apply_prerelease_overrides_in_place_frame (tag docs : string)
    (h h' : gmap positive obj) (metadata_dict : oval) :
  _apply_prerelease_overrides_in_place h metadata_dict
    (mkValidatorOptions docs (Some tag)) = Ok h' ->
  exists data d,
    obj_getitem h metadata_dict "data" = Ok (ORef data)
    /\ h !! data = Some (ODict d)
    /\ tags_only h h'
    /\ forall l,
         l <> data ->
         (forall overrides,
            field_get d "registryOverrides" = Some (ORef overrides) ->
            ~ registry_of h overrides l) ->
         h' !! l = h !! l.
Proof.
  unfold _apply_prerelease_overrides_in_place. cbn [prerelease_tag].
  intros H.
  destruct (obj_getitem h metadata_dict "data") as [v|] eqn:Hget;
    [|discriminate H]. cbn [rbind] in H.
  destruct (obj_setitem h v "dockerImageTag" (OStr tag)) as [h1|] eqn:Hset;
    [|discriminate H]. cbn [rbind] in H.
  apply obj_setitem_tag in Hset as (data & d & -> & Hdata & Hh1 & T1 & F1).
  exists data, d. split_and!; [done | done | |].
  all: assert (Hpath : obj_get h1 metadata_dict ["data"; "registryOverrides"]
                       = field_get d "registryOverrides").
  1,3: unfold obj_getitem in Hget;
    destruct metadata_dict as [| | | |root]; try discriminate Hget;
    destruct (h !! root) as [[droot|]|] eqn:Hroot; try discriminate Hget;
    destruct (field_get droot "data") as [x|] eqn:Hx; [|discriminate Hget];
    injection Hget as ->; cbn [obj_get];
    (destruct (decide (root = data)) as [->|Hne];
     [ rewrite Hh1, lookup_insert_eq;
       rewrite Hdata in Hroot; injection Hroot as <-;
       rewrite field_get_set_ne, Hx by done;
       rewrite lookup_insert_eq, field_get_set_ne by done;
       by destruct (field_get d "registryOverrides")
     | rewrite F1, Hroot, Hx by done;
       rewrite Hh1, lookup_insert_eq, field_get_set_ne by done;
       by destruct (field_get d "registryOverrides") ]).
  - rewrite Hpath in H.
    destruct (field_get d "registryOverrides") as [[| | | |overrides]|];
      try discriminate H; [|by injection H as <-].
    destruct (h1 !! overrides) as [[dov|]|]; try discriminate H.
    apply override_registries_in_place_inv in H as [T2 _].
    by eapply tags_only_trans.
  - rewrite Hpath in H. intros l Hl Hreg.
    destruct (field_get d "registryOverrides") as [[| | | |overrides]|];
      try discriminate H; [|injection H as <-; by apply F1].
    destruct (h1 !! overrides) as [[dov|]|]; try discriminate H.
    apply override_registries_in_place_inv in H as [_ F2].
    rewrite F2, F1; [done | done |].
    intros Hr. apply (Hreg overrides eq_refl).
    rewrite Hh1 in Hr. by eapply registry_of_tag_written.
Qed.

Lemma _apply_prerelease_overrides_in_place_frame_witness :
  exists h',
    _apply_prerelease_overrides_in_place demo_store (ORef 1)
      (mkValidatorOptions "/docs" (Some "1.0.0-dev.abc123")) = Ok h'
    /\ obj_get h' (ORef 1) ["data"; "pinned"; "dockerImageTag"]
       = Some (OStr "1.0.0-dev.abc123")
    /\ h' !! 1%positive = demo_store !! 1%positive
    /\ h' !! 6%positive = demo_store !! 6%positive.
Proof.
  destruct (_apply_prerelease_overrides_in_place demo_store (ORef 1)
              (mkValidatorOptions "/docs" (Some "1.0.0-dev.abc123")))
    as [h'|e] eqn:R; [|vm_compute in R; discriminate R].
  exists h'. split; [reflexivity|].
  destruct (_apply_prerelease_overrides_in_place_frame _ _ _ _ _ R)
    as (data & d & Hget & Hdata & _ & Hframe).
  vm_compute in Hget. injection Hget as <-.
  vm_compute in Hdata. injection Hdata as <-.
  assert (Hreg : forall l, l <> 4%positive -> l <> 5%positive ->
            forall overrides,
              field_get
                [("dockerRepository", OStr "airbyte/source-foo");
                 ("dockerImageTag", OStr "2.1.0"); ("pinned", ORef 4);
                 ("registryOverrides", ORef 3); ("tags", ORef 6)]
                "registryOverrides" = Some (ORef overrides) ->
              ~ registry_of demo_store overrides l).
  { intros l H4 H5 overrides [= <-] (dov & name & Hdov & Hin).
    vm_compute in Hdov. injection Hdov as <-.
    rewrite !elem_of_cons, elem_of_nil in Hin.
    destruct Hin as [[= _ ->]|[[= _ ->]|[]]]; done. }
  split_and!.
  - vm_compute in R. injection R as <-. vm_compute. reflexivity.
  - apply Hframe; [done|]. by apply Hreg.
  - apply Hframe; [done|]. by apply Hreg.
Defined.

(** X23.  Overriding twice is overriding once.  When
    [_apply_prerelease_overrides] has returned a document for a tag, applying
    it again with the same tag returns that document unchanged. *)
Theorem _apply_prerelease_overrides_idempotent (tag docs : string)
    (doc doc' : pyval) :
  _apply_prerelease_overrides doc (mkValidatorOptions docs (Some tag))
  = Ok doc' ->
  _apply_prerelease_overrides doc' (mkValidatorOptions docs (Some tag))
  = Ok doc'.
Proof.
  unfold _apply_prerelease_overrides. cbn [prerelease_tag]. intros H.
  destruct doc as [| | | | |d]; try discriminate H. cbn [py_getitem rbind] in H.
  destruct (dict_get d "data") as [data|] eqn:Hdata; [|discriminate H].
  cbn [rbind] in H.
  destruct data as [| | | | |dd]; try discriminate H.
  cbn [py_setitem rbind pydash_get] in H.
  set (dd1 := dict_set dd "dockerImageTag" (PStr tag)) in *.
  set (d1 := dict_set d "data" (PDict dd1)) in *.
  assert (Hd1 : dict_get d1 "data" = Some (PDict dd1))
    by apply dict_get_set_eq.
  assert (Hov : dict_get dd1 "registryOverrides"
                = dict_get dd "registryOverrides")
    by (by apply dict_get_set_ne).
  assert (Htag1 : dict_get dd1 "dockerImageTag" = Some (PStr tag))
    by apply dict_get_set_eq.
  rewrite Hd1, Hov in H.
  destruct (dict_get dd "registryOverrides") as [overrides|] eqn:Hregs.
  - destruct overrides as [| | | | |registries]; try discriminate H.
    cbn [py_items rbind] in H.
    destruct (override_registries tag registries) as [registries'|] eqn:Hloop;
      [|discriminate H].
    cbn [rbind py_getitem] in H. rewrite Hov in H. cbn [py_setitem rbind] in H.
    injection H as <-.
    apply override_registries_inv in Hloop as (_ & _ & Hagain).
    set (dd2 := dict_set dd1 "registryOverrides" (PDict registries')).
    set (d2 := dict_set d1 "data" (PDict dd2)).
    assert (Hd2 : dict_get d2 "data" = Some (PDict dd2))
      by apply dict_get_set_eq.
    assert (Htag2 : dict_get dd2 "dockerImageTag" = Some (PStr tag))
      by (subst dd2; by rewrite dict_get_set_ne).
    assert (Hov2 : dict_get dd2 "registryOverrides"
                   = Some (PDict registries'))
      by apply dict_get_set_eq.
    cbn [py_getitem rbind]. rewrite Hd2. cbn [py_setitem rbind pydash_get].
    rewrite (dict_set_same dd2 _ _ Htag2), (dict_set_same d2 _ _ Hd2).
    rewrite Hd2, Hov2. cbn [py_items rbind]. rewrite Hagain.
    cbn [rbind py_getitem]. rewrite Hov2. cbn [py_setitem rbind].
    by rewrite (dict_set_same dd2 _ _ Hov2), (dict_set_same d2 _ _ Hd2).
  - cbn [py_items rbind override_registries py_getitem] in H.
    rewrite Hov in H. injection H as <-.
    cbn [py_getitem rbind]. rewrite Hd1. cbn [py_setitem rbind pydash_get].
    rewrite (dict_set_same dd1 _ _ Htag1), (dict_set_same d1 _ _ Hd1).
    rewrite Hd1, Hov. cbn [py_items rbind override_registries py_getitem].
    by rewrite Hov.
Qed.

Lemma _apply_prerelease_overrides_idempotent_witness :
  exists doc',
    _apply_prerelease_overrides demo_document
      (mkValidatorOptions "/docs" (Some "1.0.0-dev.abc123")) = Ok doc'
    /\ _apply_prerelease_overrides doc'
         (mkValidatorOptions "/docs" (Some "1.0.0-dev.abc123")) = Ok doc'.
Proof.
  destruct (_apply_prerelease_overrides demo_document
              (mkValidatorOptions "/docs" (Some "1.0.0-dev.abc123")))
    as [doc'|e] eqn:R; [|vm_compute in R; discriminate R].
  exists doc'. split; [reflexivity|].
  exact (_apply_prerelease_overrides_idempotent _ _ _ _ R).
Defined.
